(** * Tamesuke provisioner: a shallow embedding and its verified properties

    The development follows [provisioner.py] (class [TamesukeProvisioner]),
    [api/routes/subdomain.py] and [api/services/cleanup_service.py].

    Python values are embedded as follows.
    - [str] is [string]; a character is a code point below 256.
    - [int] is [Z]; wall-clock readings ([time.time()]) are [Z] milliseconds.
    - an exception is a value of [Exn]; every exception modelled here is a
      subclass of Python's [Exception].
    - [print] writes structured [Line]s (one constructor per message of the
      source) to an output that the program never reads back.
    - the external platforms (Proxmox, Cloudflare, the WebDAV file server,
      the probed URL) are an interface [Platform] over an abstract world;
      every call of it may return or raise, and takes some time.
    - the modules [requests] and [secrets], imported inside the methods that
      use them, are taken to be importable; the two imports that [connect]
      guards with [except ImportError] are calls of the platform. *)

From Stdlib Require Import ZArith List String Ascii Bool Lia DecimalString.
Import ListNotations.
Open Scope string_scope.
Open Scope Z_scope.

(** ** Python strings *)

Module Py.

Definition LF : ascii := "010"%char.

Definition len (s : string) : Z := Z.of_nat (String.length s).

Definition startswith (p s : string) : bool := String.prefix p s.

Fixpoint rev (s : string) : string :=
  match s with
  | EmptyString => EmptyString
  | String c s' => rev s' ++ String c EmptyString
  end.

Definition endswith (p s : string) : bool := String.prefix (rev p) (rev s).

(** [str(n)] for an [int]. *)
Definition str_int (n : Z) : string := NilZero.string_of_int (Z.to_int n).

(** The character class [[a-z0-9-]]. *)
Definition in_class (c : ascii) : bool :=
  let n := nat_of_ascii c in
  ((97 <=? n)%nat && (n <=? 122)%nat)
  || ((48 <=? n)%nat && (n <=? 57)%nat)
  || (n =? 45)%nat.

(** [$] without [re.MULTILINE]: the end of the string, or just before a
    newline that is the last character. *)
Definition at_dollar (rest : string) : bool :=
  match rest with
  | EmptyString => true
  | String c EmptyString => Ascii.eqb c LF
  | _ => false
  end.

(** [[a-z0-9-]+$] tried at the head of [s] with backtracking: one character
    of the class, then either more of them or [$]. *)
Fixpoint plus_class_dollar (s : string) : bool :=
  match s with
  | EmptyString => false
  | String c s' => in_class c && (plus_class_dollar s' || at_dollar s')
  end.

(** [re.match(r'^[a-z0-9-]+$', s)] as a truth value; [re.match] anchors at
    position 0, where [^] holds. *)
Definition re_match_subdomain (s : string) : bool := plus_class_dollar s.

Fixpoint all_chars (p : ascii -> bool) (s : string) : bool :=
  match s with
  | EmptyString => true
  | String c s' => p c && all_chars p s'
  end.

End Py.

(** ** Exceptions *)

Inductive Msg : Type :=
| TooLong (n : Z)                  (* 12 characters at most (now: n) *)
| BadCharset (subdomain : string)  (* lowercase letters, digits, hyphen only *)
| HyphenEdge (subdomain : string)  (* must not start or end with a hyphen *)
| UnsupportedOss (oss_type : string)
| NoFreeVmid
| UploadFailed (status_code : Z)
| ReadyTimeout (timeout : Z).

Inductive Exn : Type :=
| ValueError (m : Msg)
| Exception_ (m : Msg)                        (* [raise Exception(...)] *)
| HTTPException (status_code : Z) (detail : Msg)
| ImportError (what : string)
| RequestException (what : string)            (* requests.exceptions.* *)
| RemoteError (what : string)                 (* any other library error *)
| AttributeError (obj attr : string)
| KeyError (key : string)
| TypeError (what : string).

Inductive Res (A : Type) : Type :=
| Ok (a : A)
| Raise (e : Exn)
| OutOfFuel.
Arguments Ok {A} a.
Arguments Raise {A} e.
Arguments OutOfFuel {A}.

Definition raises {A} (r : Res A) : bool :=
  match r with Raise _ => true | _ => false end.

(** ** SubdomainValidator *)

Module Provisioner_validate.

(** [TamesukeProvisioner._validate_subdomain] *)
Definition _validate_subdomain (subdomain : string) : Res unit :=
  if 12 <? Py.len subdomain then
    Raise (ValueError (TooLong (Py.len subdomain)))
  else if negb (Py.re_match_subdomain subdomain) then
    Raise (ValueError (BadCharset subdomain))
  else if Py.startswith "-" subdomain || Py.endswith "-" subdomain then
    Raise (ValueError (HyphenEdge subdomain))
  else Ok tt.

End Provisioner_validate.

Module Routes_subdomain.

(** [api/routes/subdomain.py: _validate_subdomain] *)
Definition _validate_subdomain (subdomain : string) : Res unit :=
  if 12 <? Py.len subdomain then
    Raise (HTTPException 400 (TooLong (Py.len subdomain)))
  else if negb (Py.re_match_subdomain subdomain) then
    Raise (HTTPException 400 (BadCharset subdomain))
  else if Py.startswith "-" subdomain || Py.endswith "-" subdomain then
    Raise (HTTPException 400 (HyphenEdge subdomain))
  else Ok tt.

End Routes_subdomain.

(** The three rejection rules as the specification words them. *)
Definition spec_invalid (name : string) : bool :=
  (12 <? Py.len name)
  || negb (Py.all_chars Py.in_class name)
  || Py.startswith "-" name || Py.endswith "-" name.

(** ** Dictionaries and JSON *)

Inductive PyVal : Type :=
| PInt (z : Z)
| PStr (s : string)
| PBool (b : bool).

(** A [dict] with [str] keys, in insertion order. *)
Definition dict : Type := list (string * PyVal).

Fixpoint dict_get (k : string) (d : dict) : option PyVal :=
  match d with
  | [] => None
  | (k', v) :: d' => if String.eqb k k' then Some v else dict_get k d'
  end.

Definition dict_in (k : string) (d : dict) : bool :=
  match dict_get k d with Some _ => true | None => false end.

(** [d[k] = v]: an existing key keeps its place, a new key goes last. *)
Fixpoint dict_set (k : string) (v : PyVal) (d : dict) : dict :=
  match d with
  | [] => [(k, v)]
  | (k', v') :: d' =>
      if String.eqb k k' then (k, v) :: d' else (k', v') :: dict_set k v d'
  end.

Definition keys (d : dict) : list string := map fst d.

(** Truth value of [d.get(k)] in an [if]. *)
Definition truthy (v : option PyVal) : bool :=
  match v with
  | None => false
  | Some (PInt z) => negb (z =? 0)
  | Some (PStr s) => negb (String.eqb s "")
  | Some (PBool b) => b
  end.

(** [str(v)], as an f-string renders a value. *)
Definition py_str (v : PyVal) : string :=
  match v with
  | PInt z => Py.str_int z
  | PStr s => s
  | PBool true => "True"
  | PBool false => "False"
  end.

Module Json.

Definition DQ : ascii := "034"%char.

Definition hex_digit (n : nat) : ascii :=
  ascii_of_nat (if (n <? 10)%nat then 48 + n else 87 + n)%nat.

(** One character under [ensure_ascii=True]. *)
Definition escape_char (c : ascii) : string :=
  let n := nat_of_ascii c in
  if (n =? 34)%nat then "\" ++ String DQ ""
  else if (n =? 92)%nat then "\\"
  else if (n =? 10)%nat then "\n"
  else if (n =? 13)%nat then "\r"
  else if (n =? 9)%nat then "\t"
  else if (n =? 8)%nat then "\b"
  else if (n =? 12)%nat then "\f"
  else if ((n <? 32) || (126 <? n))%nat then
    "\u00" ++ String (hex_digit (n / 16)) (String (hex_digit (n mod 16)) "")
  else String c "".

Fixpoint escape (s : string) : string :=
  match s with
  | EmptyString => ""
  | String c s' => escape_char c ++ escape s'
  end.

Definition quote (s : string) : string :=
  String DQ (escape s) ++ String DQ "".

Definition value (v : PyVal) : string :=
  match v with
  | PInt z => Py.str_int z
  | PStr s => quote s
  | PBool true => "true"
  | PBool false => "false"
  end.

Definition item (kv : string * PyVal) : string :=
  "  " ++ quote (fst kv) ++ ": " ++ value (snd kv).

(** [json.dumps(d, indent=2)] for a flat [dict]. *)
Definition dumps_indent2 (d : dict) : string :=
  match d with
  | [] => "{}"
  | _ =>
      let nl := String Py.LF "" in
      "{" ++ nl ++ String.concat ("," ++ nl) (map item d) ++ nl ++ "}"
  end.

End Json.

(** ** The external platforms *)

Module Remote.
(** A tunnel or a DNS record as the client library returns it. *)
Record obj : Type := mk { id : string; name : string }.
End Remote.

Record IngressRule : Type :=
  { ingress_hostname : option string; ingress_service : string }.

Record DnsRecordArgs : Type :=
  { dns_type : string; dns_name : string; dns_content : string;
    dns_ttl : Z; dns_proxied : bool }.

Inductive Call : Type :=
| ImportModule (module : string)
| ProxmoxAPI (host user password : string)   (* verify_ssl=False *)
| VersionGet
| CloudflareClient (api_token : string)
| ClusterResourcesGet                        (* type='vm' *)
| TunnelList (account_id name : string)
| TunnelDelete (tunnel_id : PyVal) (account_id : string)
| TokenBytesHex (nbytes : Z)
| TunnelCreate (account_id name tunnel_secret : string)
| TunnelTokenGet (tunnel_id account_id : string)
| TunnelConfigUpdate (tunnel_id account_id : string)
                     (ingress : list IngressRule)
| DnsList (zone_id name : string)
| DnsDelete (record_id : PyVal) (zone_id : string)
| DnsCreate (zone_id : string) (record : DnsRecordArgs)
| HttpPut (url data : string)                (* JSON content type, timeout=10 *)
| HttpDelete (url : string)                  (* timeout=10 *)
| HttpGet (url : string)                     (* timeout=5, verify=False *)
| LxcClone (node : string) (template_id newid : Z) (hostname : string)
                                             (* full=1, storage='vm-storage' *)
| LxcStart (node : string) (vmid : Z)
| LxcStop (node : string) (vmid : PyVal)
| LxcDelete (node : string) (vmid : PyVal)
| Sleep (seconds : Z).

Inductive Val : Type :=
| VUnit
| VInt (z : Z)
| VStr (s : string)
| VObj (o : Remote.obj)
| VObjs (l : list Remote.obj)
| VInts (l : list Z).

Inductive Outcome : Type :=
| Returned (v : Val)
| Raised (e : Exn).

(** An external call as the trace records it: when it was issued, what was
    called, how it ended. *)
Record Event : Type :=
  mkEvent { issued : Z; call : Call; outcome : Outcome }.

(** What a platform answers: a value or an exception, the world after the
    call, and the time the call took in milliseconds. *)
Record Reply (W A : Type) : Type :=
  mkReply { answer : Exn + A; after : W; took : N }.
Arguments mkReply {W A} answer after took.
Arguments answer {W A} r.
Arguments after {W A} r.
Arguments took {W A} r.

Class Platform (W : Type) : Type :=
  { import_module : string -> W -> Reply W unit;
    proxmox_api : string -> string -> string -> W -> Reply W unit;
    version_get : W -> Reply W string;
    cloudflare_client : string -> W -> Reply W unit;
    cluster_resources_get : W -> Reply W (list Z);
    tunnels_list : string -> string -> W -> Reply W (list Remote.obj);
    tunnels_delete : PyVal -> string -> W -> Reply W unit;
    token_bytes_hex : Z -> W -> Reply W string;
    tunnels_create : string -> string -> string -> W -> Reply W Remote.obj;
    tunnels_token_get : string -> string -> W -> Reply W string;
    tunnels_config_update :
      string -> string -> list IngressRule -> W -> Reply W unit;
    dns_list : string -> string -> W -> Reply W (list Remote.obj);
    dns_delete : PyVal -> string -> W -> Reply W unit;
    dns_create : string -> DnsRecordArgs -> W -> Reply W Remote.obj;
    requests_put : string -> string -> W -> Reply W Z;
    requests_delete : string -> W -> Reply W Z;
    requests_get : string -> W -> Reply W Z;
    lxc_clone : string -> Z -> Z -> string -> W -> Reply W unit;
    lxc_start : string -> Z -> W -> Reply W unit;
    lxc_stop : string -> PyVal -> W -> Reply W unit;
    lxc_delete : string -> PyVal -> W -> Reply W unit;
    (* [datetime.isoformat()] of a UTC instant, with its [+00:00] suffix *)
    isoformat_utc : Z -> string }.

(** ** Printed lines *)

Inductive Line : Type :=
(* connect *)
| L_proxmox_connected (version : string)
| L_cloudflare_connected
| L_library_missing (e : Exn)
| L_install_hint
| L_connect_error (e : Exn)
(* provision *)
| L_banner
| L_start
| L_customer (customer_email : string)
| L_oss (oss_type : string)
| L_subdomain (subdomain : string)
| L_domain (domain : string)
| L_period (duration_days : Z)
| L_step_ok (k : Z) (detail : string)     (* "k. [OK] ..." *)
| L_step10_wait
| L_done
| L_url (url : string)
| L_vmid (vmid : Z)
| L_tunnel_id (tunnel_id : string)
| L_error (e : Exn)
(* pre-clean *)
| L_existing_tunnel_delete (tunnel_id : string)
| L_existing_dns_delete (record_id : string)
(* readiness *)
| L_elapsed (seconds : Z)
(* rollback *)
| L_rollback_start
| L_lxc_stopping (vmid : PyVal)
| L_lxc_deleting (vmid : PyVal)
| L_lxc_deleted (vmid : PyVal)
| L_warn_lxc (vmid : PyVal) (e : Exn)
| L_metadata_deleting
| L_metadata_deleted
| L_warn_metadata (e : Exn)
| L_dns_deleting
| L_dns_deleted
| L_warn_dns (e : Exn)
| L_tunnel_deleting
| L_tunnel_deleted
| L_warn_tunnel (e : Exn)
| L_rollback_done
(* cleanup service, through [logger.info] *)
| L_cleanup_start (vmid : Z) (tunnel_id subdomain : string)
| L_cleanup_done (vmid : Z).

(** The number of "k. [OK]" lines: the steps a run has completed. *)
Fixpoint steps_ok (out : list Line) : nat :=
  match out with
  | [] => O
  | L_step_ok _ _ :: out' => S (steps_ok out')
  | _ :: out' => steps_ok out'
  end.

(** A [[WARN]] line of the rollback. *)
Definition is_warn (l : Line) : bool :=
  match l with
  | L_warn_lxc _ _ | L_warn_metadata _ | L_warn_dns _ | L_warn_tunnel _ => true
  | _ => false
  end.

(** ** The provisioner object *)

Record Self : Type :=
  { proxmox_host : string;
    proxmox_user : string;
    proxmox_password : string;
    cloudflare_token : string;
    cloudflare_account_id : string;
    cloudflare_zone_id : string;
    fileserver_host : string;
    fileserver_port : Z;
    domain : string;
    node : string }.

Definition template_map : list (string * Z) := [("nginx", 8011)].

Definition port_map : list (string * Z) :=
  [("nginx", 80); ("growi", 3000); ("snipeit", 80)].

Fixpoint lookup (k : string) (m : list (string * Z)) : option Z :=
  match m with
  | [] => None
  | (k', v) :: m' => if String.eqb k k' then Some v else lookup k m'
  end.

(** ** State, exceptions and output *)

Section Program.

Context {W : Type} {P : Platform W}.

(** [proxmox] and [cf] are the connection attributes of the provisioner
    ([None] until [connect] sets them); [created_resources] is the dictionary
    that [provision] fills and hands to [_rollback]; [trace] records every
    external call with its outcome. *)
Record State : Type :=
  mkState { world : W;
            clock : Z;
            trace : list Event;
            proxmox : bool;
            cf : bool;
            created_resources : dict }.

Definition M (A : Type) : Type := State -> Res A * State * list Line.

Definition ret {A} (a : A) : M A := fun s => (Ok a, s, []).

Definition raise {A} (e : Exn) : M A := fun s => (Raise e, s, []).

Definition bind {A B} (m : M A) (f : A -> M B) : M B := fun s =>
  let '(r, s1, o1) := m s in
  match r with
  | Ok a => let '(r2, s2, o2) := f a s1 in (r2, s2, (o1 ++ o2)%list)
  | Raise e => (Raise e, s1, o1)
  | OutOfFuel => (OutOfFuel, s1, o1)
  end.

Definition lift {A} (r : Res A) : M A := fun s => (r, s, []).

Definition print (l : Line) : M unit := fun s => (Ok tt, s, [l]).

(** [try: body / except Exception as e: handler e] *)
Definition try_except {A} (body : M A) (handler : Exn -> M A) : M A := fun s =>
  let '(r, s1, o1) := body s in
  match r with
  | Raise e => let '(r2, s2, o2) := handler e s1 in (r2, s2, (o1 ++ o2)%list)
  | _ => (r, s1, o1)
  end.

Definition get {A} (f : State -> A) : M A := fun s => (Ok (f s), s, []).

Definition put (f : State -> State) : M unit := fun s => (Ok tt, f s, []).

Definition set_world (w : W) (s : State) : State :=
  mkState w (clock s) (trace s) (proxmox s) (cf s) (created_resources s).
Definition set_clock (t : Z) (s : State) : State :=
  mkState (world s) t (trace s) (proxmox s) (cf s) (created_resources s).
Definition set_trace (t : list Event) (s : State) : State :=
  mkState (world s) (clock s) t (proxmox s) (cf s) (created_resources s).
Definition set_proxmox (b : bool) (s : State) : State :=
  mkState (world s) (clock s) (trace s) b (cf s) (created_resources s).
Definition set_cf (b : bool) (s : State) : State :=
  mkState (world s) (clock s) (trace s) (proxmox s) b (created_resources s).
Definition set_created_resources (d : dict) (s : State) : State :=
  mkState (world s) (clock s) (trace s) (proxmox s) (cf s) d.

(** One external call: the platform answers, time passes, the call and its
    outcome are recorded. *)
Definition invoke {A} (c : Call) (op : W -> Reply W A) (enc : A -> Val)
  : M A := fun s =>
  let r := op (world s) in
  let s1 := set_world (after r) (set_clock (clock s + Z.of_N (took r)) s) in
  match answer r with
  | inr a =>
      (Ok a,
       set_trace (trace s ++ [mkEvent (clock s) c (Returned (enc a))])%list s1,
       [])
  | inl e =>
      (Raise e,
       set_trace (trace s ++ [mkEvent (clock s) c (Raised e)])%list s1,
       [])
  end.

(** [time.sleep(seconds)] *)
Definition sleep (seconds : Z) : M unit := fun s =>
  (Ok tt,
   set_trace (trace s ++ [mkEvent (clock s) (Sleep seconds) (Returned VUnit)])%list
     (set_clock (clock s + seconds * 1000) s),
   []).

(** [time.time()] *)
Definition time_time : M Z := get clock.

End Program.

Declare Scope prog_scope.
Delimit Scope prog_scope with prog.
Notation "x <- m ;; k" := (bind m (fun x => k))
  (at level 100, m at next level, right associativity) : prog_scope.
Notation "m ;; k" := (bind m (fun _ => k))
  (at level 100, right associativity) : prog_scope.
Open Scope prog_scope.

(** [str.replace(old, new)] for a non-empty [old]; [skip] counts the
    characters of a match still to be dropped. *)
Fixpoint replace_from (skip : nat) (old new s : string) : string :=
  match s with
  | EmptyString => ""
  | String c s' =>
      match skip with
      | S k => replace_from k old new s'
      | O =>
          if String.prefix old s
          then new ++ replace_from (String.length old - 1) old new s'
          else String c (replace_from O old new s')
      end
  end.

Definition replace (old new s : string) : string := replace_from O old new s.

(** [range(lo, lo + count)] *)
Fixpoint range (lo : Z) (count : nat) : list Z :=
  match count with
  | O => []
  | S n => lo :: range (lo + 1) n
  end.

Definition mem (v : Z) (l : list Z) : bool := existsb (Z.eqb v) l.

Module Provisioner.

Section Methods.

Context {W : Type} {P : Platform W} (self : Self).

Local Abbreviation M := (@M W).

(** [for x in xs: body x] *)
Fixpoint for_each {A} (xs : list A) (body : A -> M unit) : M unit :=
  match xs with
  | [] => ret tt
  | x :: xs' => body x ;; for_each xs' body
  end.

(** [TamesukeProvisioner.connect] *)
Definition connect : M unit :=
  try_except
    (invoke (ImportModule "proxmoxer") (import_module "proxmoxer")
            (fun _ => VUnit) ;;
     invoke (ProxmoxAPI (proxmox_host self) (proxmox_user self)
                        (proxmox_password self))
            (proxmox_api (proxmox_host self) (proxmox_user self)
                         (proxmox_password self))
            (fun _ => VUnit) ;;
     put (set_proxmox true) ;;
     version <- invoke VersionGet version_get VStr ;;
     print (L_proxmox_connected version) ;;
     invoke (ImportModule "cloudflare") (import_module "cloudflare")
            (fun _ => VUnit) ;;
     invoke (CloudflareClient (cloudflare_token self))
            (cloudflare_client (cloudflare_token self)) (fun _ => VUnit) ;;
     put (set_cf true) ;;
     print L_cloudflare_connected)
    (fun e =>
       match e with
       | ImportError _ =>
           print (L_library_missing e) ;; print L_install_hint ;;
           print L_install_hint ;; raise e
       | _ => print (L_connect_error e) ;; raise e
       end).

(** [TamesukeProvisioner._rollback] *)
Definition _rollback (resources : dict) (subdomain : string) : M unit :=
  print L_rollback_start ;;
  (match dict_get "vmid" resources with
   | Some vmid =>
       try_except
         (print (L_lxc_stopping vmid) ;;
          try_except
            (invoke (LxcStop (node self) vmid) (lxc_stop (node self) vmid)
                    (fun _ => VUnit) ;;
             sleep 3)
            (fun _ => ret tt) ;;
          print (L_lxc_deleting vmid) ;;
          invoke (LxcDelete (node self) vmid) (lxc_delete (node self) vmid)
                 (fun _ => VUnit) ;;
          print (L_lxc_deleted vmid))
         (fun e => print (L_warn_lxc vmid e))
   | None => ret tt
   end) ;;
  (if dict_in "metadata_uploaded" resources then
     let vmid := dict_get "vmid" resources in
     if truthy vmid then
       try_except
         (let url :=
            "http://" ++ fileserver_host self ++ ":"
            ++ Py.str_int (fileserver_port self) ++ "/upload/metadata-"
            ++ match vmid with Some v => py_str v | None => "None" end
            ++ ".json" in
          print L_metadata_deleting ;;
          invoke (HttpDelete url) (requests_delete url) VInt ;;
          print L_metadata_deleted)
         (fun e => print (L_warn_metadata e))
     else ret tt
   else ret tt) ;;
  (match dict_get "dns_record_id" resources with
   | Some dns_record_id =>
       try_except
         (print L_dns_deleting ;;
          invoke (DnsDelete dns_record_id (cloudflare_zone_id self))
                 (dns_delete dns_record_id (cloudflare_zone_id self))
                 (fun _ => VUnit) ;;
          print L_dns_deleted)
         (fun e => print (L_warn_dns e))
   | None => ret tt
   end) ;;
  (match dict_get "tunnel_id" resources with
   | Some tunnel_id =>
       try_except
         (print L_tunnel_deleting ;;
          invoke (TunnelDelete tunnel_id (cloudflare_account_id self))
                 (tunnels_delete tunnel_id (cloudflare_account_id self))
                 (fun _ => VUnit) ;;
          print L_tunnel_deleted)
         (fun e => print (L_warn_tunnel e))
   | None => ret tt
   end) ;;
  print L_rollback_done.

(** [TamesukeProvisioner._get_next_vmid] *)
Definition _get_next_vmid : M Z :=
  resources <- invoke ClusterResourcesGet cluster_resources_get VInts ;;
  let used_vmids := resources in
  match find (fun vmid => negb (mem vmid used_vmids)) (range 9000 1000) with
  | Some vmid => ret vmid
  | None => raise (Exception_ NoFreeVmid)
  end.

(** [TamesukeProvisioner._create_tunnel] *)
Definition _create_tunnel (vmid : Z) (subdomain : string) : M Remote.obj :=
  let tunnel_name := "service-" ++ Py.str_int vmid ++ "-" ++ subdomain in
  existing_tunnels <-
    invoke (TunnelList (cloudflare_account_id self) tunnel_name)
           (tunnels_list (cloudflare_account_id self) tunnel_name) VObjs ;;
  for_each existing_tunnels (fun tunnel =>
    if String.eqb (Remote.name tunnel) tunnel_name then
      print (L_existing_tunnel_delete (Remote.id tunnel)) ;;
      invoke (TunnelDelete (PStr (Remote.id tunnel))
                           (cloudflare_account_id self))
             (tunnels_delete (PStr (Remote.id tunnel))
                             (cloudflare_account_id self))
             (fun _ => VUnit)
    else ret tt) ;;
  tunnel_secret <- invoke (TokenBytesHex 32) (token_bytes_hex 32) VStr ;;
  invoke (TunnelCreate (cloudflare_account_id self) tunnel_name tunnel_secret)
         (tunnels_create (cloudflare_account_id self) tunnel_name
                         tunnel_secret)
         VObj.

(** [TamesukeProvisioner._get_tunnel_token] *)
Definition _get_tunnel_token (tunnel : Remote.obj) : M string :=
  invoke (TunnelTokenGet (Remote.id tunnel) (cloudflare_account_id self))
         (tunnels_token_get (Remote.id tunnel) (cloudflare_account_id self))
         VStr.

(** [TamesukeProvisioner._configure_tunnel] *)
Definition _configure_tunnel (tunnel_id subdomain oss_type : string)
  : M unit :=
  match lookup oss_type port_map with
  | None => raise (KeyError oss_type)
  | Some port =>
      let hostname := subdomain ++ "." ++ domain self in
      let ingress :=
        [ {| ingress_hostname := Some hostname;
             ingress_service := "http://localhost:" ++ Py.str_int port |};
          {| ingress_hostname := None;
             ingress_service := "http_status:404" |} ] in
      invoke (TunnelConfigUpdate tunnel_id (cloudflare_account_id self)
                                 ingress)
             (tunnels_config_update tunnel_id (cloudflare_account_id self)
                                    ingress)
             (fun _ => VUnit)
  end.

(** [TamesukeProvisioner._create_dns_record] *)
Definition _create_dns_record (subdomain tunnel_id : string) : M string :=
  existing_records <-
    invoke (DnsList (cloudflare_zone_id self) (subdomain ++ "." ++ domain self))
           (dns_list (cloudflare_zone_id self)
                     (subdomain ++ "." ++ domain self))
           VObjs ;;
  for_each existing_records (fun record =>
    if String.eqb (Remote.name record) (subdomain ++ "." ++ domain self) then
      print (L_existing_dns_delete (Remote.id record)) ;;
      invoke (DnsDelete (PStr (Remote.id record)) (cloudflare_zone_id self))
             (dns_delete (PStr (Remote.id record)) (cloudflare_zone_id self))
             (fun _ => VUnit)
    else ret tt) ;;
  let dns_record :=
    {| dns_type := "CNAME";
       dns_name := subdomain;
       dns_content := tunnel_id ++ ".cfargotunnel.com";
       dns_ttl := 1;
       dns_proxied := true |} in
  result <- invoke (DnsCreate (cloudflare_zone_id self) dns_record)
                   (dns_create (cloudflare_zone_id self) dns_record) VObj ;;
  ret (Remote.id result).

(** [TamesukeProvisioner._create_metadata] *)
Definition _create_metadata
  (vmid : Z) (email subdomain oss_type tunnel_token : string) : M dict :=
  now <- time_time ;;
  ret [ ("vmid", PInt vmid);
        ("hostname", PStr subdomain);
        ("subdomain", PStr subdomain);
        ("customer_email", PStr email);
        ("oss_type", PStr oss_type);
        ("url", PStr ("https://" ++ subdomain ++ "." ++ domain self));
        ("tunnel_token", PStr tunnel_token);
        ("created_at", PStr (replace "+00:00" "Z" (isoformat_utc now))) ].

(** The status codes [_upload_metadata] takes for a success. *)
Definition upload_ok (status_code : Z) : bool := mem status_code [200; 201; 204].

(** [TamesukeProvisioner._upload_metadata] *)
Definition _upload_metadata (vmid : Z) (metadata : dict) : M unit :=
  let url :=
    "http://" ++ fileserver_host self ++ ":" ++ Py.str_int (fileserver_port self)
    ++ "/upload/metadata-" ++ Py.str_int vmid ++ ".json" in
  let metadata_json := Json.dumps_indent2 metadata in
  status_code <- invoke (HttpPut url metadata_json)
                        (requests_put url metadata_json) VInt ;;
  if negb (upload_ok status_code) then
    raise (Exception_ (UploadFailed status_code))
  else ret tt.

(** [TamesukeProvisioner._clone_lxc] *)
Definition _clone_lxc (vmid : Z) (oss_type subdomain : string) : M unit :=
  match lookup oss_type template_map with
  | None => raise (KeyError oss_type)
  | Some template_id =>
      let hostname := subdomain in
      invoke (LxcClone (node self) template_id vmid hostname)
             (lxc_clone (node self) template_id vmid hostname)
             (fun _ => VUnit) ;;
      sleep 5
  end.

(** [TamesukeProvisioner._start_lxc] *)
Definition _start_lxc (vmid : Z) : M unit :=
  invoke (LxcStart (node self) vmid) (lxc_start (node self) vmid)
         (fun _ => VUnit) ;;
  sleep 3.

(** The body of the [while] loop of [_wait_for_ready], once per unit of
    [fuel]. *)
Fixpoint wait_loop (fuel : nat) (url : string) (timeout start_time : Z)
  : M bool :=
  match fuel with
  | O => fun s => (OutOfFuel, s, [])
  | S fuel' =>
      now <- time_time ;;
      if now - start_time <? timeout * 1000 then
        ready <- try_except
                   (status_code <- invoke (HttpGet url) (requests_get url)
                                          VInt ;;
                    ret (status_code <? 500))
                   (fun e =>
                      match e with
                      | RequestException _ => ret false
                      | _ => raise e
                      end) ;;
        if ready then ret true
        else
          sleep 10 ;;
          now' <- time_time ;;
          let elapsed := Z.quot (now' - start_time) 1000 in
          print (L_elapsed elapsed) ;;
          wait_loop fuel' url timeout start_time
      else raise (Exception_ (ReadyTimeout timeout))
  end.

(** Every pass of the loop sleeps ten seconds, so this many passes reach
    the deadline. *)
Definition wait_fuel (timeout : Z) : nat := S (S (Z.to_nat (timeout / 10))).

(** [TamesukeProvisioner._wait_for_ready] *)
Definition _wait_for_ready (url : string) (timeout : Z) : M bool :=
  start_time <- time_time ;;
  wait_loop (wait_fuel timeout) url timeout start_time.

(** [created_resources[k] = v] *)
Definition record_resource (k : string) (v : PyVal) : M unit :=
  put (fun s => set_created_resources (dict_set k v (created_resources s)) s).

(** The [try] block of [provision]: steps 1 to 10. *)
Definition provision_try (customer_email oss_type subdomain : string)
  : M dict :=
  (* Step 1 *)
  vmid <- _get_next_vmid ;;
  print (L_step_ok 1 (Py.str_int vmid)) ;;
  (* Step 2 *)
  tunnel <- _create_tunnel vmid subdomain ;;
  let tunnel_id := Remote.id tunnel in
  record_resource "tunnel_id" (PStr tunnel_id) ;;
  print (L_step_ok 2 tunnel_id) ;;
  (* Step 3 *)
  tunnel_token <- _get_tunnel_token tunnel ;;
  print (L_step_ok 3 "") ;;
  (* Step 4 *)
  _configure_tunnel tunnel_id subdomain oss_type ;;
  print (L_step_ok 4 "") ;;
  (* Step 5 *)
  dns_record_id <- _create_dns_record subdomain tunnel_id ;;
  record_resource "dns_record_id" (PStr dns_record_id) ;;
  print (L_step_ok 5 (subdomain ++ "." ++ domain self)) ;;
  (* Step 6 *)
  metadata <- _create_metadata vmid customer_email subdomain oss_type
                               tunnel_token ;;
  print (L_step_ok 6 "") ;;
  (* Step 7 *)
  _upload_metadata vmid metadata ;;
  record_resource "vmid" (PInt vmid) ;;
  record_resource "metadata_uploaded" (PBool true) ;;
  print (L_step_ok 7 "") ;;
  (* Step 8 *)
  _clone_lxc vmid oss_type subdomain ;;
  print (L_step_ok 8 "") ;;
  (* Step 9 *)
  _start_lxc vmid ;;
  print (L_step_ok 9 "") ;;
  (* Step 10 *)
  let url := "https://" ++ subdomain ++ "." ++ domain self in
  print L_step10_wait ;;
  _wait_for_ready url 300 ;;
  print (L_step_ok 10 "") ;;
  let result :=
    [ ("vmid", PInt vmid);
      ("tunnel_id", PStr tunnel_id);
      ("url", PStr url);
      ("status", PStr "active") ] in
  print L_banner ;; print L_done ;; print L_banner ;;
  print (L_url url) ;; print (L_vmid vmid) ;; print (L_tunnel_id tunnel_id) ;;
  print L_banner ;;
  ret result.

(** The [except Exception as e] clause of [provision]. *)
Definition provision_except (subdomain : string) (e : Exn) : M dict :=
  print (L_error e) ;;
  created_resources <- get created_resources ;;
  _rollback created_resources subdomain ;;
  raise e.

(** [TamesukeProvisioner.provision] *)
Definition provision
  (customer_email oss_type subdomain : string) (duration_days : Z) : M dict :=
  print L_banner ;; print L_start ;; print L_banner ;;
  print (L_customer customer_email) ;;
  print (L_oss oss_type) ;;
  print (L_subdomain subdomain) ;;
  print (L_domain (domain self)) ;;
  print (L_period duration_days) ;;
  print L_banner ;;
  lift (Provisioner_validate._validate_subdomain subdomain) ;;
  (if negb (existsb (String.eqb oss_type) (map fst template_map)) then
     raise (ValueError (UnsupportedOss oss_type))
   else ret tt) ;;
  proxmox <- get proxmox ;;
  cf <- get cf ;;
  (if negb proxmox || negb cf then connect else ret tt) ;;
  put (set_created_resources []) ;;
  try_except (provision_try customer_email oss_type subdomain)
             (provision_except subdomain).

End Methods.

End Provisioner.

(** ** The API services *)

Module Api.

(** The attributes [__init__] sets on a [TamesukeProvisioner]. *)
Definition instance_attributes : list string :=
  [ "proxmox_host"; "proxmox_user"; "proxmox_password"; "cloudflare_token";
    "cloudflare_account_id"; "cloudflare_zone_id"; "fileserver_host";
    "fileserver_port"; "domain"; "node"; "proxmox"; "cf"; "template_map";
    "port_map" ].

(** The methods the class [TamesukeProvisioner] defines. *)
Definition methods : list string :=
  [ "__init__"; "connect"; "_validate_subdomain"; "_rollback"; "provision";
    "_get_next_vmid"; "_create_tunnel"; "_get_tunnel_token";
    "_configure_tunnel"; "_create_dns_record"; "_create_metadata";
    "_upload_metadata"; "_clone_lxc"; "_start_lxc"; "_wait_for_ready" ].

(** Attribute lookup on a provisioner: [provisioner.attr]. *)
Definition getattr (attr : string) : Res string :=
  if existsb (String.eqb attr) (instance_attributes ++ methods)
  then Ok attr
  else Raise (AttributeError "TamesukeProvisioner" attr).

Section Services.

Context {W : Type} {P : Platform W} (self : Self).

Local Abbreviation M := (@M W).

(** [provision_service._get_provisioner]: built and connected on the first
    call, cached afterwards ([lru_cache]); a provisioner whose [connect]
    raised is not cached. *)
Definition _get_provisioner : M unit :=
  proxmox <- get proxmox ;;
  cf <- get cf ;;
  if proxmox && cf then ret tt
  else
    put (set_proxmox false) ;; put (set_cf false) ;;
    Provisioner.connect self.

(** [provisioner.cleanup(vmid=..., tunnel_id=..., subdomain=...)]: the
    attribute is looked up, then called with these keyword arguments, which
    no attribute of the class accepts. *)
Definition provisioner_cleanup (vmid : Z) (tunnel_id subdomain : string)
  : M unit :=
  attr <- lift (getattr "cleanup") ;;
  raise (TypeError attr).

(** [cleanup_service.run_cleanup]; the executor runs the call and hands its
    result or exception back to the awaiting caller. *)
Definition run_cleanup (vmid : Z) (tunnel_id subdomain : string) : M unit :=
  print (L_cleanup_start vmid tunnel_id subdomain) ;;
  _get_provisioner ;;
  provisioner_cleanup vmid tunnel_id subdomain ;;
  print (L_cleanup_done vmid).

End Services.

End Api.

(** ** A fake platform

    An in-memory stand-in for the four external systems, used to run the
    provisioner on concrete inputs.  [faults] injects failures: a call it
    maps to an exception raises that exception and changes nothing. *)

Module Fake.

Record World : Type :=
  mkWorld { zone : string;                  (* the DNS zone's domain *)
            lxcs : list (Z * bool);         (* vmid, running *)
            tunnels : list Remote.obj;
            records : list Remote.obj;      (* named by full domain name *)
            files : list (string * string); (* url, body *)
            put_status : Z;                 (* the file server's answer to PUT *)
            probes : list (option Z);       (* answers of the probed URL *)
            faults : Call -> option Exn;
            retired : list string }.        (* identifiers of deleted objects *)

Definition ids (l : list Remote.obj) : list string := map Remote.id l.

(** An identifier longer than every identifier in [used]. *)
Definition fresh (used : list string) : string :=
  String "i" (String.concat "" used).

Definition has_id (i : string) (o : Remote.obj) : bool :=
  String.eqb (Remote.id o) i.

Definition named (n : string) (o : Remote.obj) : bool :=
  String.eqb (Remote.name o) n.

Definition without (i : string) (l : list Remote.obj) : list Remote.obj :=
  filter (fun o => negb (has_id i o)) l.

Definition ok {A} (a : A) (w : World) : Reply World A := mkReply (inr a) w 0.

Definition fail {A} (e : Exn) (w : World) : Reply World A :=
  mkReply (inl e) w 0.

Definition guarded {A} (c : Call) (real : World -> Reply World A) (w : World)
  : Reply World A :=
  match faults w c with
  | Some e => fail e w
  | None => real w
  end.

Definition set_lxcs (l : list (Z * bool)) (w : World) : World :=
  mkWorld (zone w) l (tunnels w) (records w) (files w) (put_status w)
          (probes w) (faults w) (retired w).
Definition set_tunnels (l : list Remote.obj) (w : World) : World :=
  mkWorld (zone w) (lxcs w) l (records w) (files w) (put_status w)
          (probes w) (faults w) (retired w).
Definition set_records (l : list Remote.obj) (w : World) : World :=
  mkWorld (zone w) (lxcs w) (tunnels w) l (files w) (put_status w)
          (probes w) (faults w) (retired w).
Definition set_files (l : list (string * string)) (w : World) : World :=
  mkWorld (zone w) (lxcs w) (tunnels w) (records w) l (put_status w)
          (probes w) (faults w) (retired w).
Definition retire (i : string) (w : World) : World :=
  mkWorld (zone w) (lxcs w) (tunnels w) (records w) (files w) (put_status w)
          (probes w) (faults w) (i :: retired w).

(** The identifiers a new object must differ from: those in use and those
    of deleted objects. *)
Definition taken (w : World) : list string :=
  (ids (tunnels w) ++ ids (records w) ++ retired w)%list.

Definition set_probes (l : list (option Z)) (w : World) : World :=
  mkWorld (zone w) (lxcs w) (tunnels w) (records w) (files w) (put_status w)
          l (faults w) (retired w).

Definition has_lxc (v : Z) (w : World) : bool :=
  existsb (fun x => Z.eqb (fst x) v) (lxcs w).

Definition drop_lxc (v : Z) (w : World) : World :=
  set_lxcs (filter (fun x => negb (Z.eqb (fst x) v)) (lxcs w)) w.

Definition delete_tunnel (i : PyVal) (w : World) : Reply World unit :=
  match i with
  | PStr i =>
      if existsb (has_id i) (tunnels w)
      then ok tt (set_tunnels (without i (tunnels w)) (retire i w))
      else fail (RemoteError "tunnel not found") w
  | _ => fail (TypeError "tunnel id") w
  end.

Definition create_tunnel (n : string) (w : World) : Reply World Remote.obj :=
  let t := Remote.mk (fresh (taken w)) n in
  ok t (set_tunnels (tunnels w ++ [t]) w).

Definition delete_record (i : PyVal) (w : World) : Reply World unit :=
  match i with
  | PStr i =>
      if existsb (has_id i) (records w)
      then ok tt (set_records (without i (records w)) (retire i w))
      else fail (RemoteError "record not found") w
  | _ => fail (TypeError "record id") w
  end.

(** The zone stores a record under its full domain name. *)
Definition create_record (r : DnsRecordArgs) (w : World)
  : Reply World Remote.obj :=
  let o := Remote.mk (fresh (taken w)) (dns_name r ++ "." ++ zone w) in
  ok o (set_records (records w ++ [o]) w).

Definition put_file (url data : string) (w : World) : Reply World Z :=
  if (200 <=? put_status w) && (put_status w <? 300)
  then ok (put_status w)
          (set_files
             (filter (fun f => negb (String.eqb (fst f) url)) (files w)
              ++ [(url, data)]) w)
  else ok (put_status w) w.

Definition delete_file (url : string) (w : World) : Reply World Z :=
  if existsb (fun f => String.eqb (fst f) url) (files w)
  then ok 204
          (set_files (filter (fun f => negb (String.eqb (fst f) url)) (files w))
                     w)
  else ok 404 w.

Definition probe (w : World) : Reply World Z :=
  match probes w with
  | Some status :: rest => ok status (set_probes rest w)
  | None :: rest => fail (RequestException "connection refused")
                         (set_probes rest w)
  | [] => fail (RequestException "connection refused") w
  end.

Definition clone (newid : Z) (w : World) : Reply World unit :=
  if has_lxc newid w then fail (RemoteError "vmid in use") w
  else ok tt (set_lxcs (lxcs w ++ [(newid, false)]) w).

Definition start (v : Z) (w : World) : Reply World unit :=
  if has_lxc v w
  then ok tt (set_lxcs (map (fun x => if Z.eqb (fst x) v then (v, true) else x)
                            (lxcs w)) w)
  else fail (RemoteError "no such container") w.

Definition stop (v : PyVal) (w : World) : Reply World unit :=
  match v with
  | PInt v =>
      if existsb (fun x => Z.eqb (fst x) v && snd x) (lxcs w)
      then ok tt (set_lxcs (map (fun x => if Z.eqb (fst x) v then (v, false)
                                          else x) (lxcs w)) w)
      else fail (RemoteError "container not running") w
  | _ => fail (TypeError "vmid") w
  end.

Definition destroy (v : PyVal) (w : World) : Reply World unit :=
  match v with
  | PInt v =>
      if has_lxc v w then ok tt (drop_lxc v w)
      else fail (RemoteError "no such container") w
  | _ => fail (TypeError "vmid") w
  end.

#[global] Instance platform : Platform World :=
  {| import_module m := guarded (ImportModule m) (ok tt);
     proxmox_api h u p := guarded (ProxmoxAPI h u p) (ok tt);
     version_get := guarded VersionGet (ok "8.2");
     cloudflare_client t := guarded (CloudflareClient t) (ok tt);
     cluster_resources_get :=
       guarded ClusterResourcesGet (fun w => ok (map fst (lxcs w)) w);
     tunnels_list a n :=
       guarded (TunnelList a n) (fun w => ok (filter (named n) (tunnels w)) w);
     tunnels_delete i a := guarded (TunnelDelete i a) (delete_tunnel i);
     token_bytes_hex n := guarded (TokenBytesHex n) (ok "5ec2e7");
     tunnels_create a n s := guarded (TunnelCreate a n s) (create_tunnel n);
     tunnels_token_get i a := guarded (TunnelTokenGet i a) (ok ("token-" ++ i));
     tunnels_config_update i a g := guarded (TunnelConfigUpdate i a g) (ok tt);
     dns_list z n :=
       guarded (DnsList z n) (fun w => ok (filter (named n) (records w)) w);
     dns_delete i z := guarded (DnsDelete i z) (delete_record i);
     dns_create z r := guarded (DnsCreate z r) (create_record r);
     requests_put u d := guarded (HttpPut u d) (put_file u d);
     requests_delete u := guarded (HttpDelete u) (delete_file u);
     requests_get u := guarded (HttpGet u) probe;
     lxc_clone n t v h := guarded (LxcClone n t v h) (clone v);
     lxc_start n v := guarded (LxcStart n v) (start v);
     lxc_stop n v := guarded (LxcStop n v) (stop v);
     lxc_delete n v := guarded (LxcDelete n v) (destroy v);
     isoformat_utc t := "T" ++ Py.str_int t ++ "+00:00" |}.

(** No resource at all, every call succeeds, the URL answers 200 at once. *)
Definition empty (z : string) : World :=
  mkWorld z [] [] [] [] 200 [Some 200] (fun _ => None) [].

Definition with_faults (f : Call -> option Exn) (w : World) : World :=
  mkWorld (zone w) (lxcs w) (tunnels w) (records w) (files w) (put_status w)
          (probes w) f (retired w).

Definition with_put_status (status : Z) (w : World) : World :=
  mkWorld (zone w) (lxcs w) (tunnels w) (records w) (files w) status
          (probes w) (faults w) (retired w).

Definition with_probes (l : list (option Z)) (w : World) : World :=
  set_probes l w.

Definition with_tunnels (l : list Remote.obj) (w : World) : World :=
  set_tunnels l w.

Definition with_records (l : list Remote.obj) (w : World) : World :=
  set_records l w.

Definition initial (w : World) : @State World :=
  mkState w 0 [] false false [].

(** A provisioner that has connected already. *)
Definition connected (w : World) : @State World :=
  mkState w 0 [] true true [].

(** The state after the call [c] returned [v] at once and left the world as
    [w']. *)
Definition returned (s : @State World) (c : Call) (v : Val) (w' : World)
  : @State World :=
  set_trace (trace s ++ [mkEvent (clock s) c (Returned v)])%list
            (set_world w' (set_clock (clock s + Z.of_N 0) s)).

(** What is left of [l] once the objects [gone] are deleted one by one. *)
Definition purge (gone l : list Remote.obj) : list Remote.obj :=
  fold_left (fun rest x => without (Remote.id x) rest) gone l.

End Fake.

Definition demo_self : Self :=
  {| proxmox_host := "pve.example";
     proxmox_user := "root@pam";
     proxmox_password := "secret";
     cloudflare_token := "cf-token";
     cloudflare_account_id := "acct";
     cloudflare_zone_id := "zone";
     fileserver_host := "10.0.0.5";
     fileserver_port := 8080;
     domain := "persys.jp";
     node := "odin" |}.


(** A platform on which cloning the template fails and all else works. *)
Definition clone_fails (c : Call) : option Exn :=
  match c with
  | LxcClone _ _ _ _ => Some (RemoteError "clone failed")
  | _ => None
  end.

(** A platform whose tunnel broker answers "not found" to a delete. *)
Definition tunnel_delete_not_found (c : Call) : option Exn :=
  match c with
  | TunnelDelete _ _ => Some (RemoteError "tunnel not found")
  | _ => None
  end.

(** A platform whose DNS zone answers "not found" to a delete. *)
Definition dns_delete_not_found (c : Call) : option Exn :=
  match c with
  | DnsDelete _ _ => Some (RemoteError "record not found")
  | _ => None
  end.

(** A platform that holds one tunnel and one DNS record under the names the
    request for [demo7] on container 9000 will use. *)
Definition occupied : Fake.World :=
  Fake.with_tunnels [Remote.mk "old-tunnel" "service-9000-demo7"]
    (Fake.with_records [Remote.mk "old-record" "demo7.persys.jp"]
       (Fake.empty "persys.jp")).

(** ** Observations on runs *)

(** The address of the metadata document of an instance, as
    [_upload_metadata] and [_rollback] both spell it. *)
Definition metadata_url (self : Self) (vmid : string) : string :=
  "http://" ++ fileserver_host self ++ ":" ++ Py.str_int (fileserver_port self)
  ++ "/upload/metadata-" ++ vmid ++ ".json".

(** A resource in one of the external systems. *)
Inductive ResourceRef : Type :=
| R_tunnel (tunnel_id : string)
| R_dns (record_id : string)
| R_metadata (url : string)
| R_instance (vmid : Z).

(** What a recorded call created.  A metadata document counts as created
    when the PUT was answered by a status the uploader accepts. *)
Definition created_by (ev : Event) : list ResourceRef :=
  match call ev, outcome ev with
  | TunnelCreate _ _ _, Returned (VObj t) => [R_tunnel (Remote.id t)]
  | DnsCreate _ _, Returned (VObj r) => [R_dns (Remote.id r)]
  | HttpPut url _, Returned (VInt status_code) =>
      if Provisioner.upload_ok status_code then [R_metadata url] else []
  | LxcClone _ _ newid _, Returned _ => [R_instance newid]
  | _, _ => []
  end.

Definition created (evs : list Event) : list ResourceRef :=
  flat_map created_by evs.

(** The resource a ledger entry stands for: [_rollback] deletes the
    container on ['vmid'] and the metadata document on
    ['metadata_uploaded']. *)
Definition entry_ref (self : Self) (d : dict) (kv : string * PyVal)
  : list ResourceRef :=
  let (k, v) := kv in
  if String.eqb k "tunnel_id" then
    match v with PStr i => [R_tunnel i] | _ => [] end
  else if String.eqb k "dns_record_id" then
    match v with PStr i => [R_dns i] | _ => [] end
  else if String.eqb k "vmid" then
    match v with PInt z => [R_instance z] | _ => [] end
  else if String.eqb k "metadata_uploaded" then
    match dict_get "vmid" d with
    | Some z => [R_metadata (metadata_url self (py_str z))]
    | None => []
    end
  else [].

Definition ledger_refs (self : Self) (d : dict) : list ResourceRef :=
  flat_map (entry_ref self d) d.

(** The ledger once [n] steps have printed their "[OK]" line. *)
Definition ledger_at (n : nat) (vmid : Z) (tunnel_id dns_record_id : string)
  : dict :=
  ((if (2 <=? n)%nat then [("tunnel_id", PStr tunnel_id)] else [])
   ++ (if (5 <=? n)%nat then [("dns_record_id", PStr dns_record_id)] else [])
   ++ (if (7 <=? n)%nat
       then [("vmid", PInt vmid); ("metadata_uploaded", PBool true)]
       else []))%list.

(** The resources the first [n] steps create. *)
Definition created_at (self : Self) (n : nat) (vmid : Z)
  (tunnel_id dns_record_id : string) : list ResourceRef :=
  ((if (2 <=? n)%nat then [R_tunnel tunnel_id] else [])
   ++ (if (5 <=? n)%nat then [R_dns dns_record_id] else [])
   ++ (if (7 <=? n)%nat
       then [R_metadata (metadata_url self (Py.str_int vmid))] else [])
   ++ (if (8 <=? n)%nat then [R_instance vmid] else []))%list.

(** The compensations of a rollback after [n] completed steps. *)
Definition compensations_at (self : Self) (n : nat) (vmid : Z)
  (tunnel_id dns_record_id : string) : list Call :=
  ((if (7 <=? n)%nat
    then [ LxcStop (node self) (PInt vmid);
           LxcDelete (node self) (PInt vmid);
           HttpDelete (metadata_url self (Py.str_int vmid)) ]
    else [])
   ++ (if (5 <=? n)%nat
       then [DnsDelete (PStr dns_record_id) (cloudflare_zone_id self)] else [])
   ++ (if (2 <=? n)%nat
       then [TunnelDelete (PStr tunnel_id) (cloudflare_account_id self)]
       else []))%list.

Definition is_sleep (c : Call) : bool :=
  match c with Sleep _ => true | _ => false end.

(** The calls of a trace segment, the pauses left out. *)
Definition calls_of (evs : list Event) : list Call :=
  filter (fun c => negb (is_sleep c)) (map call evs).

Definition failed (ev : Event) : bool :=
  match outcome ev with Raised _ => true | Returned _ => false end.

(** The warning [_rollback] prints for a compensation that raised. *)
Definition warning_for (ev : Event) : list Line :=
  match call ev, outcome ev with
  | LxcDelete _ v, Raised e => [L_warn_lxc v e]
  | HttpDelete _, Raised e => [L_warn_metadata e]
  | DnsDelete _ _, Raised e => [L_warn_dns e]
  | TunnelDelete _ _, Raised e => [L_warn_tunnel e]
  | _, _ => []
  end.




(** A probe of the readiness wait and how it ended. *)
Definition is_probe (ev : Event) : bool :=
  match call ev with HttpGet _ => true | _ => false end.

Definition not_ready (o : Outcome) : Prop :=
  (exists status_code, o = Returned (VInt status_code) /\ 500 <= status_code)
  \/ (exists what, o = Raised (RequestException what)).

(** Rounds of a failed probe followed by the ten-second pause. *)
Fixpoint retry_rounds (url : string) (evs : list Event) : Prop :=
  match evs with
  | [] => True
  | p :: rest =>
      match rest with
      | [] => False
      | z :: rest' =>
          call p = HttpGet url /\ not_ready (outcome p)
          /\ call z = Sleep 10 /\ retry_rounds url rest'
      end
  end.

Definition is_request_exception (e : Exn) : bool :=
  match e with RequestException _ => true | _ => false end.

Definition is_period (l : Line) : bool :=
  match l with L_period _ => true | _ => false end.

(** The kind of resource a ledger key stands for. *)
Inductive Kind : Type := tunnel | dns | metadata | instance.

Definition kind_of_key (k : string) : option Kind :=
  if String.eqb k "tunnel_id" then Some tunnel
  else if String.eqb k "dns_record_id" then Some dns
  else if String.eqb k "vmid" then Some instance
  else if String.eqb k "metadata_uploaded" then Some metadata
  else None.

(** [s'] is [s] after the calls [evs]: the trace grew by [evs], the clock
    did not go back, and the ledger and the connection attributes are as
    they were. *)
Definition extends {W} (s s' : @State W) (evs : list Event) : Prop :=
  trace s' = (trace s ++ evs)%list
  /\ created_resources s' = created_resources s
  /\ proxmox s' = proxmox s
  /\ cf s' = cf s
  /\ clock s <= clock s'.

(** A computation is [quiet] up to [cr] when it leaves the ledger alone,
    prints no "[OK]" line, and the resources its calls created are [cr a]
    when it returned [a] and none when it did not. *)
Definition quiet {W A} (m : @M W A) (cr : A -> list ResourceRef) : Prop :=
  forall s r s' o,
    m s = (r, s', o) ->
    exists evs,
      extends s s' evs
      /\ steps_ok o = O
      /\ created evs = match r with Ok a => cr a | _ => [] end.

(** A computation [ends] when it does not run out of fuel. *)
Definition ends {W A} (m : @M W A) : Prop :=
  forall s s' o, m s = (OutOfFuel, s', o) -> False.

(** The compensations [_rollback] issues for a ledger [d], in its order. *)
Definition rollback_calls (self : Self) (d : dict) : list Call :=
  ((match dict_get "vmid" d with
    | Some vmid => [LxcStop (node self) vmid; LxcDelete (node self) vmid]
    | None => []
    end)
   ++ (if dict_in "metadata_uploaded" d && truthy (dict_get "vmid" d) then
         match dict_get "vmid" d with
         | Some vmid => [HttpDelete (metadata_url self (py_str vmid))]
         | None => []
         end
       else [])
   ++ (match dict_get "dns_record_id" d with
       | Some i => [DnsDelete i (cloudflare_zone_id self)]
       | None => []
       end)
   ++ (match dict_get "tunnel_id" d with
       | Some i => [TunnelDelete i (cloudflare_account_id self)]
       | None => []
       end))%list.

(** A computation [compensates] with the calls [cs] when, whatever the
    platform answers, it returns, its calls (pauses apart) are [cs], and
    the warnings it prints are those of its calls that raised. *)
Definition compensates {W} (m : @M W unit) (cs : list Call) : Prop :=
  forall s, exists s' o comp,
    m s = (Ok tt, s', o)
    /\ extends s s' comp
    /\ calls_of comp = cs
    /\ filter is_warn o = flat_map warning_for comp.

(** The lines [provision] prints before it validates its input. *)
Definition header (self : Self) (customer_email oss_type subdomain : string)
  (duration_days : Z) : list Line :=
  [ L_banner; L_start; L_banner; L_customer customer_email; L_oss oss_type;
    L_subdomain subdomain; L_domain (domain self); L_period duration_days;
    L_banner ].

(** C3 as worded: the ledger names exactly the resources created. *)
Definition ledger_exact (self : Self) (d : dict) (evs : list Event) : Prop :=
  forall x, In x (ledger_refs self d) <-> In x (created evs).

(** What one call of the waiter leaves behind, from the state [s] it was
    entered in and the instant [start] it counts from. *)
Definition wait_outcome {W} (url : string) (timeout start : Z)
  (s : @State W) (r : Res bool) (s' : @State W) : Prop :=
  exists evs,
    extends s s' evs
    /\ (forall ev, In ev evs -> is_probe ev = true ->
                   issued ev - start < timeout * 1000)
    /\ match r with
       | Ok b =>
           b = true
           /\ exists pre p status_code,
               evs = (pre ++ [p])%list /\ retry_rounds url pre
               /\ call p = HttpGet url
               /\ outcome p = Returned (VInt status_code)
               /\ status_code < 500
       | Raise e =>
           (e = Exception_ (ReadyTimeout timeout)
            /\ retry_rounds url evs
            /\ timeout * 1000 <= clock s' - start)
           \/ (is_request_exception e = false
               /\ exists pre p,
                   evs = (pre ++ [p])%list /\ retry_rounds url pre
                   /\ call p = HttpGet url /\ outcome p = Raised e)
       | OutOfFuel => False
       end.

(** ** Observations on the rest of the code *)

(** The calls of a [connect] that goes through, in order. *)
Definition connect_calls (self : Self) : list Call :=
  [ ImportModule "proxmoxer";
    ProxmoxAPI (proxmox_host self) (proxmox_user self) (proxmox_password self);
    VersionGet;
    ImportModule "cloudflare";
    CloudflareClient (cloudflare_token self) ].

(** [oss_type in self.template_map] *)
Definition supported (oss_type : string) : bool :=
  existsb (String.eqb oss_type) (map fst template_map).


(** A platform on which the login to the compute platform fails. *)
Definition login_fails (c : Call) : option Exn :=
  match c with
  | ProxmoxAPI _ _ _ => Some (RemoteError "login failed")
  | _ => None
  end.

(** The name [_create_tunnel] gives the tunnel of an instance. *)
Definition tunnel_name (vmid : Z) (subdomain : string) : string :=
  "service-" ++ Py.str_int vmid ++ "-" ++ subdomain.

(** The objects of a listing that carry exactly the name asked for. *)
Definition same_name (name : string) (listed : list Remote.obj)
  : list Remote.obj :=
  filter (fun o => String.eqb (Remote.name o) name) listed.

(** The dictionary [_create_metadata] builds, for a creation time already
    rendered. *)
Definition metadata_document (self : Self) (vmid : Z)
  (email subdomain oss_type tunnel_token created_at : string) : dict :=
  [ ("vmid", PInt vmid);
    ("hostname", PStr subdomain);
    ("subdomain", PStr subdomain);
    ("customer_email", PStr email);
    ("oss_type", PStr oss_type);
    ("url", PStr ("https://" ++ subdomain ++ "." ++ domain self));
    ("tunnel_token", PStr tunnel_token);
    ("created_at", PStr created_at) ].

(** ** Scripts of external calls *)

(** What was called and how it was answered, event by event. *)
Definition exchanges (evs : list Event) : list (Call * Outcome) :=
  map (fun ev => (call ev, outcome ev)) evs.

(** The events [evs] follow [script] up to one of its calls, which raised
    [e] instead of giving the answer of the script. *)
Definition stopped (evs : list Event) (script : list (Call * Outcome))
  (e : Exn) : Prop :=
  exists done c o rest,
    script = (done ++ (c, o) :: rest)%list
    /\ exchanges evs = (done ++ [(c, Raised e)])%list.

(** [_create_tunnel] when every call is answered: the listing returns
    [listed], each listed tunnel with exactly the name is deleted, the
    secret drawn is [secret] and the tunnel created with it is [t]. *)
Definition create_tunnel_script (self : Self) (vmid : Z) (subdomain : string)
  (listed : list Remote.obj) (secret : string) (t : Remote.obj)
  : list (Call * Outcome) :=
  let account := cloudflare_account_id self in
  let name := tunnel_name vmid subdomain in
  ((TunnelList account name, Returned (VObjs listed))
   :: map (fun o => (TunnelDelete (PStr (Remote.id o)) account,
                     Returned VUnit))
          (same_name name listed)
   ++ [ (TokenBytesHex 32, Returned (VStr secret));
        (TunnelCreate account name secret, Returned (VObj t)) ])%list.

(** [_create_dns_record] when every call is answered: the listing returns
    [listed], each listed record with exactly the host name is deleted, and
    the record created is [record]. *)
Definition create_dns_record_script (self : Self)
  (subdomain tunnel_id : string) (listed : list Remote.obj)
  (record : Remote.obj) : list (Call * Outcome) :=
  let zone := cloudflare_zone_id self in
  let fqdn := subdomain ++ "." ++ domain self in
  ((DnsList zone fqdn, Returned (VObjs listed))
   :: map (fun o => (DnsDelete (PStr (Remote.id o)) zone, Returned VUnit))
          (same_name fqdn listed)
   ++ [ (DnsCreate zone
           {| dns_type := "CNAME"; dns_name := subdomain;
              dns_content := tunnel_id ++ ".cfargotunnel.com";
              dns_ttl := 1; dns_proxied := true |},
         Returned (VObj record)) ])%list.

(** The steps 1 to 9 of a run that went through, call by call with the
    answer each call got: [used] are the identifiers in use, [old_tunnels]
    and [old_records] what the two listings returned, [secret] the secret
    drawn, [t] the tunnel and [record] the DNS record created, [token] the
    token read, [status] the answer of the file server. *)
Definition saga_script (self : Self) (customer_email subdomain : string)
  (used : list Z) (vmid : Z) (old_tunnels : list Remote.obj)
  (secret : string) (t : Remote.obj) (token : string)
  (old_records : list Remote.obj) (record : Remote.obj)
  (created_at : string) (status : Z) : list (Call * Outcome) :=
  let fqdn := subdomain ++ "." ++ domain self in
  ([ (ClusterResourcesGet, Returned (VInts used)) ]
   ++ create_tunnel_script self vmid subdomain old_tunnels secret t
   ++ [ (TunnelTokenGet (Remote.id t) (cloudflare_account_id self),
         Returned (VStr token));
        (TunnelConfigUpdate (Remote.id t) (cloudflare_account_id self)
           [ {| ingress_hostname := Some fqdn;
                ingress_service := "http://localhost:80" |};
             {| ingress_hostname := None;
                ingress_service := "http_status:404" |} ],
         Returned VUnit) ]
   ++ create_dns_record_script self subdomain (Remote.id t) old_records
        record
   ++ [ (HttpPut (metadata_url self (Py.str_int vmid))
           (Json.dumps_indent2
              (metadata_document self vmid customer_email subdomain "nginx"
                 token created_at)),
         Returned (VInt status));
        (LxcClone (node self) 8011 vmid subdomain, Returned VUnit);
        (Sleep 5, Returned VUnit);
        (LxcStart (node self) vmid, Returned VUnit);
        (Sleep 3, Returned VUnit) ])%list.

(** ** The availability route *)

Module Routes.

(** The loop of [_check_dns]: [False] at the first record that carries
    exactly the name, [True] when the records are exhausted. *)
Fixpoint no_record_named (fqdn : string) (records : list Remote.obj) : bool :=
  match records with
  | [] => true
  | record :: rest =>
      if String.eqb (Remote.name record) fqdn then false
      else no_record_named fqdn rest
  end.

Section Handlers.

(** The settings of the application are those the provisioner of the
    services is built from. *)
Context {W : Type} {P : Platform W} (settings : Self).

Local Abbreviation M := (@M W).

(** [api/routes/subdomain.py: _check_dns] *)
Definition _check_dns (subdomain : string) : M bool :=
  invoke (CloudflareClient (cloudflare_token settings))
         (cloudflare_client (cloudflare_token settings)) (fun _ => VUnit) ;;
  let fqdn := subdomain ++ "." ++ domain settings in
  records <- invoke (DnsList (cloudflare_zone_id settings) fqdn)
                    (dns_list (cloudflare_zone_id settings) fqdn) VObjs ;;
  ret (no_record_named fqdn records).

(** [api/routes/subdomain.py: check_subdomain]; the executor hands the
    result or the exception of [_check_dns] back to the handler. *)
Definition check_subdomain (subdomain : string) : M dict :=
  lift (Routes_subdomain._validate_subdomain subdomain) ;;
  available <- _check_dns subdomain ;;
  ret [("available", PBool available); ("subdomain", PStr subdomain)].

End Handlers.

End Routes.

(** ** Failure injection by operation *)

(** Two calls of the same operation, whatever their arguments. *)
Definition same_op (c d : Call) : bool :=
  match c, d with
  | ImportModule _, ImportModule _
  | ProxmoxAPI _ _ _, ProxmoxAPI _ _ _
  | VersionGet, VersionGet
  | CloudflareClient _, CloudflareClient _
  | ClusterResourcesGet, ClusterResourcesGet
  | TunnelList _ _, TunnelList _ _
  | TunnelDelete _ _, TunnelDelete _ _
  | TokenBytesHex _, TokenBytesHex _
  | TunnelCreate _ _ _, TunnelCreate _ _ _
  | TunnelTokenGet _ _, TunnelTokenGet _ _
  | TunnelConfigUpdate _ _ _, TunnelConfigUpdate _ _ _
  | DnsList _ _, DnsList _ _
  | DnsDelete _ _, DnsDelete _ _
  | DnsCreate _ _, DnsCreate _ _
  | HttpPut _ _, HttpPut _ _
  | HttpDelete _, HttpDelete _
  | HttpGet _, HttpGet _
  | LxcClone _ _ _ _, LxcClone _ _ _ _
  | LxcStart _ _, LxcStart _ _
  | LxcStop _ _, LxcStop _ _
  | LxcDelete _ _, LxcDelete _ _
  | Sleep _, Sleep _ => true
  | _, _ => false
  end.

(** A platform on which every call of the operation of [c] raises [e]. *)
Definition fails_like (c : Call) (e : Exn) (d : Call) : option Exn :=
  if same_op c d then Some e else None.

(** The four deletes the rollback relies on. *)
Definition is_delete (c : Call) : bool :=
  match c with
  | TunnelDelete _ _ | DnsDelete _ _ | HttpDelete _ | LxcDelete _ _ => true
  | _ => false
  end.

(** No tunnel, record, document or container is left on the fake
    platform. *)
Definition nothing_left (w : Fake.World) : Prop :=
  Fake.tunnels w = [] /\ Fake.records w = [] /\ Fake.files w = []
  /\ Fake.lxcs w = [].

(** ** The provisioning service *)

(** The records [run_provision] hands to its logger. *)
Inductive LogRecord : Type :=
| Log_provision_start (customer_email oss_type subdomain : string)
                      (duration_days : Z)
| Log_provision_done (vmid url : option PyVal)
| Log_subscription_deleted (vmid_str subdomain : option string)
| Log_cleanup_skipped (vmid_str tunnel_id subdomain : option string)
| Log_thankyou_failed (e : Exn).

Module Provision_service.

Section Service.

Context {W : Type} {P : Platform W} (settings : Self).

(** [provision_service.run_provision]: the start is logged, the cached
    provisioner is fetched (and connected on its first use), [provision]
    runs in the executor, which hands its result or exception back, and the
    result is logged. *)
Definition run_provision (customer_email oss_type subdomain : string)
  (duration_days : Z) (s : @State W)
  : Res dict * @State W * list Line * list LogRecord :=
  let start :=
    Log_provision_start customer_email oss_type subdomain duration_days in
  let '(r1, s1, o1) := Api._get_provisioner settings s in
  match r1 with
  | Ok _ =>
      let '(r2, s2, o2) :=
        Provisioner.provision settings customer_email oss_type subdomain
          duration_days s1 in
      match r2 with
      | Ok result =>
          (Ok result, s2, (o1 ++ o2)%list,
           [start;
            Log_provision_done (dict_get "vmid" result)
                               (dict_get "url" result)])
      | _ => (r2, s2, (o1 ++ o2)%list, [start])
      end
  | Raise e => (Raise e, s1, o1, [start])
  | OutOfFuel => (OutOfFuel, s1, o1, [start])
  end.

End Service.

End Provision_service.

(** ** The webhook of the payment provider *)

Module Webhook.

(** The [customer] of a subscription: its identifier, the expanded object
    with its [email], or nothing. *)
Inductive Customer : Type :=
| Customer_id (id : string)
| Customer_object (email : option string)
| Customer_absent.

(** The subscription object of a [customer.subscription.deleted] event;
    the values of its metadata are strings. *)
Record Subscription : Type :=
  { subscription_metadata : list (string * string);
    customer : Customer }.

(** [metadata.get(k)] *)
Fixpoint metadata_get (k : string) (metadata : list (string * string))
  : option string :=
  match metadata with
  | [] => None
  | (k', v) :: rest => if String.eqb k k' then Some v else metadata_get k rest
  end.

(** Truth value of an optional string. *)
Definition given (v : option string) : bool :=
  match v with
  | Some x => negb (String.eqb x "")
  | None => false
  end.

Section Handlers.

Context {W : Type} {P : Platform W} (settings : Self).

(** [int(vmid_str)], and the thank-you mail of the mail service. *)
Variable py_int : string -> Exn + Z.
Variable send_thankyou_email : string -> string -> @M W unit.

(** [api/routes/webhook.py: _handle_subscription_deleted] *)
Definition _handle_subscription_deleted (subscription : Subscription)
  (s : @State W) : Res unit * @State W * list Line * list LogRecord :=
  let metadata := subscription_metadata subscription in
  let vmid_str := metadata_get "vmid" metadata in
  let tunnel_id := metadata_get "tunnel_id" metadata in
  let subdomain := metadata_get "subdomain" metadata in
  let customer_email :=
    match customer subscription with
    | Customer_object email => email
    | Customer_id id => Some id
    | Customer_absent => None
    end in
  let deleted := Log_subscription_deleted vmid_str subdomain in
  let skipped :=
    (Ok tt, s, [], [deleted; Log_cleanup_skipped vmid_str tunnel_id subdomain])
  in
  if negb (given vmid_str && given tunnel_id && given subdomain) then skipped
  else
    match vmid_str, tunnel_id, subdomain with
    | Some vmid_str, Some tunnel_id, Some subdomain =>
        match py_int vmid_str with
        | inl e => (Raise e, s, [], [deleted])
        | inr vmid =>
            let '(r1, s1, o1) :=
              Api.run_cleanup settings vmid tunnel_id subdomain s in
            match r1 with
            | Ok _ =>
                match customer_email with
                | Some email =>
                    if given (Some email) then
                      let '(r2, s2, o2) :=
                        send_thankyou_email email subdomain s1 in
                      match r2 with
                      | Raise e =>
                          (Ok tt, s2, (o1 ++ o2)%list,
                           [deleted; Log_thankyou_failed e])
                      | _ => (r2, s2, (o1 ++ o2)%list, [deleted])
                      end
                    else (Ok tt, s1, o1, [deleted])
                | None => (Ok tt, s1, o1, [deleted])
                end
            | Raise e => (Raise e, s1, o1, [deleted])
            | OutOfFuel => (OutOfFuel, s1, o1, [deleted])
            end
        end
    | _, _, _ => skipped
    end.

End Handlers.

End Webhook.

(** A subscription whose metadata name the instance of the example. *)
Definition demo_subscription : Webhook.Subscription :=
  {| Webhook.subscription_metadata :=
       [("subdomain", "demo7"); ("vmid", "9000"); ("tunnel_id", "i")];
     Webhook.customer := Webhook.Customer_object (Some "a@b.com") |}.

(** [int] on the identifier of the example, an error on any other text. *)
Definition demo_int (x : string) : Exn + Z :=
  if String.eqb x "9000" then inr 9000 else inl (ValueError (BadCharset x)).

(** ** The price table of the payment service *)

Module Stripe_service.

(** The two price settings of [api/config.py: Settings]. *)
Record Prices : Type :=
  { stripe_price_nginx_7d : string;
    stripe_price_nginx_14d : string }.

(** The [ValueError] of [_get_price_id]. *)
Inductive PriceError : Type :=
| UnsupportedCombination (oss_type : string) (duration_days : Z).

(** [_PRICE_FIELD_MAP]: the settings field of a pair of environment kind
    and duration. *)
Definition _PRICE_FIELD_MAP : list (string * Z * (Prices -> string)) :=
  [ ("nginx", 7, stripe_price_nginx_7d);
    ("nginx", 14, stripe_price_nginx_14d) ].

(** [_PRICE_FIELD_MAP.get(key)] *)
Fixpoint price_field (oss_type : string) (duration_days : Z)
  (m : list (string * Z * (Prices -> string))) : option (Prices -> string) :=
  match m with
  | [] => None
  | (o, d, field) :: rest =>
      if String.eqb oss_type o && (duration_days =? d) then Some field
      else price_field oss_type duration_days rest
  end.

(** [stripe_service._get_price_id] *)
Definition _get_price_id (settings : Prices) (oss_type : string)
  (duration_days : Z) : PriceError + string :=
  match price_field oss_type duration_days _PRICE_FIELD_MAP with
  | None => inl (UnsupportedCombination oss_type duration_days)
  | Some field => inr (field settings)
  end.

End Stripe_service.

(** * Properties *)

(** ** SubdomainValidator *)

Section Validator.

Local Abbreviation one c := (String c EmptyString).

Lemma rev_cons_nonempty (a : ascii) (s : string) :
  exists h t, Py.rev (String a s) = String h t.
Proof.
  revert a; induction s as [|b s IH]; intros a; simpl.
  - now exists a, "".
  - destruct (IH b) as (h & t & E). simpl in E. rewrite E.
    now exists h, (t ++ one a).
Qed.

Lemma endswith_cons (c a b : ascii) (s : string) :
  Py.endswith (one c) (String a (String b s))
  = Py.endswith (one c) (String b s).
Proof.
  unfold Py.endswith.
  change (Py.rev (String a (String b s)))
    with (Py.rev (String b s) ++ one a).
  destruct (rev_cons_nonempty b s) as (h & t & E). rewrite E. simpl.
  destruct (ascii_dec c h); [|reflexivity].
  destruct t; reflexivity.
Qed.

Lemma endswith_one (c a : ascii) :
  Py.endswith (one c) (one a) = Ascii.eqb c a.
Proof.
  unfold Py.endswith; simpl.
  destruct (ascii_dec c a) as [->|N].
  - now rewrite Ascii.eqb_refl.
  - symmetry. now apply Ascii.eqb_neq.
Qed.

(** Away from the trailing-newline case the pattern accepts exactly the
    non-empty strings over the class. *)
Lemma re_match_no_newline (s : string) :
  Py.endswith (one Py.LF) s = false ->
  Py.re_match_subdomain s
  = match s with EmptyString => false | _ => Py.all_chars Py.in_class s end.
Proof.
  unfold Py.re_match_subdomain.
  induction s as [|c s IH]; intros E; [reflexivity|].
  destruct s as [|c' s'].
  - simpl. now destruct (Py.in_class c).
  - rewrite endswith_cons in E. specialize (IH E).
    change (Py.plus_class_dollar (String c (String c' s')))
      with (Py.in_class c
            && (Py.plus_class_dollar (String c' s')
                || Py.at_dollar (String c' s'))).
    rewrite IH.
    assert (D : Py.at_dollar (String c' s') = false).
    { destruct s'; [|reflexivity]. simpl.
      rewrite endswith_one in E. now rewrite Ascii.eqb_sym. }
    rewrite D, orb_false_r. reflexivity.
Qed.

Lemma provisioner_raises (s : string) :
  raises (Provisioner_validate._validate_subdomain s)
  = (12 <? Py.len s) || negb (Py.re_match_subdomain s)
    || Py.startswith "-" s || Py.endswith "-" s.
Proof.
  unfold Provisioner_validate._validate_subdomain.
  destruct (12 <? Py.len s); [reflexivity|].
  destruct (Py.re_match_subdomain s); [|reflexivity].
  destruct (Py.startswith "-" s), (Py.endswith "-" s); reflexivity.
Qed.

Lemma route_raises (s : string) :
  raises (Routes_subdomain._validate_subdomain s)
  = raises (Provisioner_validate._validate_subdomain s).
Proof.
  unfold Routes_subdomain._validate_subdomain,
    Provisioner_validate._validate_subdomain.
  destruct (12 <? Py.len s); [reflexivity|].
  destruct (negb (Py.re_match_subdomain s)); [reflexivity|].
  destruct (Py.startswith "-" s || Py.endswith "-" s); reflexivity.
Qed.

Lemma raises_no_newline (s : string) :
  Py.endswith (one Py.LF) s = false ->
  raises (Provisioner_validate._validate_subdomain s) = true
  <-> s = "" \/ spec_invalid s = true.
Proof.
  intros E. rewrite provisioner_raises, (re_match_no_newline s E).
  unfold spec_invalid. destruct s as [|c s].
  - simpl. tauto.
  - split; [intros H; now right|intros [H|H]; [discriminate|exact H]].
Qed.

End Validator.

(** C8, as the code has it.  For every name that does not end in a newline,
    both validators raise if and only if the name is empty, or longer than
    12 characters, or has a character outside [a-z0-9-], or starts or ends
    with a hyphen.  Validation is a pure function: lifted into a run it
    leaves the state alone and prints nothing.  "demo-7" is accepted;
    "DEMO", "-demo", "demo-" and every name of 13 or more characters are
    rejected. *)
Theorem validate_iff :
  (forall name,
      Py.endswith (String Py.LF "") name = false ->
      (raises (Provisioner_validate._validate_subdomain name) = true
       <-> name = "" \/ spec_invalid name = true)
      /\ (raises (Routes_subdomain._validate_subdomain name) = true
          <-> name = "" \/ spec_invalid name = true))
  /\ (forall W name (s : @State W),
         lift (Provisioner_validate._validate_subdomain name) s
         = (Provisioner_validate._validate_subdomain name, s, []))
  /\ Provisioner_validate._validate_subdomain "demo-7" = Ok tt
  /\ Routes_subdomain._validate_subdomain "demo-7" = Ok tt
  /\ Provisioner_validate._validate_subdomain "DEMO"
     = Raise (ValueError (BadCharset "DEMO"))
  /\ Provisioner_validate._validate_subdomain "-demo"
     = Raise (ValueError (HyphenEdge "-demo"))
  /\ Provisioner_validate._validate_subdomain "demo-"
     = Raise (ValueError (HyphenEdge "demo-"))
  /\ (forall name,
         (13 <= String.length name)%nat ->
         Provisioner_validate._validate_subdomain name
         = Raise (ValueError (TooLong (Py.len name)))
         /\ Routes_subdomain._validate_subdomain name
            = Raise (HTTPException 400 (TooLong (Py.len name)))).
Proof.
  repeat split; try reflexivity.
  - now apply raises_no_newline.
  - now apply raises_no_newline.
  - rewrite route_raises. now apply raises_no_newline.
  - rewrite route_raises. now apply raises_no_newline.
  - unfold Provisioner_validate._validate_subdomain.
    replace (12 <? Py.len name) with true; [reflexivity|].
    symmetry. apply Z.ltb_lt. unfold Py.len. lia.
  - unfold Routes_subdomain._validate_subdomain.
    replace (12 <? Py.len name) with true; [reflexivity|].
    symmetry. apply Z.ltb_lt. unfold Py.len. lia.
Qed.

Lemma validate_iff_witness :
  (raises (Provisioner_validate._validate_subdomain "demo-7") = true
   <-> "demo-7" = "" \/ spec_invalid "demo-7" = true)
  /\ (raises (Routes_subdomain._validate_subdomain "demo-7") = true
      <-> "demo-7" = "" \/ spec_invalid "demo-7" = true)
  /\ Provisioner_validate._validate_subdomain "abcdefghijklm"
     = Raise (ValueError (TooLong 13)).
Proof.
  split; [|split].
  - exact (proj1 (proj1 validate_iff "demo-7" eq_refl)).
  - exact (proj2 (proj1 validate_iff "demo-7" eq_refl)).
  - exact (proj1 (proj2 (proj2 (proj2 (proj2 (proj2 (proj2 (proj2
             validate_iff))))))
             "abcdefghijklm" (le_n 13))).
Defined.

(** C8 as the specification words it fails on the empty name: none of the
    three rules applies to it, yet both validators raise. *)
Lemma validate_iff_empty_counterexample :
  ~ (raises (Provisioner_validate._validate_subdomain "") = true
     <-> spec_invalid "" = true)
  /\ ~ (raises (Routes_subdomain._validate_subdomain "") = true
        <-> spec_invalid "" = true).
Proof.
  split; intros [H _]; specialize (H eq_refl); discriminate H.
Qed.

(** The trailing-newline names that C8's amended statement leaves out: the
    pattern's [$] lets one through. *)
Example validate_trailing_newline :
  Provisioner_validate._validate_subdomain ("demo" ++ String Py.LF "") = Ok tt
  /\ spec_invalid ("demo" ++ String Py.LF "") = true.
Proof. split; reflexivity. Qed.

(** C9.  The empty name is rejected by the character-set rule: its length
    is not above 12 and it neither starts nor ends with a hyphen, but the
    pattern needs at least one character. *)
Theorem validate_empty :
  Provisioner_validate._validate_subdomain ""
  = Raise (ValueError (BadCharset ""))
  /\ Routes_subdomain._validate_subdomain ""
     = Raise (HTTPException 400 (BadCharset ""))
  /\ (12 <? Py.len "") = false
  /\ Py.startswith "-" "" = false
  /\ Py.endswith "-" "" = false
  /\ Py.re_match_subdomain "" = false.
Proof. repeat split. Qed.

(** ** Running a program: inversion of the combinators *)

Section Combinators.

Context {W : Type}.

Local Abbreviation State := (@State W).
Local Abbreviation M := (@M W).

Lemma bind_inv {A B} (m : M A) (f : A -> M B) (s s' : State) r o :
  bind m f s = (r, s', o) ->
  (exists a s1 o1 o2,
      m s = (Ok a, s1, o1) /\ f a s1 = (r, s', o2) /\ o = (o1 ++ o2)%list)
  \/ (exists e, m s = (Raise e, s', o) /\ r = Raise e)
  \/ (m s = (OutOfFuel, s', o) /\ r = OutOfFuel).
Proof.
  unfold bind. destruct (m s) as [[r1 s1] o1]. destruct r1 as [a|e|].
  - destruct (f a s1) as [[r2 s2] o2] eqn:E. intros H; inversion H; subst.
    left. now exists a, s1, o1, o2.
  - intros H; inversion H; subst. right; left. now exists e.
  - intros H; inversion H; subst. now right; right.
Qed.

Lemma try_except_inv {A} (body : M A) (handler : Exn -> M A)
  (s s' : State) r o :
  try_except body handler s = (r, s', o) ->
  (exists e s1 o1 o2,
      body s = (Raise e, s1, o1) /\ handler e s1 = (r, s', o2)
      /\ o = (o1 ++ o2)%list)
  \/ (exists a, body s = (Ok a, s', o) /\ r = Ok a)
  \/ (body s = (OutOfFuel, s', o) /\ r = OutOfFuel).
Proof.
  unfold try_except. destruct (body s) as [[r1 s1] o1]. destruct r1 as [a|e|].
  - intros H; inversion H; subst. right; left. now exists a.
  - destruct (handler e s1) as [[r2 s2] o2] eqn:E. intros H; inversion H; subst.
    left. now exists e, s1, o1, o2.
  - intros H; inversion H; subst. now right; right.
Qed.

Lemma ret_inv {A} (a : A) (s s' : State) r o :
  ret a s = (r, s', o) -> r = Ok a /\ s' = s /\ o = [].
Proof. unfold ret. intros H; inversion H; auto. Qed.

Lemma raise_inv {A} e (s s' : State) (r : Res A) o :
  raise e s = (r, s', o) -> r = Raise e /\ s' = s /\ o = [].
Proof. unfold raise. intros H; inversion H; auto. Qed.

Lemma print_inv l (s s' : State) r o :
  print l s = (r, s', o) -> r = Ok tt /\ s' = s /\ o = [l].
Proof. unfold print. intros H; inversion H; auto. Qed.

Lemma get_inv {A} (f : State -> A) (s s' : State) r o :
  get f s = (r, s', o) -> r = Ok (f s) /\ s' = s /\ o = [].
Proof. unfold get. intros H; inversion H; auto. Qed.

Lemma put_inv (f : State -> State) (s s' : State) r o :
  put f s = (r, s', o) -> r = Ok tt /\ s' = f s /\ o = [].
Proof. unfold put. intros H; inversion H; auto. Qed.

Lemma extends_refl (s : State) : extends s s [].
Proof. unfold extends. rewrite app_nil_r. repeat split; lia. Qed.

Lemma extends_trans (s s1 s2 : State) e1 e2 :
  extends s s1 e1 -> extends s1 s2 e2 -> extends s s2 (e1 ++ e2).
Proof.
  unfold extends. intros (T1 & L1 & P1 & C1 & K1) (T2 & L2 & P2 & C2 & K2).
  rewrite T2, T1, app_assoc. repeat split; try congruence; lia.
Qed.

Lemma invoke_inv {A} c (op : W -> Reply W A) enc (s s' : State) r o :
  invoke c op enc s = (r, s', o) ->
  o = []
  /\ world s' = after (op (world s))
  /\ clock s' = clock s + Z.of_N (took (op (world s)))
  /\ exists oc,
      extends s s' [mkEvent (clock s) c oc]
      /\ match answer (op (world s)) with
         | inr a => r = Ok a /\ oc = Returned (enc a)
         | inl e => r = Raise e /\ oc = Raised e
         end.
Proof.
  unfold invoke. destruct (answer (op (world s))) as [e|a];
    intros H; inversion H; subst; clear H; simpl;
    (split; [reflexivity|]); (split; [reflexivity|]);
    (split; [reflexivity|]);
    eexists; (split; [|split; reflexivity]);
    unfold extends; simpl; repeat split; lia.
Qed.

Lemma sleep_inv seconds (s s' : State) r o :
  0 <= seconds ->
  sleep seconds s = (r, s', o) ->
  r = Ok tt /\ o = [] /\ world s' = world s
  /\ clock s' = clock s + seconds * 1000
  /\ extends s s' [mkEvent (clock s) (Sleep seconds) (Returned VUnit)].
Proof.
  unfold sleep. intros Hs H; inversion H; subst; clear H; simpl.
  repeat split; simpl; lia.
Qed.

Lemma steps_ok_app o1 o2 : steps_ok (o1 ++ o2) = (steps_ok o1 + steps_ok o2)%nat.
Proof.
  induction o1 as [|l o1 IH]; [reflexivity|].
  destruct l; simpl; rewrite IH; reflexivity.
Qed.

End Combinators.

Lemma lift_inv {W A} (x : Res A) (s s' : @State W) r o :
  lift x s = (r, s', o) -> r = x /\ s' = s /\ o = [].
Proof. unfold lift. intros H; inversion H; auto. Qed.

(** Use an equation between results. *)
Ltac inv_res H :=
  lazymatch type of H with
  | ?x = ?x => clear H
  | Ok _ = Ok _ =>
      injection H as H;
      lazymatch type of H with
      | ?x = _ => first [is_var x; subst x | idtac]
      end
  | Raise _ = Raise _ =>
      injection H as H;
      lazymatch type of H with
      | ?x = _ => first [is_var x; subst x | idtac]
      end
  | ?x = _ => first [is_var x; subst x | discriminate H | idtac]
  end.

(** Take apart a hypothesis [H] that runs a [bind] or a [try_except]: [R1]
    is the run of its first part, [R2], when the first part went through
    (or, for [try_except], raised), the run of what follows. *)
Ltac minv_as H R1 R2 :=
  let a := fresh "a" in
  let s1 := fresh "s" in
  let o1 := fresh "o" in
  let o2 := fresh "o" in
  let e := fresh "e" in
  let Hr := fresh "Hr" in
  lazymatch type of H with
  | bind _ _ _ = _ =>
      apply bind_inv in H;
      destruct H as [(a & s1 & o1 & o2 & R1 & R2 & ->)
                    | [(e & R1 & Hr) | (R1 & Hr)]];
      [ | inv_res Hr | inv_res Hr ]
  | try_except _ _ _ = _ =>
      apply try_except_inv in H;
      destruct H as [(e & s1 & o1 & o2 & R1 & R2 & ->)
                    | [(a & R1 & Hr) | (R1 & Hr)]];
      [ | inv_res Hr | inv_res Hr ]
  end.

(** Resolve the run of a leaf: [ret], [raise], [print], [get], [put],
    [lift]. *)
Ltac minv H :=
  lazymatch type of H with
  | ret _ _ = _ =>
      apply ret_inv in H; destruct H as (H & -> & ->); inv_res H
  | raise _ _ = _ =>
      apply raise_inv in H; destruct H as (H & -> & ->); inv_res H
  | print _ _ = _ =>
      apply print_inv in H; destruct H as (H & -> & ->); inv_res H
  | get _ _ = _ =>
      apply get_inv in H; destruct H as (H & -> & ->); inv_res H
  | time_time _ = _ =>
      apply get_inv in H; destruct H as (H & -> & ->); inv_res H
  | put _ _ = _ =>
      apply put_inv in H; destruct H as (H & -> & ->); inv_res H
  | lift _ _ = _ =>
      apply lift_inv in H; destruct H as (H & -> & ->); inv_res H
  end.

(** Resolve every leaf in the context; a leaf that cannot have ended as
    assumed closes the goal. *)
Ltac minv_leaf :=
  match goal with
  | H : ret _ _ = _ |- _ => minv H
  | H : raise _ _ = _ |- _ => minv H
  | H : print _ _ = _ |- _ => minv H
  | H : get _ _ = _ |- _ => minv H
  | H : time_time _ = _ |- _ => minv H
  | H : put _ _ = _ |- _ => minv H
  | H : lift _ _ = _ |- _ => minv H
  end.

Ltac msimp := repeat minv_leaf.

Tactic Notation "mstep" hyp(H) "as" ident(R1) ident(R2) :=
  (minv_as H R1 R2; msimp).

(** ** ReadinessWaiter *)

Section Readiness.

Context {W : Type} {P : Platform W}.

Local Abbreviation State := (@State W).

Lemma retry_rounds_cons url p z evs :
  call p = HttpGet url -> not_ready (outcome p) -> call z = Sleep 10 ->
  retry_rounds url evs -> retry_rounds url (p :: z :: evs).
Proof. intros; simpl; auto. Qed.

(** A round that found the service not ready, followed by the rest of the
    wait. *)
Lemma wait_outcome_round url timeout start (s s1 s2 s' : State) p r :
  extends s s1 [p] -> issued p = clock s ->
  clock s - start < timeout * 1000 ->
  call p = HttpGet url -> not_ready (outcome p) ->
  extends s1 s2 [mkEvent (clock s1) (Sleep 10) (Returned VUnit)] ->
  wait_outcome url timeout start s2 r s' ->
  wait_outcome url timeout start s r s'.
Proof.
  intros E1 Ip Hlt Cp Np E2 (evs & E3 & Hp & Hr).
  set (z := mkEvent (clock s1) (Sleep 10) (Returned VUnit)) in *.
  exists (p :: z :: evs). split; [|split].
  - change (p :: z :: evs) with ([p] ++ [z] ++ evs)%list.
    eapply extends_trans; [exact E1|].
    eapply extends_trans; [exact E2|exact E3].
  - intros ev [<-|[<-|Hin]] Hprobe.
    + rewrite Ip. exact Hlt.
    + discriminate Hprobe.
    + now apply Hp.
  - destruct r as [b|e|]; [| |exact Hr].
    + destruct Hr as (-> & pre & q & st & -> & Hpre & Cq & Oq & Hst).
      split; [reflexivity|].
      exists (p :: z :: pre), q, st. repeat split; auto.
    + destruct Hr as [(-> & Hrounds & Hclock)|(Hne & pre & q & -> & Hpre & Cq & Oq)].
      * left. repeat split; auto.
      * right. split; [exact Hne|].
        exists (p :: z :: pre), q. repeat split; auto.
Qed.

Lemma wait_loop_outcome url timeout start :
  forall fuel (s s' : State) r o,
    (1 <= fuel)%nat ->
    timeout * 1000 - (clock s - start) <= 10000 * (Z.of_nat fuel - 1) ->
    Provisioner.wait_loop fuel url timeout start s = (r, s', o) ->
    wait_outcome url timeout start s r s'.
Proof.
  induction fuel as [|fuel IH]; intros s s' r o Hfuel Hrem H; [lia|].
  cbn [Provisioner.wait_loop] in H.
  mstep H as Hnow Hbody.
  destruct (clock s - start <? timeout * 1000) eqn:Hlt.
  2:{ apply Z.ltb_ge in Hlt. msimp.
      exists []. split; [apply extends_refl|]. split; [intros ? []|].
      left. repeat split; auto. }
  apply Z.ltb_lt in Hlt.
  (* the tail of a round: pause, report, go round again *)
  assert (Hround : forall (s1 : State) p o',
             extends s s1 [p] -> issued p = clock s ->
             call p = HttpGet url -> not_ready (outcome p) ->
             (sleep 10;;
              now' <- time_time;;
              print (L_elapsed (Z.quot (now' - start) 1000));;
              Provisioner.wait_loop fuel url timeout start) s1 = (r, s', o') ->
             wait_outcome url timeout start s r s').
  { intros s1 p o' E1 Ip Cp Np Hrun.
    minv_as Hrun Hsleep Hrest;
      try (apply sleep_inv in Hsleep; [|lia]; destruct Hsleep as (Hsleep & _);
           discriminate Hsleep).
    apply sleep_inv in Hsleep; [|lia].
    destruct Hsleep as (_ & _ & _ & Hc & E2).
    mstep Hrest as Hnow' Hrest'. mstep Hrest' as Hprint Hloop.
    pose proof E1 as (_ & _ & _ & _ & K1).
    eapply wait_outcome_round; eauto.
    eapply IH; [| |exact Hloop]; lia. }
  (* how the probe of this round ended *)
  assert (Hprobe : forall rx (sx : State) ox,
             invoke (HttpGet url) (requests_get url) VInt s = (rx, sx, ox) ->
             exists oc,
               extends s sx [mkEvent (clock s) (HttpGet url) oc]
               /\ match rx with
                  | Ok status_code => oc = Returned (VInt status_code)
                  | Raise e => oc = Raised e
                  | OutOfFuel => False
                  end).
  { intros rx sx ox Hi. apply invoke_inv in Hi.
    destruct Hi as (_ & _ & _ & oc & E1 & Ha). exists oc. split; [exact E1|].
    destruct (answer (requests_get url (world s))) as [x|x];
      destruct Ha as (-> & ->); reflexivity. }
  mstep Hbody as Htry Htail.
  - mstep Htry as Hget Hhandler.
    + (* the probe raised [e] and the handler returned *)
      mstep Hget as Hget' Hret.
      destruct (Hprobe _ _ _ Hget') as (oc & E1 & ->).
      match type of Hhandler with context [match ?x with _ => _ end] =>
        destruct x end; msimp.
      eapply Hround; [exact E1|reflexivity|reflexivity| |exact Htail].
      right. now eexists.
    + (* the probe answered *)
      mstep Hget as Hget' Hret.
      destruct (Hprobe _ _ _ Hget') as (oc & E1 & ->).
      match type of Htail with context [if ?c then _ else _] =>
        destruct c eqn:Hst end.
      * msimp. apply Z.ltb_lt in Hst.
        eexists. split; [exact E1|]. split; [intros ev [<-|[]] _; exact Hlt|].
        split; [reflexivity|].
        eexists [], _, _. repeat split; auto.
      * apply Z.ltb_ge in Hst.
        eapply Hround; [exact E1|reflexivity|reflexivity| |exact Htail].
        left. eexists. split; [reflexivity|lia].
  - (* the error of the probe is passed on *)
    mstep Htry as Hget Hhandler.
    mstep Hget as Hget' Hret.
    destruct (Hprobe _ _ _ Hget') as (oc & E1 & ->).
    match type of Hhandler with context [match ?x with _ => _ end] =>
      destruct x end; msimp;
      (eexists; split; [exact E1|]; split; [intros ev [<-|[]] _; exact Hlt|];
       right; split; [reflexivity|];
       eexists [], _; repeat split; reflexivity).
  - (* the loop does not run out of fuel *)
    mstep Htry as Hget Hhandler.
    + match type of Hhandler with context [match ?x with _ => _ end] =>
        destruct x end; msimp.
    + mstep Hget as Hget' Hret. destruct (Hprobe _ _ _ Hget') as (? & _ & []).
Qed.

End Readiness.

(** The fuel [_wait_for_ready] hands to its loop is enough. *)
Lemma wait_fuel_enough {W} timeout (s : @State W) :
  (1 <= Provisioner.wait_fuel timeout)%nat
  /\ timeout * 1000 - (clock s - clock s)
     <= 10000 * (Z.of_nat (Provisioner.wait_fuel timeout) - 1).
Proof.
  unfold Provisioner.wait_fuel. split; [lia|].
  rewrite !Nat2Z.inj_succ.
  destruct (Z.le_gt_cases 0 timeout) as [Hpos|Hneg].
  - rewrite Z2Nat.id by (apply Z.div_pos; lia).
    pose proof (Z.mul_succ_div_gt timeout 10 ltac:(lia)). lia.
  - lia.
Qed.

Lemma wait_for_ready_ends {W} {P : Platform W} url timeout
  (s s' : @State W) o :
  Provisioner._wait_for_ready url timeout s = (OutOfFuel, s', o) -> False.
Proof.
  unfold Provisioner._wait_for_ready. intros H. mstep H as Hstart Hloop.
  destruct (wait_fuel_enough timeout s) as (F1 & F2).
  destruct (wait_loop_outcome _ _ _ _ _ _ _ _ F1 F2 Hloop) as (evs & _ & _ & []).
Qed.

(** C7.  On any platform the waiter stops with an answer.  Its calls are
    rounds of one probe that was not ready (status 500 or above, or a
    connection-level error) followed by the ten-second pause; it returns
    [True] right after the first probe answered with a status below 500; it
    raises the timeout error once the elapsed time has reached the deadline,
    and every probe was issued before the deadline.  An error of the probe
    that is not connection-level is passed on. *)
Theorem wait_for_ready_spec :
  forall W (P : Platform W) url timeout (s : @State W),
  exists r s' o,
    Provisioner._wait_for_ready url timeout s = (r, s', o)
    /\ exists evs,
        extends s s' evs
        /\ (forall ev, In ev evs -> is_probe ev = true ->
                       issued ev - clock s < timeout * 1000)
        /\ match r with
           | Ok b =>
               b = true
               /\ exists pre p status_code,
                   evs = (pre ++ [p])%list /\ retry_rounds url pre
                   /\ call p = HttpGet url
                   /\ outcome p = Returned (VInt status_code)
                   /\ status_code < 500
           | Raise e =>
               (e = Exception_ (ReadyTimeout timeout)
                /\ retry_rounds url evs
                /\ timeout * 1000 <= clock s' - clock s)
               \/ (is_request_exception e = false
                   /\ exists pre p,
                       evs = (pre ++ [p])%list /\ retry_rounds url pre
                       /\ call p = HttpGet url /\ outcome p = Raised e)
           | OutOfFuel => False
           end.
Proof.
  intros W P url timeout s.
  destruct (Provisioner._wait_for_ready url timeout s) as [[r s'] o] eqn:H.
  exists r, s', o. split; [reflexivity|].
  unfold Provisioner._wait_for_ready in H.
  mstep H as Hstart Hloop.
  destruct (wait_fuel_enough timeout s) as (F1 & F2).
  exact (wait_loop_outcome _ _ _ _ _ _ _ _ F1 F2 Hloop).
Qed.

(** ** MetadataPublisher *)

Lemma upload_metadata_run {W} {P : Platform W} self vmid metadata
  (s : @State W) :
  let url := metadata_url self (Py.str_int vmid) in
  let body := Json.dumps_indent2 metadata in
  exists s' oc,
    Provisioner._upload_metadata self vmid metadata s
    = (match answer (requests_put url body (world s)) with
       | inl e => Raise e
       | inr status_code =>
           if Provisioner.upload_ok status_code then Ok tt
           else Raise (Exception_ (UploadFailed status_code))
       end, s', [])
    /\ extends s s' [mkEvent (clock s) (HttpPut url body) oc]
    /\ oc = match answer (requests_put url body (world s)) with
            | inl e => Raised e
            | inr status_code => Returned (VInt status_code)
            end.
Proof.
  intros url body.
  destruct (Provisioner._upload_metadata self vmid metadata s)
    as [[r s'] o] eqn:H.
  unfold Provisioner._upload_metadata in H. fold url body in H.
  change ("http://" ++ fileserver_host self ++ ":"
          ++ Py.str_int (fileserver_port self) ++ "/upload/metadata-"
          ++ Py.str_int vmid ++ ".json") with url in H.
  minv_as H Hput Hcheck.
  - apply invoke_inv in Hput. destruct Hput as (-> & _ & _ & oc & E & Ha).
    exists s', oc.
    destruct (answer (requests_put url body (world s))) as [e|st];
      destruct Ha as (Hr & ->); [discriminate Hr|]. injection Hr as <-.
    destruct (Provisioner.upload_ok a); simpl in Hcheck; msimp; auto.
  - apply invoke_inv in Hput. destruct Hput as (-> & _ & _ & oc & E & Ha).
    exists s', oc.
    destruct (answer (requests_put url body (world s))) as [e'|st];
      destruct Ha as (Hr & ->); [|discriminate Hr]. injection Hr as <-.
    auto.
  - apply invoke_inv in Hput. destruct Hput as (_ & _ & _ & oc & _ & Ha).
    destruct (answer (requests_put url body (world s)));
      destruct Ha as (Hr & _); discriminate Hr.
Qed.

(** C6, as the code has it.  The uploader serializes the metadata with
    [json.dumps(indent=2)] and issues one PUT of it to
    [http://<host>:<port>/upload/metadata-<vmid>.json]; an exception of the
    PUT is passed on; otherwise it returns when the status is 200, 201 or
    204 and raises the upload error, carrying the status, for every other
    status. *)
Theorem upload_metadata_spec :
  forall W (P : Platform W) self vmid metadata (s : @State W),
    let url := metadata_url self (Py.str_int vmid) in
    let body := Json.dumps_indent2 metadata in
    (exists s' oc,
        Provisioner._upload_metadata self vmid metadata s
        = (match answer (requests_put url body (world s)) with
           | inl e => Raise e
           | inr status_code =>
               if Provisioner.upload_ok status_code then Ok tt
               else Raise (Exception_ (UploadFailed status_code))
           end, s', [])
        /\ extends s s' [mkEvent (clock s) (HttpPut url body) oc]
        /\ oc = match answer (requests_put url body (world s)) with
                | inl e => Raised e
                | inr status_code => Returned (VInt status_code)
                end)
    /\ (forall status_code,
           Provisioner.upload_ok status_code = true
           <-> status_code = 200 \/ status_code = 201 \/ status_code = 204).
Proof.
  intros W P self vmid metadata s url body. split.
  - apply upload_metadata_run.
  - intros st. unfold Provisioner.upload_ok, mem. cbn [existsb].
    rewrite !orb_true_iff, !Z.eqb_eq. intuition discriminate.
Qed.

(** C6 as worded fails on the other 2xx statuses: a file server that
    answers 202 has taken the document, and the uploader raises. *)
Lemma upload_202_counterexample :
  let s := Fake.connected (Fake.with_put_status 202 (Fake.empty "persys.jp")) in
  let '(r, s', _) :=
    Provisioner._upload_metadata demo_self 9000 [("vmid", PInt 9000)] s in
  (200 <=? 202) && (202 <? 300) = true
  /\ r = Raise (Exception_ (UploadFailed 202))
  /\ map fst (Fake.files (world s'))
     = ["http://10.0.0.5:8080/upload/metadata-9000.json"].
Proof. vm_compute. repeat split. Qed.

(** The serializer on a small document. *)
Example dumps_indent2_example :
  let q := String Json.DQ "" in
  let nl := String Py.LF "" in
  Json.dumps_indent2 [("vmid", PInt 9000); ("hostname", PStr "demo7")]
  = "{" ++ nl ++ "  " ++ q ++ "vmid" ++ q ++ ": 9000," ++ nl
    ++ "  " ++ q ++ "hostname" ++ q ++ ": " ++ q ++ "demo7" ++ q ++ nl ++ "}".
Proof. reflexivity. Qed.

(** ** The helpers of the saga, one by one *)

Section Helpers.

Context {W : Type} {P : Platform W} (self : Self).

Local Abbreviation State := (@State W).
Local Abbreviation M := (@M W).

Lemma created_app evs1 evs2 :
  created (evs1 ++ evs2) = (created evs1 ++ created evs2)%list.
Proof. apply flat_map_app. Qed.

Lemma quiet_ret {A} (a : A) : quiet (ret a : M A) (fun _ => []).
Proof.
  intros s r s' o H. msimp. exists [].
  split; [apply extends_refl|split; reflexivity].
Qed.

Lemma quiet_raise {A} e cr : quiet (raise e : M A) cr.
Proof.
  intros s r s' o H. msimp. exists [].
  split; [apply extends_refl|split; reflexivity].
Qed.

Lemma quiet_get {A} (f : State -> A) : quiet (get f) (fun _ => []).
Proof.
  intros s r s' o H. msimp. exists [].
  split; [apply extends_refl|split; reflexivity].
Qed.

Lemma quiet_print l : steps_ok [l] = O -> quiet (print l : M unit) (fun _ => []).
Proof.
  intros Hl s r s' o H. msimp. exists [].
  split; [apply extends_refl|split; [exact Hl|reflexivity]].
Qed.

Lemma quiet_sleep seconds : 0 <= seconds -> quiet (sleep seconds : M unit) (fun _ => []).
Proof.
  intros Hs s r s' o H. apply sleep_inv in H; [|exact Hs].
  destruct H as (-> & -> & _ & _ & E). eexists.
  split; [exact E|split; reflexivity].
Qed.

Lemma quiet_invoke {A} c (op : W -> Reply W A) enc (cr : A -> list ResourceRef) :
  (forall t e, created_by (mkEvent t c (Raised e)) = []) ->
  (forall t a, created_by (mkEvent t c (Returned (enc a))) = cr a) ->
  quiet (invoke c op enc) cr.
Proof.
  intros Hraised Hreturned s r s' o H. apply invoke_inv in H.
  destruct H as (-> & _ & _ & oc & E & Ha).
  eexists. split; [exact E|]. split; [reflexivity|].
  unfold created; simpl. rewrite app_nil_r.
  destruct (answer (op (world s))); destruct Ha as (-> & ->); auto.
Qed.

(** A helper that creates nothing, followed by the rest. *)
Lemma quiet_bind {A B} (m : M A) (f : A -> M B) cr :
  quiet m (fun _ => []) -> (forall a, quiet (f a) cr) -> quiet (bind m f) cr.
Proof.
  intros Hm Hf s r s' o H. minv_as H H1 H2.
  - destruct (Hm _ _ _ _ H1) as (e1 & E1 & O1 & C1).
    destruct (Hf _ _ _ _ _ H2) as (e2 & E2 & O2 & C2).
    exists (e1 ++ e2)%list. split; [eapply extends_trans; eauto|].
    rewrite steps_ok_app, O1, O2, created_app, C1, C2. auto.
  - destruct (Hm _ _ _ _ H1) as (e1 & E1 & O1 & C1). exists e1. auto.
  - destruct (Hm _ _ _ _ H1) as (e1 & E1 & O1 & C1). exists e1. auto.
Qed.

(** A creating call, followed by steps that create nothing and do not
    raise. *)
Lemma quiet_bind_after {A B} (m : M A) (f : A -> M B) cr cr' :
  quiet m cr ->
  (forall a s r s' o, f a s = (r, s', o) ->
                      exists b, r = Ok b /\ cr' b = cr a) ->
  (forall a, quiet (f a) (fun _ => [])) ->
  quiet (bind m f) cr'.
Proof.
  intros Hm Hok Hf s r s' o H. minv_as H H1 H2.
  - destruct (Hm _ _ _ _ H1) as (e1 & E1 & O1 & C1).
    destruct (Hf _ _ _ _ _ H2) as (e2 & E2 & O2 & C2).
    destruct (Hok _ _ _ _ _ H2) as (b & -> & Hb).
    exists (e1 ++ e2)%list. split; [eapply extends_trans; eauto|].
    rewrite steps_ok_app, O1, O2, created_app, C1, C2, app_nil_r. auto.
  - destruct (Hm _ _ _ _ H1) as (e1 & E1 & O1 & C1). exists e1. auto.
  - destruct (Hm _ _ _ _ H1) as (e1 & E1 & O1 & C1). exists e1. auto.
Qed.

Lemma quiet_try {A} (body : M A) (handler : Exn -> M A) :
  quiet body (fun _ => []) -> (forall e, quiet (handler e) (fun _ => [])) ->
  quiet (try_except body handler) (fun _ => []).
Proof.
  intros Hm Hf s r s' o H. minv_as H H1 H2.
  - destruct (Hm _ _ _ _ H1) as (e1 & E1 & O1 & C1).
    destruct (Hf _ _ _ _ _ H2) as (e2 & E2 & O2 & C2).
    exists (e1 ++ e2)%list. split; [eapply extends_trans; eauto|].
    rewrite steps_ok_app, O1, O2, created_app, C1, C2.
    split; [reflexivity|]. now destruct r.
  - destruct (Hm _ _ _ _ H1) as (e1 & E1 & O1 & C1). exists e1. auto.
  - destruct (Hm _ _ _ _ H1) as (e1 & E1 & O1 & C1). exists e1. auto.
Qed.

Lemma quiet_for_each {A} (xs : list A) (body : A -> M unit) :
  (forall x, quiet (body x) (fun _ => [])) ->
  quiet (Provisioner.for_each xs body) (fun _ => []).
Proof.
  intros Hb. induction xs as [|x xs IH]; simpl.
  - apply quiet_ret.
  - apply quiet_bind; [apply Hb|intros _; exact IH].
Qed.

Lemma ends_ret {A} (a : A) : ends (ret a : M A).
Proof. intros s s' o H. msimp. Qed.

Lemma ends_raise {A} e : ends (raise e : M A).
Proof. intros s s' o H. msimp. Qed.

Lemma ends_get {A} (f : State -> A) : ends (get f).
Proof. intros s s' o H. msimp. Qed.

Lemma ends_print l : ends (print l : M unit).
Proof. intros s s' o H. msimp. Qed.

Lemma ends_sleep seconds : ends (sleep seconds : M unit).
Proof. intros s s' o H. unfold sleep in H. discriminate H. Qed.

Lemma ends_invoke {A} c (op : W -> Reply W A) enc : ends (invoke c op enc).
Proof.
  intros s s' o H. apply invoke_inv in H.
  destruct H as (_ & _ & _ & oc & _ & Ha).
  destruct (answer (op (world s))); destruct Ha as (Hr & _); discriminate Hr.
Qed.

Lemma ends_bind {A B} (m : M A) (f : A -> M B) :
  ends m -> (forall a, ends (f a)) -> ends (bind m f).
Proof. intros Hm Hf s s' o H. minv_as H H1 H2; eauto. eapply Hf; eauto. Qed.

Lemma ends_try {A} (body : M A) (handler : Exn -> M A) :
  ends body -> (forall e, ends (handler e)) -> ends (try_except body handler).
Proof. intros Hm Hf s s' o H. minv_as H H1 H2; eauto. eapply Hf; eauto. Qed.

Lemma ends_for_each {A} (xs : list A) (body : A -> M unit) :
  (forall x, ends (body x)) -> ends (Provisioner.for_each xs body).
Proof.
  intros Hb. induction xs as [|x xs IH]; simpl.
  - apply ends_ret.
  - apply ends_bind; [apply Hb|intros _; exact IH].
Qed.

Lemma ends_wait_for_ready url timeout :
  ends (Provisioner._wait_for_ready url timeout : M bool).
Proof. intros s s' o H. exact (wait_for_ready_ends _ _ _ _ _ H). Qed.

End Helpers.

(** Discharge [ends] for a helper built from the combinators. *)
Ltac ends_step :=
  first
    [ apply ends_ret
    | apply ends_raise
    | apply ends_get
    | apply ends_sleep
    | apply ends_print
    | apply ends_invoke
    | apply ends_wait_for_ready
    | apply ends_for_each; intros ?
    | apply ends_try; [|intros ?]
    | apply ends_bind; [|intros ?]
    | match goal with
      | |- ends (if ?c then _ else _) => destruct c
      | |- ends (match ?x with _ => _ end) => destruct x
      end ].

Ltac ends_tac := repeat ends_step.

(** Discharge [quiet] for a helper built from the combinators. *)
Ltac quiet_step :=
  first
    [ apply quiet_ret
    | apply quiet_raise
    | apply quiet_get
    | apply quiet_sleep; lia
    | apply quiet_print; reflexivity
    | apply quiet_invoke; intros; reflexivity
    | apply quiet_for_each; intros ?
    | apply quiet_try; [|intros ?]
    | apply quiet_bind; [|intros ?]
    | match goal with
      | |- quiet (if ?c then _ else _) _ => destruct c
      | |- quiet (match ?x with _ => _ end) _ => destruct x
      end ].

Ltac quiet_tac := repeat quiet_step.

Section Steps.

Context {W : Type} {P : Platform W} (self : Self).

Local Abbreviation State := (@State W).
Local Abbreviation M := (@M W).

Lemma get_next_vmid_quiet :
  quiet (Provisioner._get_next_vmid : M Z) (fun _ => []).
Proof. unfold Provisioner._get_next_vmid. quiet_tac. Qed.

Lemma create_tunnel_quiet vmid subdomain :
  quiet (Provisioner._create_tunnel self vmid subdomain)
        (fun t => [R_tunnel (Remote.id t)]).
Proof. unfold Provisioner._create_tunnel. quiet_tac. Qed.

Lemma get_tunnel_token_quiet t :
  quiet (Provisioner._get_tunnel_token self t) (fun _ => []).
Proof. unfold Provisioner._get_tunnel_token. quiet_tac. Qed.

Lemma configure_tunnel_quiet tunnel_id subdomain oss_type :
  quiet (Provisioner._configure_tunnel self tunnel_id subdomain oss_type)
        (fun _ => []).
Proof. unfold Provisioner._configure_tunnel. quiet_tac. Qed.

Lemma create_dns_record_quiet subdomain tunnel_id :
  quiet (Provisioner._create_dns_record self subdomain tunnel_id)
        (fun i => [R_dns i]).
Proof.
  unfold Provisioner._create_dns_record.
  apply quiet_bind; [quiet_tac|intros existing].
  apply quiet_bind; [quiet_tac|intros _].
  eapply quiet_bind_after with (cr := fun r => [R_dns (Remote.id r)]).
  - quiet_tac.
  - intros a s r s' o H. msimp. now exists (Remote.id a).
  - intros a. quiet_tac.
Qed.

Lemma create_metadata_quiet vmid email subdomain oss_type tunnel_token :
  quiet (Provisioner._create_metadata self vmid email subdomain oss_type
                                      tunnel_token)
        (fun _ => []).
Proof. unfold Provisioner._create_metadata, time_time. quiet_tac. Qed.

Lemma upload_metadata_quiet vmid metadata :
  quiet (Provisioner._upload_metadata self vmid metadata)
        (fun _ => [R_metadata (metadata_url self (Py.str_int vmid))]).
Proof.
  intros s r s' o H.
  destruct (upload_metadata_run self vmid metadata s)
    as (s1 & oc & Hrun & E & Hoc).
  rewrite Hrun in H. inversion H; subst; clear H.
  eexists. split; [exact E|]. split; [reflexivity|].
  unfold created, created_by; simpl. rewrite app_nil_r.
  fold (metadata_url self (Py.str_int vmid)).
  destruct (answer _) as [e|st]; [reflexivity|].
  destruct (Provisioner.upload_ok st); reflexivity.
Qed.

Lemma clone_lxc_quiet vmid oss_type subdomain :
  quiet (Provisioner._clone_lxc self vmid oss_type subdomain)
        (fun _ => [R_instance vmid]).
Proof.
  unfold Provisioner._clone_lxc.
  destruct (lookup oss_type template_map); [|apply quiet_raise].
  eapply quiet_bind_after with (cr := fun _ => [R_instance vmid]).
  - quiet_tac.
  - intros a s r s' o H. apply sleep_inv in H; [|lia].
    destruct H as (-> & _). now exists tt.
  - intros a. quiet_tac.
Qed.

Lemma start_lxc_quiet vmid :
  quiet (Provisioner._start_lxc self vmid) (fun _ => []).
Proof. unfold Provisioner._start_lxc. quiet_tac. Qed.

Lemma wait_loop_quiet url timeout start fuel :
  quiet (Provisioner.wait_loop fuel url timeout start : M bool) (fun _ => []).
Proof.
  induction fuel as [|fuel IH]; cbn [Provisioner.wait_loop].
  - intros s r s' o H. inversion H; subst. exists [].
    split; [apply extends_refl|split; reflexivity].
  - unfold time_time. quiet_tac. exact IH.
Qed.

Lemma wait_for_ready_quiet url timeout :
  quiet (Provisioner._wait_for_ready url timeout : M bool) (fun _ => []).
Proof.
  unfold Provisioner._wait_for_ready, time_time.
  quiet_tac. apply wait_loop_quiet.
Qed.

Lemma provision_try_ends customer_email oss_type subdomain :
  ends (Provisioner.provision_try self customer_email oss_type subdomain).
Proof.
  unfold Provisioner.provision_try, Provisioner._get_next_vmid,
    Provisioner._create_tunnel, Provisioner._get_tunnel_token,
    Provisioner._configure_tunnel, Provisioner._create_dns_record,
    Provisioner._create_metadata, Provisioner._upload_metadata,
    Provisioner._clone_lxc, Provisioner._start_lxc,
    Provisioner.record_resource, time_time, put.
  ends_tac.
  all: intros s s' o H; discriminate H.
Qed.

End Steps.

(** ** The saga: how far a run of the [try] block got *)

Section Progress.

Context {W : Type} {P : Platform W} (self : Self).

Local Abbreviation State := (@State W).

Ltac mall :=
  repeat match goal with
    | H : bind _ _ _ = _ |- _ =>
        let R1 := fresh "R" in let R2 := fresh "R" in mstep H as R1 R2
    end.

Ltac use_quiet :=
  repeat match goal with
    | H : Provisioner._get_next_vmid _ = _ |- _ =>
        destruct (get_next_vmid_quiet _ _ _ _ H) as (? & ? & ? & ?); clear H
    | H : Provisioner._create_tunnel _ _ _ _ = _ |- _ =>
        destruct (create_tunnel_quiet _ _ _ _ _ _ _ H) as (? & ? & ? & ?);
        clear H
    | H : Provisioner._get_tunnel_token _ _ _ = _ |- _ =>
        destruct (get_tunnel_token_quiet _ _ _ _ _ _ H) as (? & ? & ? & ?);
        clear H
    | H : Provisioner._configure_tunnel _ _ _ _ _ = _ |- _ =>
        destruct (configure_tunnel_quiet _ _ _ _ _ _ _ _ H)
          as (? & ? & ? & ?); clear H
    | H : Provisioner._create_dns_record _ _ _ _ = _ |- _ =>
        destruct (create_dns_record_quiet _ _ _ _ _ _ _ H)
          as (? & ? & ? & ?); clear H
    | H : Provisioner._create_metadata _ _ _ _ _ _ _ = _ |- _ =>
        destruct (create_metadata_quiet _ _ _ _ _ _ _ _ _ _ H)
          as (? & ? & ? & ?); clear H
    | H : Provisioner._upload_metadata _ _ _ _ = _ |- _ =>
        destruct (upload_metadata_quiet _ _ _ _ _ _ _ H)
          as (? & ? & ? & ?); clear H
    | H : Provisioner._clone_lxc _ _ _ _ _ = _ |- _ =>
        destruct (clone_lxc_quiet _ _ _ _ _ _ _ _ H)
          as (? & ? & ? & ?); clear H
    | H : Provisioner._start_lxc _ _ _ = _ |- _ =>
        destruct (start_lxc_quiet _ _ _ _ _ _ H) as (? & ? & ? & ?); clear H
    | H : Provisioner._wait_for_ready _ _ _ = _ |- _ =>
        destruct (wait_for_ready_quiet _ _ _ _ _ _ H) as (? & ? & ? & ?);
        clear H
    end.

Lemma range_In v : forall count lo,
  In v (range lo count) -> lo <= v < lo + Z.of_nat count.
Proof.
  induction count as [|n IH]; intros lo; simpl; [tauto|].
  intros [<-|H]; [lia|]. apply IH in H. lia.
Qed.

Lemma get_next_vmid_range (s s' : State) vmid o :
  Provisioner._get_next_vmid s = (Ok vmid, s', o) -> 9000 <= vmid < 10000.
Proof.
  unfold Provisioner._get_next_vmid. intros H. mstep H as H1 H2.
  destruct (find _ _) as [v|] eqn:Hf; msimp.
  apply find_some in Hf. destruct Hf as (Hin & _).
  apply range_In in Hin. simpl in Hin. lia.
Qed.

Lemma provision_try_progress customer_email oss_type subdomain
  (s s' : State) r o :
  created_resources s = [] ->
  Provisioner.provision_try self customer_email oss_type subdomain s
  = (r, s', o) ->
  exists evs vmid tunnel_id dns_record_id,
    trace s' = (trace s ++ evs)%list
    /\ created_resources s'
       = ledger_at (steps_ok o) vmid tunnel_id dns_record_id
    /\ created evs = created_at self (steps_ok o) vmid tunnel_id dns_record_id
    /\ match r with
       | Ok result =>
           steps_ok o = 10%nat
           /\ result
              = [ ("vmid", PInt vmid); ("tunnel_id", PStr tunnel_id);
                  ("url",
                   PStr ("https://" ++ subdomain ++ "." ++ domain self));
                  ("status", PStr "active") ]
       | Raise _ => (steps_ok o < 10)%nat
       | OutOfFuel => False
       end
    /\ 9000 <= vmid < 10000.
Proof.
  intros Hled H.
  assert (Hends : r <> OutOfFuel).
  { intros ->. now apply provision_try_ends in H. }
  unfold Provisioner.provision_try in H.
  unfold Provisioner.record_resource in H.
  mall.
  all: try match goal with
         | H : Provisioner._get_next_vmid _ = (Ok _, _, _) |- _ =>
             pose proof (get_next_vmid_range _ _ _ _ H)
         end.
  all: use_quiet.
  all: unfold extends in *;
    repeat match goal with H : _ /\ _ |- _ => destruct H end;
    cbn [trace created_resources set_created_resources] in *.
  all: do 4 eexists.
  all: rewrite ?steps_ok_app;
    repeat match goal with
      | Hs : steps_ok _ = 0%nat |- _ => rewrite Hs; clear Hs
      end;
    cbn [steps_ok Nat.add].
  all: split;
    [ repeat match goal with
        | T : trace ?x = _ |- context [trace ?x] => rewrite T; clear T
        end;
      rewrite <- ?app_assoc; reflexivity | ].
  all: split;
    [ repeat match goal with
        | T : created_resources ?x = _ |- context [created_resources ?x] =>
            rewrite T; clear T
        end;
      simpl; reflexivity | ].
  all: split;
    [ rewrite ?created_app;
      repeat match goal with
        | T : created ?x = _ |- context [created ?x] => rewrite T; clear T
        end;
      simpl; reflexivity | ].
  all: split; [first [split; reflexivity | cbn; lia | congruence]|].
  all: first
         [ match goal with
           | |- 9000 <= ?v < _ => is_evar v; unify v 9000
           end; lia
         | lia ].
  Unshelve.
  all: exact "".
Qed.

Lemma rollback_calls_at n vmid tunnel_id dns_record_id :
  9000 <= vmid < 10000 ->
  rollback_calls self (ledger_at n vmid tunnel_id dns_record_id)
  = compensations_at self n vmid tunnel_id dns_record_id.
Proof.
  intros Hv. unfold rollback_calls, ledger_at, compensations_at.
  assert (Ht : truthy (Some (PInt vmid)) = true).
  { simpl. apply negb_true_iff, Z.eqb_neq. lia. }
  destruct (2 <=? n)%nat, (5 <=? n)%nat, (7 <=? n)%nat;
    cbn -[truthy]; rewrite ?Ht; reflexivity.
Qed.

(** The ledger after [n] steps against what the steps created: every
    resource created is in the ledger, and the one entry that may stand
    for no resource is the container's. *)
Lemma ledger_at_refs n vmid tunnel_id dns_record_id :
  (forall x,
      In x (created_at self n vmid tunnel_id dns_record_id) ->
      In x (ledger_refs self (ledger_at n vmid tunnel_id dns_record_id)))
  /\ (forall x,
         In x (ledger_refs self (ledger_at n vmid tunnel_id dns_record_id)) ->
         In x (created_at self n vmid tunnel_id dns_record_id)
         \/ (x = R_instance vmid
             /\ In (R_metadata (metadata_url self (Py.str_int vmid)))
                   (created_at self n vmid tunnel_id dns_record_id))).
Proof.
  unfold created_at, ledger_at, ledger_refs.
  destruct (2 <=? n)%nat eqn:H2, (5 <=? n)%nat eqn:H5, (7 <=? n)%nat eqn:H7,
    (8 <=? n)%nat eqn:H8;
    try (apply Nat.leb_le in H8; apply Nat.leb_gt in H7; lia);
    try (apply Nat.leb_le in H7; apply Nat.leb_gt in H5; lia);
    try (apply Nat.leb_le in H5; apply Nat.leb_gt in H2; lia);
    cbn; split; intros x Hx; intuition auto.
Qed.


End Progress.

(** ** Rollback *)

Section Rollback.

Context {W : Type} {P : Platform W} (self : Self).

Local Abbreviation State := (@State W).
Local Abbreviation M := (@M W).

Lemma calls_of_app evs1 evs2 :
  calls_of (evs1 ++ evs2) = (calls_of evs1 ++ calls_of evs2)%list.
Proof. unfold calls_of. now rewrite map_app, filter_app. Qed.

Lemma compensates_ret : compensates (ret tt : M unit) [].
Proof.
  intros s. exists s, [], []. repeat split; try apply extends_refl.
Qed.

Lemma compensates_print l :
  is_warn l = false -> compensates (print l : M unit) [].
Proof.
  intros Hl s. exists s, [l], []. unfold print. simpl. rewrite Hl.
  repeat split; try apply extends_refl.
Qed.

Lemma compensates_bind (m k : M unit) c1 c2 :
  compensates m c1 -> compensates k c2 ->
  compensates (bind m (fun _ => k)) (c1 ++ c2).
Proof.
  intros Hm Hk s.
  destruct (Hm s) as (s1 & o1 & e1 & R1 & E1 & C1 & W1).
  destruct (Hk s1) as (s2 & o2 & e2 & R2 & E2 & C2 & W2).
  exists s2, (o1 ++ o2)%list, (e1 ++ e2)%list.
  unfold bind. rewrite R1, R2.
  split; [reflexivity|]. split; [eapply extends_trans; eauto|].
  rewrite calls_of_app, filter_app, flat_map_app, C1, C2, W1, W2. auto.
Qed.

(** [try: print; call; print / except: print warning] *)
Lemma compensates_guarded {A} l1 c (op : W -> Reply W A) enc l2
  (w : Exn -> Line) :
  is_warn l1 = false -> is_warn l2 = false -> is_sleep c = false ->
  (forall t e, warning_for (mkEvent t c (Raised e)) = [w e]) ->
  (forall t a, warning_for (mkEvent t c (Returned (enc a))) = []) ->
  (forall e, is_warn (w e) = true) ->
  compensates
    (try_except (print l1 ;; invoke c op enc ;; print l2)
                (fun e => print (w e)))
    [c].
Proof.
  intros H1 H2 Hc Hraised Hreturned Hw s.
  destruct (invoke c op enc s) as [[r s1] o1] eqn:Hi.
  pose proof Hi as Hi'. apply invoke_inv in Hi'.
  destruct Hi' as (-> & _ & _ & oc & E & Ha).
  exists s1.
  unfold try_except, bind, print. rewrite Hi.
  destruct (answer (op (world s))) as [e|a]; destruct Ha as (-> & ->).
  - exists [l1; w e], [mkEvent (clock s) c (Raised e)].
    split; [reflexivity|]. split; [exact E|].
    unfold calls_of; simpl. rewrite Hc, H1, Hw, Hraised. auto.
  - exists [l1; l2], [mkEvent (clock s) c (Returned (enc a))].
    split; [reflexivity|]. split; [exact E|].
    unfold calls_of; simpl. rewrite Hc, H1, H2, Hreturned. auto.
Qed.

(** The container: stop (a failure is passed over in silence), then
    delete. *)
Lemma compensates_lxc vmid :
  compensates
    (try_except
       (print (L_lxc_stopping vmid) ;;
        try_except
          (invoke (LxcStop (node self) vmid) (lxc_stop (node self) vmid)
                  (fun _ => VUnit) ;;
           sleep 3)
          (fun _ => ret tt) ;;
        print (L_lxc_deleting vmid) ;;
        invoke (LxcDelete (node self) vmid) (lxc_delete (node self) vmid)
               (fun _ => VUnit) ;;
        print (L_lxc_deleted vmid))
       (fun e => print (L_warn_lxc vmid e)))
    [LxcStop (node self) vmid; LxcDelete (node self) vmid].
Proof.
  intros s.
  destruct (invoke (LxcStop (node self) vmid) (lxc_stop (node self) vmid)
                   (fun _ => VUnit) s) as [[r1 s1] o1] eqn:Hstop.
  pose proof Hstop as H1. apply invoke_inv in H1.
  destruct H1 as (-> & _ & _ & oc1 & E1 & A1).
  (* the state and the events once the stop, and the pause after a stop
     that went through, are over *)
  assert (Hpre : exists s2 pre,
             try_except
               (invoke (LxcStop (node self) vmid) (lxc_stop (node self) vmid)
                       (fun _ => VUnit) ;; sleep 3)
               (fun _ => ret tt) s = (Ok tt, s2, [])
             /\ extends s s2 pre
             /\ calls_of pre = [LxcStop (node self) vmid]
             /\ flat_map warning_for pre = []).
  { unfold try_except, bind. rewrite Hstop.
    destruct (answer (lxc_stop (node self) vmid (world s))) as [e|a];
      destruct A1 as (-> & ->).
    - exists s1, [mkEvent (clock s) (LxcStop (node self) vmid) (Raised e)].
      repeat split; try apply E1.
    - destruct (sleep 3 s1) as [[r2 s2] o2] eqn:Hsl.
      apply sleep_inv in Hsl; [|lia]. destruct Hsl as (-> & -> & _ & _ & E2).
      exists s2. eexists. split; [reflexivity|].
      split; [eapply extends_trans; eauto|]. split; reflexivity. }
  destruct Hpre as (s2 & pre & Hrun & Epre & Cpre & Wpre).
  destruct (invoke (LxcDelete (node self) vmid) (lxc_delete (node self) vmid)
                   (fun _ => VUnit) s2) as [[r3 s3] o3] eqn:Hdel.
  pose proof Hdel as H3. apply invoke_inv in H3.
  destruct H3 as (-> & _ & _ & oc3 & E3 & A3).
  exists s3.
  unfold try_except at 1. unfold bind at 1. unfold print at 1.
  unfold bind at 1. rewrite Hrun.
  unfold bind at 1. unfold print at 1. unfold bind at 1. rewrite Hdel.
  destruct (answer (lxc_delete (node self) vmid (world s2))) as [e|a];
    destruct A3 as (-> & ->); unfold print.
  - eexists _, (pre ++ [_])%list.
    split; [reflexivity|]. split; [eapply extends_trans; eauto|].
    rewrite calls_of_app, flat_map_app, Cpre, Wpre. split; reflexivity.
  - eexists _, (pre ++ [_])%list.
    split; [reflexivity|]. split; [eapply extends_trans; eauto|].
    rewrite calls_of_app, flat_map_app, Cpre, Wpre. split; reflexivity.
Qed.

Lemma rollback_compensates resources subdomain :
  compensates (Provisioner._rollback self resources subdomain)
              (rollback_calls self resources).
Proof.
  unfold Provisioner._rollback, rollback_calls.
  change (rollback_calls self resources)
    with ([] ++ rollback_calls self resources)%list.
  apply (compensates_bind _ _ []); [now apply compensates_print|].
  apply compensates_bind.
  { destruct (dict_get "vmid" resources);
      [apply compensates_lxc|apply compensates_ret]. }
  apply compensates_bind.
  { destruct (dict_in "metadata_uploaded" resources);
      [|apply compensates_ret]. simpl.
    destruct (truthy (dict_get "vmid" resources)) eqn:Ht;
      [|apply compensates_ret].
    destruct (dict_get "vmid" resources) as [v|]; [|discriminate Ht].
    apply compensates_guarded; intros; reflexivity. }
  apply compensates_bind.
  { destruct (dict_get "dns_record_id" resources);
      [|apply compensates_ret].
    apply compensates_guarded; intros; reflexivity. }
  rewrite <- (app_nil_r (match dict_get "tunnel_id" resources with
                         | Some i => _ | None => [] end)).
  apply compensates_bind; [|now apply compensates_print].
  destruct (dict_get "tunnel_id" resources); [|apply compensates_ret].
  apply compensates_guarded; intros; reflexivity.
Qed.

(** A rollback that returned has printed its first and its last line. *)
Lemma rollback_output resources subdomain (s s' : State) o :
  Provisioner._rollback self resources subdomain s = (Ok tt, s', o) ->
  exists mid, o = L_rollback_start :: (mid ++ [L_rollback_done])%list.
Proof.
  unfold Provisioner._rollback. intros H.
  mstep H as H0 H1. mstep H1 as Hlxc H2. mstep H2 as Hmeta H3.
  mstep H3 as Hdns H4. mstep H4 as Htun H5.
  eexists. cbn [app]. rewrite !app_assoc. reflexivity.
Qed.

End Rollback.

(** ** Independence of the rental period *)

Lemma print_then {W B} (l : Line) (k : @M W B) (s : @State W) :
  bind (print l) (fun _ => k) s
  = let '(r, s', o) := k s in (r, s', l :: o).
Proof. unfold bind, print. destruct (k s) as [[r s'] o]. reflexivity. Qed.

(** C10.  Two runs of [provision] that differ only in [duration_days] end
    with the same result in the same state (the same world, the same trace
    of external calls, hence the same metadata document in the PUT) and
    print the same lines but for the one that shows the period. *)
Theorem provision_ignores_duration :
  forall W (P : Platform W) self customer_email oss_type subdomain
         (d1 d2 : Z) (s : @State W),
    let '(r1, s1, o1) :=
      Provisioner.provision self customer_email oss_type subdomain d1 s in
    let '(r2, s2, o2) :=
      Provisioner.provision self customer_email oss_type subdomain d2 s in
    r1 = r2 /\ s1 = s2 /\ trace s1 = trace s2
    /\ exists pre post,
        o1 = (pre ++ L_period d1 :: post)%list
        /\ o2 = (pre ++ L_period d2 :: post)%list.
Proof.
  intros. unfold Provisioner.provision.
  rewrite !print_then.
  match goal with
  | |- context [bind (lift ?v) ?k s] =>
      destruct (bind (lift v) k s) as [[r s'] o]
  end.
  repeat split.
  exists [L_banner; L_start; L_banner; L_customer customer_email;
          L_oss oss_type; L_subdomain subdomain; L_domain (domain self)],
         (L_banner :: o).
  split; reflexivity.
Qed.

(** ** ProvisioningSaga *)

(** [provision] on valid input with a connected provisioner: the header,
    then the [try] statement on an empty ledger. *)
Lemma provision_connected {W} {P : Platform W} self customer_email oss_type
  subdomain duration_days (s : @State W) :
  Provisioner_validate._validate_subdomain subdomain = Ok tt ->
  existsb (String.eqb oss_type) (map fst template_map) = true ->
  proxmox s = true -> cf s = true ->
  Provisioner.provision self customer_email oss_type subdomain duration_days s
  = let '(r, s', o) :=
      try_except
        (Provisioner.provision_try self customer_email oss_type subdomain)
        (Provisioner.provision_except self subdomain)
        (set_created_resources [] s) in
    (r, s',
     (header self customer_email oss_type subdomain duration_days ++ o)%list).
Proof.
  intros Hv Ho Hp Hc. unfold Provisioner.provision.
  rewrite !print_then.
  unfold bind at 1. unfold lift. rewrite Hv.
  unfold bind at 1. rewrite Ho. cbn [negb]. unfold ret at 1.
  unfold bind at 1. unfold get at 1.
  unfold bind at 1. unfold get at 1. rewrite Hp, Hc. cbn [negb orb].
  unfold bind at 1. unfold ret at 1.
  unfold bind at 1. unfold put at 1.
  destruct (try_except _ _ _) as [[r s'] o]. reflexivity.
Qed.


(** The parts of a run, from its result. *)
Lemma run_eq {A B C} (x : A * B * C) (a : A) :
  fst (fst x) = a -> x = (a, snd (fst x), snd x).
Proof. destruct x as [[a0 b] c]. simpl. now intros ->. Qed.




(** C3 against the code.  Wherever a run of the [try] block stops, with
    [n] steps completed, the ledger holds the tunnel identifier from the end
    of step 2, the DNS record identifier from the end of step 5, and both
    the container's ['vmid'] and the metadata flag from the end of step 7;
    the calls of the run have created the tunnel in step 2, the record in
    step 5, the metadata document in step 7 and the container in step 8.
    So the ledger names exactly the resources created at every such point
    but one: a run that stops in step 8, with seven steps completed, has
    the container in its ledger although none of its calls created a
    container, and the rollback of this ledger stops and deletes the
    container of that identifier before it deletes what the run did
    create. *)
Theorem ledger_names_uncreated_container :
  forall W (P : Platform W) self customer_email oss_type subdomain
         (s s1 : @State W) r o,
    created_resources s = [] ->
    Provisioner.provision_try self customer_email oss_type subdomain s
    = (r, s1, o) ->
    exists evs vmid tunnel_id dns_record_id,
      trace s1 = (trace s ++ evs)%list
      /\ created_resources s1
         = ledger_at (steps_ok o) vmid tunnel_id dns_record_id
      /\ created evs
         = created_at self (steps_ok o) vmid tunnel_id dns_record_id
      /\ (steps_ok o <> 7%nat ->
          ledger_exact self (created_resources s1) evs)
      /\ (steps_ok o = 7%nat ->
          dict_get "vmid" (created_resources s1) = Some (PInt vmid)
          /\ In (R_instance vmid) (ledger_refs self (created_resources s1))
          /\ ~ In (R_instance vmid) (created evs)
          /\ ~ ledger_exact self (created_resources s1) evs
          /\ exists s2 o2 comp,
              Provisioner._rollback self (created_resources s1) subdomain s1
              = (Ok tt, s2, o2)
              /\ extends s1 s2 comp
              /\ calls_of comp
                 = [ LxcStop (node self) (PInt vmid);
                     LxcDelete (node self) (PInt vmid);
                     HttpDelete (metadata_url self (Py.str_int vmid));
                     DnsDelete (PStr dns_record_id) (cloudflare_zone_id self);
                     TunnelDelete (PStr tunnel_id)
                                  (cloudflare_account_id self) ]).
Proof.
  intros W P self customer_email oss_type subdomain s s1 r o Hled Htry.
  destruct (provision_try_progress self _ _ _ _ _ _ _ Hled Htry)
    as (evs & vmid & tid & did & Ht & Hl & Hc & _ & Hv).
  exists evs, vmid, tid, did.
  split; [exact Ht|]. split; [exact Hl|]. split; [exact Hc|].
  destruct (ledger_at_refs self (steps_ok o) vmid tid did) as (Hsub & Hsup).
  split.
  - intros Hn x. rewrite Hl, Hc. split; [|apply Hsub].
    intros Hx. destruct (Hsup x Hx) as [Hin|(-> & Hmeta)]; [exact Hin|].
    revert Hmeta. unfold created_at.
    destruct (2 <=? steps_ok o)%nat, (5 <=? steps_ok o)%nat,
      (7 <=? steps_ok o)%nat eqn:H7, (8 <=? steps_ok o)%nat eqn:H8;
      cbn; intuition (try discriminate; auto).
    all: apply Nat.leb_le in H7; apply Nat.leb_gt in H8; lia.
  - intros Hn. rewrite Hl, Hc, Hn.
    assert (Hnot : ~ In (R_instance vmid) (created_at self 7 vmid tid did)).
    { cbn. intuition discriminate. }
    assert (Hin : In (R_instance vmid)
                     (ledger_refs self (ledger_at 7 vmid tid did))).
    { cbn. auto. }
    split; [reflexivity|]. split; [exact Hin|]. split; [exact Hnot|].
    split.
    { intros Hex. apply Hnot. pose proof (proj1 (Hex _) Hin) as Hx.
      rewrite Hc, Hn in Hx. exact Hx. }
    destruct (rollback_compensates self (ledger_at 7 vmid tid did)
                subdomain s1) as (s2 & o2 & comp & Hrb & Ext & Hcalls & _).
    exists s2, o2, comp. split; [exact Hrb|]. split; [exact Ext|].
    rewrite Hcalls. now rewrite rollback_calls_at.
Qed.

(** The run in which cloning the template fails: the platform holds no
    container, and the ledger names container 9000. *)
Lemma ledger_names_uncreated_container_witness :
  exists s1 o evs,
    Provisioner.provision_try demo_self "a@b.com" "nginx" "demo7"
      (Fake.connected (Fake.with_faults clone_fails (Fake.empty "persys.jp")))
    = (Raise (RemoteError "clone failed"), s1, o)
    /\ trace s1 = evs
    /\ Fake.has_lxc 9000 (world s1) = false
    /\ dict_get "vmid" (created_resources s1) = Some (PInt 9000)
    /\ ~ ledger_exact demo_self (created_resources s1) evs.
Proof.
  pose (s0 := Fake.connected
                (Fake.with_faults clone_fails (Fake.empty "persys.jp"))).
  pose (run := Provisioner.provision_try demo_self "a@b.com" "nginx" "demo7"
                 s0).
  assert (Htry : fst (fst run) = Raise (RemoteError "clone failed"))
    by (vm_compute; reflexivity).
  apply run_eq in Htry.
  destruct (ledger_names_uncreated_container _ _ demo_self "a@b.com" "nginx"
              "demo7" s0 _ _ _ eq_refl Htry)
    as (evs & vmid & tid & did & Ht & Hl & _ & _ & H7).
  assert (Hn : steps_ok (snd run) = 7%nat) by (vm_compute; reflexivity).
  destruct (H7 Hn) as (_ & _ & _ & Hex & _).
  exists (snd (fst run)), (snd run), evs.
  split; [exact Htry|]. split; [exact Ht|].
  split; [vm_compute; reflexivity|].
  split; [vm_compute; reflexivity|exact Hex].
Defined.

(** C4, as the code has it.  The request of the end-to-end example, on an
    empty platform where every call succeeds, is answered with the active
    status, the URL under the configured domain, the first free identifier
    and the new tunnel.  The ledger then has exactly four entries, recorded
    in the order tunnel, DNS record, container, metadata flag; the
    resources themselves were created in the order tunnel, DNS record,
    metadata document, container. *)
Theorem provision_end_to_end :
  forall self zone,
    let '(r, s', _) :=
      Provisioner.provision self "a@b.com" "nginx" "demo7" 7
        (Fake.initial (Fake.empty zone)) in
    r = Ok [ ("vmid", PInt 9000); ("tunnel_id", PStr "i");
             ("url", PStr ("https://demo7." ++ domain self));
             ("status", PStr "active") ]
    /\ created_resources s'
       = [ ("tunnel_id", PStr "i"); ("dns_record_id", PStr "ii");
           ("vmid", PInt 9000); ("metadata_uploaded", PBool true) ]
    /\ map kind_of_key (keys (created_resources s'))
       = [Some tunnel; Some dns; Some instance; Some metadata]
    /\ created (trace s')
       = [ R_tunnel "i"; R_dns "ii";
           R_metadata (metadata_url self "9000"); R_instance 9000 ].
Proof.
  intros self zone. vm_compute. repeat split.
Qed.

(** C4 as worded fails on the order of the ledger: its third entry is the
    container's and its fourth the metadata flag. *)
Lemma ledger_order_counterexample :
  let '(r, s', _) :=
    Provisioner.provision demo_self "a@b.com" "nginx" "demo7" 7
      (Fake.initial (Fake.empty "persys.jp")) in
  dict_get "status" match r with Ok d => d | _ => [] end
  = Some (PStr "active")
  /\ keys (created_resources s')
     = ["tunnel_id"; "dns_record_id"; "vmid"; "metadata_uploaded"]
  /\ map kind_of_key (keys (created_resources s'))
     <> [Some tunnel; Some dns; Some metadata; Some instance].
Proof.
  vm_compute. repeat split. intros H; discriminate H.
Qed.

(** ** CleanupSaga *)

Section Cleanup.

Context {W : Type} {P : Platform W} (self : Self).

Local Abbreviation State := (@State W).

Lemma invoke_ends {A} c (op : W -> Reply W A) enc (s s' : State) o :
  invoke c op enc s = (OutOfFuel, s', o) -> False.
Proof.
  intros H. apply invoke_inv in H. destruct H as (_ & _ & _ & oc & _ & Ha).
  destruct (answer (op (world s))); destruct Ha as (Hr & _); discriminate Hr.
Qed.

Lemma connect_ends (s s' : State) o :
  Provisioner.connect self s = (OutOfFuel, s', o) -> False.
Proof.
  unfold Provisioner.connect. intros H.
  mstep H as Hbody Hhandler.
  - destruct e; repeat
      match goal with
      | H : bind _ _ _ = _ |- _ => let R1 := fresh in let R2 := fresh in
                                   mstep H as R1 R2
      end.
  - repeat match goal with
      | H : bind _ _ _ = _ |- _ => let R1 := fresh in let R2 := fresh in
                                   mstep H as R1 R2
      | H : invoke _ _ _ _ = (OutOfFuel, _, _) |- _ =>
          exact (False_ind _ (invoke_ends _ _ _ _ _ _ H))
      end.
Qed.

Lemma get_provisioner_ends (s s' : State) o :
  Api._get_provisioner self s = (OutOfFuel, s', o) -> False.
Proof.
  unfold Api._get_provisioner. intros H.
  mstep H as H1 H2. mstep H2 as H3 H4.
  destruct (proxmox s && cf s); msimp.
  mstep H4 as H5 H6. mstep H6 as H7 H8.
  now apply connect_ends in H8.
Qed.

End Cleanup.

(** C2 against the code.  [run_cleanup] calls [provisioner.cleanup], and the
    class has no such attribute: on every platform and in every state the
    call raises, and with a connected provisioner it raises the attribute
    error before any external call is made. *)
Theorem run_cleanup_raises :
  forall W (P : Platform W) self vmid tunnel_id subdomain (s : @State W),
    (exists e s' o,
        Api.run_cleanup self vmid tunnel_id subdomain s = (Raise e, s', o))
    /\ (proxmox s = true -> cf s = true ->
        Api.run_cleanup self vmid tunnel_id subdomain s
        = (Raise (AttributeError "TamesukeProvisioner" "cleanup"), s,
           [L_cleanup_start vmid tunnel_id subdomain])).
Proof.
  intros W P self vmid tunnel_id subdomain s. split.
  - destruct (Api.run_cleanup self vmid tunnel_id subdomain s)
      as [[r s'] o] eqn:H.
    unfold Api.run_cleanup in H.
    mstep H as H1 H2. mstep H2 as H3 H4.
    + unfold Api.provisioner_cleanup in H4. mstep H4 as H5 H6.
      * vm_compute in H5. discriminate H5.
      * now eexists _, _, _.
      * vm_compute in H5. discriminate H5.
    + now eexists _, _, _.
    + now apply get_provisioner_ends in H3.
  - intros Hp Hc.
    unfold Api.run_cleanup, Api._get_provisioner, Api.provisioner_cleanup,
      bind, print, get, lift.
    rewrite Hp, Hc. reflexivity.
Qed.

Lemma run_cleanup_raises_witness :
  Api.run_cleanup demo_self 9000 "i" "demo7"
    (Fake.connected (Fake.empty "persys.jp"))
  = (Raise (AttributeError "TamesukeProvisioner" "cleanup"),
     Fake.connected (Fake.empty "persys.jp"),
     [L_cleanup_start 9000 "i" "demo7"]).
Proof.
  exact (proj2 (run_cleanup_raises _ _ demo_self 9000 "i" "demo7"
                  (Fake.connected (Fake.empty "persys.jp")))
           eq_refl eq_refl).
Defined.

(** ** Create-or-replace on the fake platform *)

Section Replace.

Import Fake.

Local Abbreviation State := (@State World).

Lemma length_append (a b : string) :
  String.length (a ++ b) = (String.length a + String.length b)%nat.
Proof. induction a as [|c a IH]; simpl; [reflexivity|now rewrite IH]. Qed.

Lemma length_concat_ge (x : string) (l : list string) :
  In x l -> (String.length x <= String.length (String.concat "" l))%nat.
Proof.
  induction l as [|y l IH]; intros Hin; [destruct Hin|].
  destruct l as [|z l].
  - destruct Hin as [->|[]]. simpl. lia.
  - change (String.concat "" (y :: z :: l))
      with (y ++ "" ++ String.concat "" (z :: l)).
    rewrite !length_append. simpl String.length at 2.
    destruct Hin as [->|Hin]; [lia|]. specialize (IH Hin). lia.
Qed.

Lemma fresh_not_in (used : list string) : ~ In (fresh used) used.
Proof.
  intros Hin. apply length_concat_ge in Hin. unfold fresh in Hin.
  simpl in Hin. lia.
Qed.

Lemma in_without i x l :
  In x (without i l) <-> In x l /\ Remote.id x <> i.
Proof.
  unfold without, has_id. rewrite filter_In, negb_true_iff, String.eqb_neq.
  tauto.
Qed.

Lemma in_purge gone : forall l x,
  In x (purge gone l) <-> In x l /\ ~ In (Remote.id x) (ids gone).
Proof.
  unfold purge. induction gone as [|g gone IH]; intros l x; simpl.
  - tauto.
  - rewrite IH, in_without. intuition congruence.
Qed.

Lemma existsb_has_id x l : In x l -> existsb (has_id (Remote.id x)) l = true.
Proof.
  intros Hin. apply existsb_exists. exists x. split; [exact Hin|].
  unfold has_id. apply String.eqb_refl.
Qed.

Lemma nodup_ids_inj l x y :
  NoDup (ids l) -> In x l -> In y l -> Remote.id x = Remote.id y -> x = y.
Proof.
  unfold ids. induction l as [|a l IH]; intros Hnd Hx Hy Heq; [destruct Hx|].
  inversion Hnd as [|? ? Hna Hnd']; subst.
  destruct Hx as [->|Hx], Hy as [->|Hy]; auto.
  - exfalso. apply Hna. rewrite Heq. now apply in_map.
  - exfalso. apply Hna. rewrite <- Heq. now apply in_map.
Qed.

Lemma nodup_ids_filter f l : NoDup (ids l) -> NoDup (ids (filter f l)).
Proof.
  unfold ids. induction l as [|a l IH]; intros Hnd; simpl; [constructor|].
  inversion Hnd as [|? ? Hna Hnd']; subst.
  destruct (f a); simpl; [|now apply IH].
  constructor; [|now apply IH].
  intros Hin. apply Hna. apply in_map_iff in Hin.
  destruct Hin as (y & Hy & Hin). apply filter_In in Hin.
  apply in_map_iff. exists y. tauto.
Qed.

Lemma filter_none {A} (f : A -> bool) l :
  (forall x, In x l -> f x = false) -> filter f l = [].
Proof.
  induction l as [|a l IH]; intros H; simpl; [reflexivity|].
  rewrite (H a (or_introl eq_refl)). apply IH. intros x Hx. apply H. now right.
Qed.

(** Nothing named [n] is left once every object named [n] is deleted. *)
Lemma purge_named n l :
  filter (named n) (purge (filter (named n) l) l) = [].
Proof.
  apply filter_none. intros x Hx. apply in_purge in Hx.
  destruct Hx as (Hin & Hnot). destruct (named n x) eqn:Hn; [|reflexivity].
  exfalso. apply Hnot. unfold ids. apply in_map. apply filter_In. tauto.
Qed.

(** The objects under another name stay. *)
Lemma purge_others n l x :
  NoDup (ids l) -> In x l -> named n x = false ->
  In x (purge (filter (named n) l) l).
Proof.
  intros Hnd Hin Hn. apply in_purge. split; [exact Hin|].
  intros Hid. unfold ids in Hid. apply in_map_iff in Hid.
  destruct Hid as (y & Heq & Hy). apply filter_In in Hy.
  destruct Hy as (Hy & Hny).
  assert (y = x) by (eapply nodup_ids_inj; eauto). subst y. congruence.
Qed.

Lemma bind_run_ok {A B} (m : @M World A) (f : A -> @M World B)
  (s s1 s2 : State) a r o1 o2 :
  m s = (Ok a, s1, o1) -> f a s1 = (r, s2, o2) ->
  bind m f s = (r, s2, (o1 ++ o2)%list).
Proof. intros H1 H2. unfold bind. now rewrite H1, H2. Qed.

Lemma bind_run_raise {A B} (m : @M World A) (f : A -> @M World B)
  (s s1 : State) e o1 :
  m s = (Raise e, s1, o1) -> bind m f s = (Raise e, s1, o1).
Proof. intros H1. unfold bind. now rewrite H1. Qed.

Lemma invoke_returned {A} c (op : World -> Reply World A) enc (s : State)
  a w' :
  op (world s) = ok a w' ->
  invoke c op enc s = (Ok a, returned s c (enc a) w', []).
Proof. intros H. unfold invoke. rewrite H. reflexivity. Qed.

Lemma invoke_raised {A} c (op : World -> Reply World A) enc (s : State) e :
  op (world s) = fail e (world s) ->
  exists s',
    invoke c op enc s = (Raise e, s', [])
    /\ world s' = world s
    /\ trace s' = (trace s ++ [mkEvent (clock s) c (Raised e)])%list.
Proof.
  intros H. unfold invoke. rewrite H. simpl. eexists. repeat split.
Qed.

Lemma guarded_none {A} c (real : World -> Reply World A) w :
  faults w c = None -> guarded c real w = real w.
Proof. intros H. unfold guarded. now rewrite H. Qed.

Lemma guarded_some {A} c (real : World -> Reply World A) w e :
  faults w c = Some e -> guarded c real w = fail e w.
Proof. intros H. unfold guarded. now rewrite H. Qed.

End Replace.

Section ReplaceTunnel.

Import Fake.

Variable self : Self.

Local Abbreviation State := (@State World).

(** The pre-clean loop of [_create_tunnel] over objects the broker holds. *)
Lemma preclean_tunnels name : forall gone (s : State),
  (forall c, faults (world s) c = None) ->
  NoDup (ids gone) ->
  (forall x, In x gone -> In x (tunnels (world s)) /\ named name x = true) ->
  exists s' o evs,
    Provisioner.for_each gone (fun tunnel =>
      if String.eqb (Remote.name tunnel) name then
        print (L_existing_tunnel_delete (Remote.id tunnel)) ;;
        invoke (TunnelDelete (PStr (Remote.id tunnel))
                             (cloudflare_account_id self))
               (tunnels_delete (PStr (Remote.id tunnel))
                               (cloudflare_account_id self))
               (fun _ => VUnit)
      else ret tt) s = (Ok tt, s', o)
    /\ trace s' = (trace s ++ evs)%list
    /\ calls_of evs
       = map (fun x => TunnelDelete (PStr (Remote.id x))
                                    (cloudflare_account_id self)) gone
    /\ tunnels (world s') = purge gone (tunnels (world s))
    /\ records (world s') = records (world s)
    /\ faults (world s') = faults (world s)
    /\ zone (world s') = zone (world s)
    /\ (forall i, In i (ids gone) \/ In i (retired (world s)) ->
                  In i (retired (world s'))).
Proof.
  induction gone as [|x gone IH]; intros s Hf Hnd Hin.
  - exists s, [], []. simpl. rewrite app_nil_r.
    repeat split; auto. intros i [[]|H]; exact H.
  - inversion Hnd as [|? ? Hna Hnd']; subst.
    destruct (Hin x (or_introl eq_refl)) as (Hx & Hn).
    set (c := TunnelDelete (PStr (Remote.id x)) (cloudflare_account_id self)).
    set (w1 := set_tunnels (without (Remote.id x) (tunnels (world s)))
                           (retire (Remote.id x) (world s))).
    assert (Hdel : invoke c (tunnels_delete (PStr (Remote.id x))
                                            (cloudflare_account_id self))
                     (fun _ => VUnit) s
                   = (Ok tt, returned s c VUnit w1, [])).
    { apply invoke_returned. cbn [tunnels_delete platform].
      rewrite guarded_none by apply Hf. unfold delete_tunnel.
      now rewrite existsb_has_id. }
    destruct (IH (returned s c VUnit w1)) as (s' & o & evs & Hrun & Ht & Hc
                                              & Htu & Hre & Hfa & Hzo & Hret).
    { exact Hf. }
    { exact Hnd'. }
    { intros y Hy. destruct (Hin y (or_intror Hy)) as (Hy1 & Hy2).
      split; [|exact Hy2]. cbn. apply in_without. split; [exact Hy1|].
      intros Heq. apply Hna. rewrite <- Heq. unfold ids. now apply in_map. }
    exists s'. eexists. exists (mkEvent (clock s) c (Returned VUnit) :: evs).
    split.
    { cbn [Provisioner.for_each]. eapply bind_run_ok; [|exact Hrun].
      unfold named in Hn. rewrite Hn.
      eapply bind_run_ok; [reflexivity|exact Hdel]. }
    split. { rewrite Ht. cbn. now rewrite <- app_assoc. }
    split. { unfold calls_of in *. cbn. now rewrite Hc. }
    split. { rewrite Htu. reflexivity. }
    split. { rewrite Hre. reflexivity. }
    split. { rewrite Hfa. reflexivity. }
    split. { rewrite Hzo. reflexivity. }
    intros i Hi. apply Hret. cbn.
    destruct Hi as [[<-|Hi]|Hi]; auto.
Qed.

Lemma create_tunnel_replaces vmid subdomain (s : State) :
  (forall c, faults (world s) c = None) ->
  NoDup (ids (tunnels (world s))) ->
  let name := "service-" ++ Py.str_int vmid ++ "-" ++ subdomain in
  let old := filter (named name) (tunnels (world s)) in
  exists t s' o evs,
    Provisioner._create_tunnel self vmid subdomain s = (Ok t, s', o)
    /\ trace s' = (trace s ++ evs)%list
    /\ calls_of evs
       = (TunnelList (cloudflare_account_id self) name
          :: map (fun x => TunnelDelete (PStr (Remote.id x))
                                        (cloudflare_account_id self)) old
          ++ [ TokenBytesHex 32;
               TunnelCreate (cloudflare_account_id self) name "5ec2e7" ])%list
    /\ filter (named name) (tunnels (world s')) = [t]
    /\ ~ In (Remote.id t) (ids (tunnels (world s)))
    /\ (forall x, In x (tunnels (world s)) -> named name x = false ->
                  In x (tunnels (world s'))).
Proof.
  intros Hf Hnd name old.
  set (acct := cloudflare_account_id self).
  set (s1 := returned s (TunnelList acct name) (VObjs old) (world s)).
  destruct (preclean_tunnels name old s1) as (s2 & o2 & evs & Hrun & Ht & Hc
                                              & Htu & Hre & Hfa & Hzo & Hret).
  { exact Hf. }
  { now apply nodup_ids_filter. }
  { intros x Hx. apply filter_In in Hx. exact Hx. }
  unfold s1 in Htu, Hre, Hfa, Hret.
  cbn [world returned set_trace set_world set_clock] in Htu, Hre, Hfa, Hret.
  set (s3 := returned s2 (TokenBytesHex 32) (VStr "5ec2e7") (world s2)).
  set (t := Remote.mk (fresh (taken (world s2))) name).
  set (w4 := set_tunnels (tunnels (world s2) ++ [t]) (world s2)).
  set (s4 := returned s3 (TunnelCreate acct name "5ec2e7") (VObj t) w4).
  exists t, s4. eexists.
  exists (mkEvent (clock s) (TunnelList acct name) (Returned (VObjs old))
          :: evs
          ++ [ mkEvent (clock s2) (TokenBytesHex 32) (Returned (VStr "5ec2e7"));
               mkEvent (clock s3) (TunnelCreate acct name "5ec2e7")
                       (Returned (VObj t)) ])%list.
  split.
  { unfold Provisioner._create_tunnel. cbv zeta. fold name acct.
    eapply bind_run_ok.
    { apply invoke_returned. cbn [tunnels_list platform].
      rewrite guarded_none by apply Hf. reflexivity. }
    eapply bind_run_ok; [exact Hrun|].
    eapply bind_run_ok.
    { apply invoke_returned. cbn [token_bytes_hex platform].
      rewrite guarded_none by (rewrite Hfa; apply Hf). reflexivity. }
    apply invoke_returned. cbn [tunnels_create platform].
    rewrite guarded_none by (cbn; rewrite Hfa; apply Hf). reflexivity. }
  split.
  { cbn. rewrite Ht. cbn. rewrite <- !app_assoc. reflexivity. }
  split.
  { unfold calls_of in *. cbn. rewrite map_app, filter_app, Hc. reflexivity. }
  split.
  { cbn. rewrite filter_app, Htu. unfold old. rewrite purge_named. cbn.
    unfold named. cbn. now rewrite String.eqb_refl. }
  split.
  { intros Hin. apply (fresh_not_in (taken (world s2))). fold (Remote.id t).
    unfold ids in Hin. apply in_map_iff in Hin.
    destruct Hin as (x & Heq & Hx).
    change (Remote.id t) with (fresh (taken (world s2))) in Heq.
    rewrite <- Heq. unfold taken. apply in_or_app.
    destruct (in_dec string_dec (Remote.id x) (ids old)) as [Hold|Hnew].
    - right. apply in_or_app. right. apply Hret. now left.
    - left. rewrite Htu. unfold ids. apply in_map. apply in_purge. tauto. }
  intros x Hx Hn. cbn. apply in_or_app. left. rewrite Htu.
  now apply purge_others.
Qed.

(** A delete that raises ends [_create_tunnel]: nothing is created. *)
Lemma create_tunnel_delete_error vmid subdomain (s : State) e x :
  let name := "service-" ++ Py.str_int vmid ++ "-" ++ subdomain in
  faults (world s) (TunnelList (cloudflare_account_id self) name) = None ->
  (forall i, faults (world s) (TunnelDelete i (cloudflare_account_id self))
             = Some e) ->
  In x (tunnels (world s)) -> named name x = true ->
  exists s' o,
    Provisioner._create_tunnel self vmid subdomain s = (Raise e, s', o)
    /\ tunnels (world s') = tunnels (world s)
    /\ created (skipn (List.length (trace s)) (trace s')) = [].
Proof.
  intros name Hl Hd Hx Hn.
  set (acct := cloudflare_account_id self).
  set (old := filter (named name) (tunnels (world s))).
  assert (Hold : In x old) by (apply filter_In; tauto).
  destruct old as [|y old'] eqn:Eold; [destruct Hold|].
  assert (Hy : named name y = true).
  { assert (In y (filter (named name) (tunnels (world s))))
      by (fold old; rewrite Eold; now left).
    apply filter_In in H. tauto. }
  set (s1 := returned s (TunnelList acct name) (VObjs (y :: old')) (world s)).
  destruct (invoke_raised (TunnelDelete (PStr (Remote.id y)) acct)
              (tunnels_delete (PStr (Remote.id y)) acct) (fun _ => VUnit)
              s1 e) as (s2 & Hrun & Hw & Ht).
  { cbn [tunnels_delete platform]. apply guarded_some. apply Hd. }
  exists s2. eexists. split; [|split].
  - unfold Provisioner._create_tunnel. cbv zeta. fold name acct.
    eapply bind_run_ok.
    { apply invoke_returned. cbn [tunnels_list platform].
      rewrite guarded_none by apply Hl. fold old. rewrite Eold. reflexivity. }
    apply bind_run_raise. cbn [Provisioner.for_each].
    apply bind_run_raise. unfold named in Hy. rewrite Hy.
    eapply bind_run_ok; [reflexivity|exact Hrun].
  - rewrite Hw. reflexivity.
  - rewrite Ht. cbn. rewrite <- app_assoc.
    rewrite skipn_app, skipn_all, Nat.sub_diag. reflexivity.
Qed.

End ReplaceTunnel.

Section ReplaceDns.

Import Fake.

Variable self : Self.

Local Abbreviation State := (@State World).

(** The pre-clean loop of [_create_dns_record] over records the zone
    holds. *)
Lemma preclean_records name : forall gone (s : State),
  (forall c, faults (world s) c = None) ->
  NoDup (ids gone) ->
  (forall x, In x gone -> In x (records (world s)) /\ named name x = true) ->
  exists s' o evs,
    Provisioner.for_each gone (fun record =>
      if String.eqb (Remote.name record) name then
        print (L_existing_dns_delete (Remote.id record)) ;;
        invoke (DnsDelete (PStr (Remote.id record)) (cloudflare_zone_id self))
               (dns_delete (PStr (Remote.id record)) (cloudflare_zone_id self))
               (fun _ => VUnit)
      else ret tt) s = (Ok tt, s', o)
    /\ trace s' = (trace s ++ evs)%list
    /\ calls_of evs
       = map (fun x => DnsDelete (PStr (Remote.id x))
                                 (cloudflare_zone_id self)) gone
    /\ records (world s') = purge gone (records (world s))
    /\ tunnels (world s') = tunnels (world s)
    /\ faults (world s') = faults (world s)
    /\ zone (world s') = zone (world s)
    /\ (forall i, In i (ids gone) \/ In i (retired (world s)) ->
                  In i (retired (world s'))).
Proof.
  induction gone as [|x gone IH]; intros s Hf Hnd Hin.
  - exists s, [], []. simpl. rewrite app_nil_r.
    repeat split; auto. intros i [[]|H]; exact H.
  - inversion Hnd as [|? ? Hna Hnd']; subst.
    destruct (Hin x (or_introl eq_refl)) as (Hx & Hn).
    set (c := DnsDelete (PStr (Remote.id x)) (cloudflare_zone_id self)).
    set (w1 := set_records (without (Remote.id x) (records (world s)))
                           (retire (Remote.id x) (world s))).
    assert (Hdel : invoke c (dns_delete (PStr (Remote.id x))
                                        (cloudflare_zone_id self))
                     (fun _ => VUnit) s
                   = (Ok tt, returned s c VUnit w1, [])).
    { apply invoke_returned. cbn [dns_delete platform].
      rewrite guarded_none by apply Hf. unfold delete_record.
      now rewrite existsb_has_id. }
    destruct (IH (returned s c VUnit w1)) as (s' & o & evs & Hrun & Ht & Hc
                                              & Hre & Htu & Hfa & Hzo & Hret).
    { exact Hf. }
    { exact Hnd'. }
    { intros y Hy. destruct (Hin y (or_intror Hy)) as (Hy1 & Hy2).
      split; [|exact Hy2]. cbn. apply in_without. split; [exact Hy1|].
      intros Heq. apply Hna. rewrite <- Heq. unfold ids. now apply in_map. }
    exists s'. eexists. exists (mkEvent (clock s) c (Returned VUnit) :: evs).
    split.
    { cbn [Provisioner.for_each]. eapply bind_run_ok; [|exact Hrun].
      unfold named in Hn. rewrite Hn.
      eapply bind_run_ok; [reflexivity|exact Hdel]. }
    split. { rewrite Ht. cbn. now rewrite <- app_assoc. }
    split. { unfold calls_of in *. cbn. now rewrite Hc. }
    split. { rewrite Hre. reflexivity. }
    split. { rewrite Htu. reflexivity. }
    split. { rewrite Hfa. reflexivity. }
    split. { rewrite Hzo. reflexivity. }
    intros i Hi. apply Hret. cbn.
    destruct Hi as [[<-|Hi]|Hi]; auto.
Qed.

Lemma create_dns_record_replaces subdomain tunnel_id (s : State) :
  (forall c, faults (world s) c = None) ->
  NoDup (ids (records (world s))) ->
  zone (world s) = domain self ->
  let name := subdomain ++ "." ++ domain self in
  let old := filter (named name) (records (world s)) in
  let args := {| dns_type := "CNAME"; dns_name := subdomain;
                 dns_content := tunnel_id ++ ".cfargotunnel.com";
                 dns_ttl := 1; dns_proxied := true |} in
  exists r s' o evs,
    Provisioner._create_dns_record self subdomain tunnel_id s
    = (Ok (Remote.id r), s', o)
    /\ trace s' = (trace s ++ evs)%list
    /\ calls_of evs
       = (DnsList (cloudflare_zone_id self) name
          :: map (fun x => DnsDelete (PStr (Remote.id x))
                                     (cloudflare_zone_id self)) old
          ++ [DnsCreate (cloudflare_zone_id self) args])%list
    /\ filter (named name) (records (world s')) = [r]
    /\ ~ In (Remote.id r) (ids (records (world s)))
    /\ (forall x, In x (records (world s)) -> named name x = false ->
                  In x (records (world s'))).
Proof.
  intros Hf Hnd Hz name old args.
  set (zid := cloudflare_zone_id self).
  set (s1 := returned s (DnsList zid name) (VObjs old) (world s)).
  destruct (preclean_records name old s1) as (s2 & o2 & evs & Hrun & Ht & Hc
                                              & Hre & Htu & Hfa & Hzo & Hret).
  { exact Hf. }
  { now apply nodup_ids_filter. }
  { intros x Hx. apply filter_In in Hx. exact Hx. }
  unfold s1 in Htu, Hre, Hfa, Hzo, Hret.
  cbn [world returned set_trace set_world set_clock]
    in Htu, Hre, Hfa, Hzo, Hret.
  set (r := Remote.mk (fresh (taken (world s2))) name).
  set (w3 := set_records (records (world s2) ++ [r]) (world s2)).
  set (s3 := returned s2 (DnsCreate zid args) (VObj r) w3).
  exists r, s3. eexists.
  exists (mkEvent (clock s) (DnsList zid name) (Returned (VObjs old))
          :: evs
          ++ [mkEvent (clock s2) (DnsCreate zid args) (Returned (VObj r))])%list.
  split.
  { unfold Provisioner._create_dns_record. fold name zid args.
    eapply bind_run_ok.
    { apply invoke_returned. cbn [dns_list platform].
      rewrite guarded_none by apply Hf. reflexivity. }
    eapply bind_run_ok; [exact Hrun|].
    eapply bind_run_ok; [|reflexivity].
    apply invoke_returned. cbn [dns_create platform].
    rewrite guarded_none by (rewrite Hfa; apply Hf).
    unfold create_record. cbn [dns_name args]. rewrite Hzo, Hz. reflexivity. }
  split.
  { cbn. rewrite Ht. cbn. rewrite <- !app_assoc. reflexivity. }
  split.
  { unfold calls_of in *. cbn. rewrite map_app, filter_app, Hc. reflexivity. }
  split.
  { cbn. rewrite filter_app, Hre. unfold old. rewrite purge_named. cbn.
    unfold named. cbn. now rewrite String.eqb_refl. }
  split.
  { intros Hin. apply (fresh_not_in (taken (world s2))).
    unfold ids in Hin. apply in_map_iff in Hin.
    destruct Hin as (x & Heq & Hx).
    change (Remote.id r) with (fresh (taken (world s2))) in Heq.
    rewrite <- Heq. unfold taken. apply in_or_app. right. apply in_or_app.
    destruct (in_dec string_dec (Remote.id x) (ids old)) as [Hold|Hnew].
    - right. apply Hret. now left.
    - left. rewrite Hre. unfold ids. apply in_map. apply in_purge. tauto. }
  intros x Hx Hn. cbn. apply in_or_app. left. rewrite Hre.
  now apply purge_others.
Qed.

(** A delete that raises ends [_create_dns_record]: nothing is created. *)
Lemma create_dns_record_delete_error subdomain tunnel_id (s : State) e x :
  let name := subdomain ++ "." ++ domain self in
  faults (world s) (DnsList (cloudflare_zone_id self) name) = None ->
  (forall i, faults (world s) (DnsDelete i (cloudflare_zone_id self))
             = Some e) ->
  In x (records (world s)) -> named name x = true ->
  exists s' o,
    Provisioner._create_dns_record self subdomain tunnel_id s
    = (Raise e, s', o)
    /\ records (world s') = records (world s)
    /\ created (skipn (List.length (trace s)) (trace s')) = [].
Proof.
  intros name Hl Hd Hx Hn.
  set (zid := cloudflare_zone_id self).
  set (old := filter (named name) (records (world s))).
  assert (Hold : In x old) by (apply filter_In; tauto).
  destruct old as [|y old'] eqn:Eold; [destruct Hold|].
  assert (Hy : named name y = true).
  { assert (In y (filter (named name) (records (world s))))
      by (fold old; rewrite Eold; now left).
    apply filter_In in H. tauto. }
  set (s1 := returned s (DnsList zid name) (VObjs (y :: old')) (world s)).
  destruct (invoke_raised (DnsDelete (PStr (Remote.id y)) zid)
              (dns_delete (PStr (Remote.id y)) zid) (fun _ => VUnit)
              s1 e) as (s2 & Hrun & Hw & Ht).
  { cbn [dns_delete platform]. apply guarded_some. apply Hd. }
  exists s2. eexists. split; [|split].
  - unfold Provisioner._create_dns_record. fold name zid.
    eapply bind_run_ok.
    { apply invoke_returned. cbn [dns_list platform].
      rewrite guarded_none by apply Hl. fold old. rewrite Eold. reflexivity. }
    apply bind_run_raise. cbn [Provisioner.for_each].
    apply bind_run_raise. unfold named in Hy. rewrite Hy.
    eapply bind_run_ok; [reflexivity|exact Hrun].
  - rewrite Hw. reflexivity.
  - rewrite Ht. cbn. rewrite <- app_assoc.
    rewrite skipn_app, skipn_all, Nat.sub_diag. reflexivity.
Qed.

End ReplaceDns.

(** ** Replace on any platform: the calls and their answers *)

Section Scripts.

Context {W : Type} {P : Platform W} (self : Self).

Local Abbreviation State := (@State W).

Lemma exchanges_app evs1 evs2 :
  exchanges (evs1 ++ evs2) = (exchanges evs1 ++ exchanges evs2)%list.
Proof. unfold exchanges. apply map_app. Qed.

Lemma exchanges_cons ev evs :
  exchanges (ev :: evs) = (call ev, outcome ev) :: exchanges evs.
Proof. reflexivity. Qed.

Lemma stopped_first ev c o rest e :
  call ev = c -> outcome ev = Raised e -> stopped [ev] ((c, o) :: rest) e.
Proof.
  intros Hc Ho. exists [], c, o, rest. split; [reflexivity|].
  unfold exchanges. cbn. now rewrite Hc, Ho.
Qed.

Lemma stopped_more evs script more e :
  stopped evs script e -> stopped evs (script ++ more) e.
Proof.
  intros (done & c & o & rest & -> & He).
  exists done, c, o, (rest ++ more)%list. split; [|exact He].
  now rewrite <- app_assoc.
Qed.

Lemma stopped_after evs1 evs2 script1 script2 e :
  exchanges evs1 = script1 -> stopped evs2 script2 e ->
  stopped (evs1 ++ evs2) (script1 ++ script2) e.
Proof.
  intros H1 (done & c & o & rest & -> & He).
  exists (script1 ++ done)%list, c, o, rest.
  split; [now rewrite <- app_assoc|].
  now rewrite exchanges_app, H1, He, <- app_assoc.
Qed.

(** One external call: its event, with the call and the answer. *)
Lemma invoke_exchange {A} c (op : W -> Reply W A) enc (s s' : State) r o :
  invoke c op enc s = (r, s', o) ->
  exists ev,
    o = [] /\ trace s' = (trace s ++ [ev])%list /\ call ev = c
    /\ match r with
       | Ok a => outcome ev = Returned (enc a)
       | Raise e => outcome ev = Raised e
       | OutOfFuel => False
       end.
Proof.
  intros H. apply invoke_inv in H.
  destruct H as (-> & _ & _ & oc & (T & _) & Ha).
  exists (mkEvent (clock s) c oc). repeat split; auto.
  destruct (answer (op (world s))); destruct Ha as (-> & ->); reflexivity.
Qed.

(** The pre-clean loop of [_create_tunnel] and [_create_dns_record] over
    whatever the listing returned: a delete for each listed object that
    carries exactly the name, in the order of the listing, none for an
    object under another name; the first delete that raises ends the
    loop. *)
Lemma preclean_run name (del : Remote.obj -> Call)
  (op : Remote.obj -> W -> Reply W unit) (line : Remote.obj -> Line) :
  forall listed (s s' : State) r o,
    Provisioner.for_each listed
      (fun x =>
         if String.eqb (Remote.name x) name
         then print (line x) ;; invoke (del x) (op x) (fun _ => VUnit)
         else ret tt) s = (r, s', o) ->
    exists evs,
      trace s' = (trace s ++ evs)%list
      /\ match r with
         | Ok _ =>
             exchanges evs
             = map (fun x => (del x, Returned VUnit)) (same_name name listed)
         | Raise e =>
             stopped evs
               (map (fun x => (del x, Returned VUnit))
                    (same_name name listed)) e
         | OutOfFuel => False
         end.
Proof.
  induction listed as [|x listed IH]; intros s s' r o H.
  - cbn in H. msimp. exists []. now rewrite app_nil_r.
  - cbn [Provisioner.for_each] in H. unfold same_name in *. cbn [filter].
    destruct (String.eqb (Remote.name x) name).
    + minv_as H Hx Hrest.
      * mstep Hx as Hp Hi. apply invoke_exchange in Hi.
        destruct Hi as (ev & -> & T & C & O).
        destruct (IH _ _ _ _ Hrest) as (evs & Ht & Hr).
        exists (ev :: evs). split; [rewrite Ht, T, <- app_assoc; reflexivity|].
        destruct r as [a'|e|]; [| |exact Hr].
        -- unfold exchanges in *. cbn. now rewrite C, O, Hr.
        -- change (ev :: evs) with ([ev] ++ evs)%list.
           change (map _ (x :: ?l))
             with ([(del x, Returned VUnit)]
                   ++ map (fun x => (del x, Returned VUnit)) l)%list.
           apply stopped_after; [|exact Hr].
           unfold exchanges. cbn. now rewrite C, O.
      * mstep Hx as Hp Hi. apply invoke_exchange in Hi.
        destruct Hi as (ev & -> & T & C & O).
        exists [ev]. split; [exact T|].
        cbn [map]. now apply stopped_first.
      * mstep Hx as Hp Hi. apply invoke_exchange in Hi.
        destruct Hi as (ev & _ & _ & _ & []).
    + minv_as H Hx Hrest; msimp. now apply IH in Hrest.
Qed.

(** [_create_tunnel], whatever the platform answers. *)
Lemma create_tunnel_run vmid subdomain (s s' : State) r o :
  Provisioner._create_tunnel self vmid subdomain s = (r, s', o) ->
  exists evs,
    trace s' = (trace s ++ evs)%list
    /\ match r with
       | Ok t =>
           exists listed secret,
             exchanges evs
             = create_tunnel_script self vmid subdomain listed secret t
       | Raise e =>
           created evs = []
           /\ exists listed secret t,
               stopped evs
                 (create_tunnel_script self vmid subdomain listed secret t) e
       | OutOfFuel => False
       end.
Proof.
  intros H.
  destruct (create_tunnel_quiet self _ _ _ _ _ _ H)
    as (evs0 & (T0 & _) & _ & Hcr).
  assert (Hmain : exists evs,
             trace s' = (trace s ++ evs)%list
             /\ match r with
                | Ok t =>
                    exists listed secret,
                      exchanges evs
                      = create_tunnel_script self vmid subdomain listed
                          secret t
                | Raise e =>
                    exists listed secret t,
                      stopped evs
                        (create_tunnel_script self vmid subdomain listed
                           secret t) e
                | OutOfFuel => False
                end).
  { clear evs0 T0 Hcr. unfold Provisioner._create_tunnel in H.
    fold (tunnel_name vmid subdomain) in H.
    unfold create_tunnel_script.
    set (name := tunnel_name vmid subdomain) in *.
    set (del := fun x : Remote.obj =>
                  TunnelDelete (PStr (Remote.id x))
                               (cloudflare_account_id self)).
    minv_as H Hlist H1.
    - apply invoke_exchange in Hlist. destruct Hlist as (e1 & -> & T1 & C1 & O1).
      minv_as H1 Hloop H2.
      + apply (preclean_run name del
                 (fun x => tunnels_delete (PStr (Remote.id x))
                                          (cloudflare_account_id self))
                 (fun x => L_existing_tunnel_delete (Remote.id x))) in Hloop.
        destruct Hloop as (evs & Tl & Hl).
        minv_as H2 Hsec Hcr.
        * apply invoke_exchange in Hsec.
          destruct Hsec as (e2 & -> & T2 & C2 & O2).
          apply invoke_exchange in Hcr.
          destruct Hcr as (e3 & -> & T3 & C3 & O3).
          exists (e1 :: evs ++ [e2; e3])%list.
          split; [rewrite T3, T2, Tl, T1, <- !app_assoc; reflexivity|].
          destruct r as [t|e|]; [| |destruct O3].
          -- exists a, a1. unfold exchanges in *. cbn [map].
             rewrite map_app, Hl, C1, O1. cbn [map].
             now rewrite C2, O2, C3, O3.
          -- exists a, a1, (Remote.mk "" "").
             replace (e1 :: evs ++ [e2; e3])%list
               with (((e1 :: evs) ++ [e2]) ++ [e3])%list
               by (rewrite <- !app_assoc; reflexivity).
             match goal with
             | |- stopped _ (?p :: ?m ++ [?q; ?z]) _ =>
                 replace (p :: m ++ [q; z])%list
                   with (((p :: m) ++ [q]) ++ [z])%list
                   by (rewrite <- !app_assoc; reflexivity)
             end.
             apply stopped_after; [|now apply stopped_first].
             rewrite exchanges_app, exchanges_cons, C1, O1, Hl.
             unfold exchanges. cbn. now rewrite C2, O2.
        * apply invoke_exchange in Hsec.
          destruct Hsec as (e2 & -> & T2 & C2 & O2).
          exists (e1 :: evs ++ [e2])%list.
          split; [rewrite T2, Tl, T1, <- !app_assoc; reflexivity|].
          exists a, "", (Remote.mk "" "").
          change (e1 :: evs ++ [e2])%list with ([e1] ++ evs ++ [e2])%list.
          match goal with
          | |- stopped _ (?p :: ?m ++ ?q) _ =>
              change (p :: m ++ q)%list with ([p] ++ m ++ q)%list
          end.
          apply stopped_after;
            [unfold exchanges; cbn; now rewrite C1, O1|].
          apply stopped_after; [exact Hl|].
          now apply stopped_first.
        * apply invoke_exchange in Hsec.
          destruct Hsec as (e2 & _ & _ & _ & []).
      + apply (preclean_run name del
                 (fun x => tunnels_delete (PStr (Remote.id x))
                                          (cloudflare_account_id self))
                 (fun x => L_existing_tunnel_delete (Remote.id x))) in Hloop.
        destruct Hloop as (evs & Tl & Hl).
        exists (e1 :: evs). split; [rewrite Tl, T1, <- app_assoc; reflexivity|].
        exists a, "", (Remote.mk "" "").
        change (e1 :: evs) with ([e1] ++ evs)%list.
        match goal with
        | |- stopped _ (?p :: ?m) _ =>
            change (p :: m) with ([p] ++ m)%list
        end.
        apply stopped_after;
          [unfold exchanges; cbn; now rewrite C1, O1|].
        now apply stopped_more.
      + apply (preclean_run name del
                 (fun x => tunnels_delete (PStr (Remote.id x))
                                          (cloudflare_account_id self))
                 (fun x => L_existing_tunnel_delete (Remote.id x))) in Hloop.
        destruct Hloop as (evs & _ & []).
    - apply invoke_exchange in Hlist. destruct Hlist as (e1 & -> & T1 & C1 & O1).
      exists [e1]. split; [exact T1|].
      exists [], "", (Remote.mk "" ""). now apply stopped_first.
    - apply invoke_exchange in Hlist. destruct Hlist as (e1 & _ & _ & _ & []). }
  destruct Hmain as (evs & Ht & Hr). exists evs. split; [exact Ht|].
  assert (evs0 = evs) as -> by (rewrite Ht in T0; now apply app_inv_head in T0).
  destruct r; auto.
Qed.

(** [_create_dns_record], whatever the platform answers. *)
Lemma create_dns_record_run subdomain tunnel_id (s s' : State) r o :
  Provisioner._create_dns_record self subdomain tunnel_id s = (r, s', o) ->
  exists evs,
    trace s' = (trace s ++ evs)%list
    /\ match r with
       | Ok record_id =>
           exists listed record,
             record_id = Remote.id record
             /\ exchanges evs
                = create_dns_record_script self subdomain tunnel_id listed
                    record
       | Raise e =>
           created evs = []
           /\ exists listed record,
               stopped evs
                 (create_dns_record_script self subdomain tunnel_id listed
                    record) e
       | OutOfFuel => False
       end.
Proof.
  intros H.
  destruct (create_dns_record_quiet self _ _ _ _ _ _ H)
    as (evs0 & (T0 & _) & _ & Hcr).
  assert (Hmain : exists evs,
             trace s' = (trace s ++ evs)%list
             /\ match r with
                | Ok record_id =>
                    exists listed record,
                      record_id = Remote.id record
                      /\ exchanges evs
                         = create_dns_record_script self subdomain tunnel_id
                             listed record
                | Raise e =>
                    exists listed record,
                      stopped evs
                        (create_dns_record_script self subdomain tunnel_id
                           listed record) e
                | OutOfFuel => False
                end).
  { clear evs0 T0 Hcr. unfold Provisioner._create_dns_record in H.
    unfold create_dns_record_script.
    set (name := subdomain ++ "." ++ domain self) in *.
    set (del := fun x : Remote.obj =>
                  DnsDelete (PStr (Remote.id x)) (cloudflare_zone_id self)).
    minv_as H Hlist H1.
    - apply invoke_exchange in Hlist. destruct Hlist as (e1 & -> & T1 & C1 & O1).
      minv_as H1 Hloop H2.
      + apply (preclean_run name del
                 (fun x => dns_delete (PStr (Remote.id x))
                                      (cloudflare_zone_id self))
                 (fun x => L_existing_dns_delete (Remote.id x))) in Hloop.
        destruct Hloop as (evs & Tl & Hl).
        minv_as H2 Hcr Hret.
        * msimp. apply invoke_exchange in Hcr.
          destruct Hcr as (e3 & -> & T3 & C3 & O3).
          exists (e1 :: evs ++ [e3])%list.
          split; [rewrite T3, Tl, T1, <- !app_assoc; reflexivity|].
          exists a, a1. split; [reflexivity|].
          unfold exchanges in *. cbn [map].
          rewrite map_app, Hl, C1, O1. cbn [map]. now rewrite C3, O3.
        * apply invoke_exchange in Hcr.
          destruct Hcr as (e3 & -> & T3 & C3 & O3).
          exists (e1 :: evs ++ [e3])%list.
          split; [rewrite T3, Tl, T1, <- !app_assoc; reflexivity|].
          exists a, (Remote.mk "" "").
          change (e1 :: evs ++ [e3])%list with ([e1] ++ evs ++ [e3])%list.
          match goal with
          | |- stopped _ (?p :: ?m ++ ?q) _ =>
              change (p :: m ++ q)%list with ([p] ++ m ++ q)%list
          end.
          apply stopped_after;
            [unfold exchanges; cbn; now rewrite C1, O1|].
          apply stopped_after; [exact Hl|].
          now apply stopped_first.
        * apply invoke_exchange in Hcr.
          destruct Hcr as (e3 & _ & _ & _ & []).
      + apply (preclean_run name del
                 (fun x => dns_delete (PStr (Remote.id x))
                                      (cloudflare_zone_id self))
                 (fun x => L_existing_dns_delete (Remote.id x))) in Hloop.
        destruct Hloop as (evs & Tl & Hl).
        exists (e1 :: evs). split; [rewrite Tl, T1, <- app_assoc; reflexivity|].
        exists a, (Remote.mk "" "").
        change (e1 :: evs) with ([e1] ++ evs)%list.
        match goal with
        | |- stopped _ (?p :: ?m) _ =>
            change (p :: m) with ([p] ++ m)%list
        end.
        apply stopped_after;
          [unfold exchanges; cbn; now rewrite C1, O1|].
        now apply stopped_more.
      + apply (preclean_run name del
                 (fun x => dns_delete (PStr (Remote.id x))
                                      (cloudflare_zone_id self))
                 (fun x => L_existing_dns_delete (Remote.id x))) in Hloop.
        destruct Hloop as (evs & _ & []).
    - apply invoke_exchange in Hlist. destruct Hlist as (e1 & -> & T1 & C1 & O1).
      exists [e1]. split; [exact T1|].
      exists [], (Remote.mk "" ""). now apply stopped_first.
    - apply invoke_exchange in Hlist. destruct Hlist as (e1 & _ & _ & _ & []). }
  destruct Hmain as (evs & Ht & Hr). exists evs. split; [exact Ht|].
  assert (evs0 = evs) as -> by (rewrite Ht in T0; now apply app_inv_head in T0).
  destruct r; auto.
Qed.

End Scripts.

(** C5, as the code has it.  On any platform and whatever the listing
    returns, [_create_tunnel] and [_create_dns_record] list by the target
    name, delete each listed object that carries exactly that name, in the
    order of the listing, and no listed object under another name, and then
    create one object (the tunnel with the secret just drawn): when the
    call returns, its calls and their answers are this script, call by
    call; when it raises, they are the script up to the call that raised,
    whose error is passed on, and nothing was created.  So an error of a
    delete, "not found" included, is not ignored.  On the fake platform,
    with every call answered: afterwards exactly one object has the name,
    its identifier is none of the old ones, and objects under other names
    are still there; and a delete that raises leaves the objects as they
    were. *)
Theorem create_or_replace :
  (forall W (P : Platform W) self vmid subdomain (s s' : @State W) r o,
      Provisioner._create_tunnel self vmid subdomain s = (r, s', o) ->
      exists evs,
        trace s' = (trace s ++ evs)%list
        /\ match r with
           | Ok t =>
               exists listed secret,
                 exchanges evs
                 = create_tunnel_script self vmid subdomain listed secret t
           | Raise e =>
               created evs = []
               /\ exists listed secret t,
                   stopped evs
                     (create_tunnel_script self vmid subdomain listed secret
                        t) e
           | OutOfFuel => False
           end)
  /\ (forall W (P : Platform W) self subdomain tunnel_id (s s' : @State W)
             r o,
         Provisioner._create_dns_record self subdomain tunnel_id s
         = (r, s', o) ->
         exists evs,
           trace s' = (trace s ++ evs)%list
           /\ match r with
              | Ok record_id =>
                  exists listed record,
                    record_id = Remote.id record
                    /\ exchanges evs
                       = create_dns_record_script self subdomain tunnel_id
                           listed record
              | Raise e =>
                  created evs = []
                  /\ exists listed record,
                      stopped evs
                        (create_dns_record_script self subdomain tunnel_id
                           listed record) e
              | OutOfFuel => False
              end)
  /\ forall self (s : @State Fake.World),
        (forall vmid subdomain,
            (forall c, Fake.faults (world s) c = None) ->
            NoDup (Fake.ids (Fake.tunnels (world s))) ->
            let name := "service-" ++ Py.str_int vmid ++ "-" ++ subdomain in
            let old := filter (Fake.named name) (Fake.tunnels (world s)) in
            exists t s' o evs,
              Provisioner._create_tunnel self vmid subdomain s = (Ok t, s', o)
              /\ trace s' = (trace s ++ evs)%list
              /\ calls_of evs
                 = (TunnelList (cloudflare_account_id self) name
                    :: map (fun x => TunnelDelete (PStr (Remote.id x))
                                                  (cloudflare_account_id self)) old
                    ++ [ TokenBytesHex 32;
                         TunnelCreate (cloudflare_account_id self) name
                                      "5ec2e7" ])%list
              /\ filter (Fake.named name) (Fake.tunnels (world s')) = [t]
              /\ ~ In (Remote.id t) (Fake.ids (Fake.tunnels (world s)))
              /\ (forall x, In x (Fake.tunnels (world s)) ->
                            Fake.named name x = false ->
                            In x (Fake.tunnels (world s'))))
        /\ (forall subdomain tunnel_id,
               (forall c, Fake.faults (world s) c = None) ->
               NoDup (Fake.ids (Fake.records (world s))) ->
               Fake.zone (world s) = domain self ->
               let name := subdomain ++ "." ++ domain self in
               let old := filter (Fake.named name) (Fake.records (world s)) in
               let args := {| dns_type := "CNAME"; dns_name := subdomain;
                              dns_content := tunnel_id ++ ".cfargotunnel.com";
                              dns_ttl := 1; dns_proxied := true |} in
               exists r s' o evs,
                 Provisioner._create_dns_record self subdomain tunnel_id s
                 = (Ok (Remote.id r), s', o)
                 /\ trace s' = (trace s ++ evs)%list
                 /\ calls_of evs
                    = (DnsList (cloudflare_zone_id self) name
                       :: map (fun x => DnsDelete (PStr (Remote.id x))
                                                  (cloudflare_zone_id self)) old
                       ++ [DnsCreate (cloudflare_zone_id self) args])%list
                 /\ filter (Fake.named name) (Fake.records (world s')) = [r]
                 /\ ~ In (Remote.id r) (Fake.ids (Fake.records (world s)))
                 /\ (forall x, In x (Fake.records (world s)) ->
                               Fake.named name x = false ->
                               In x (Fake.records (world s'))))
        /\ (forall vmid subdomain e x,
               let name := "service-" ++ Py.str_int vmid ++ "-" ++ subdomain in
               Fake.faults (world s)
                 (TunnelList (cloudflare_account_id self) name) = None ->
               (forall i, Fake.faults (world s)
                            (TunnelDelete i (cloudflare_account_id self))
                          = Some e) ->
               In x (Fake.tunnels (world s)) -> Fake.named name x = true ->
               exists s' o,
                 Provisioner._create_tunnel self vmid subdomain s
                 = (Raise e, s', o)
                 /\ Fake.tunnels (world s') = Fake.tunnels (world s)
                 /\ created (skipn (List.length (trace s)) (trace s')) = [])
        /\ (forall subdomain tunnel_id e x,
               let name := subdomain ++ "." ++ domain self in
               Fake.faults (world s) (DnsList (cloudflare_zone_id self) name)
               = None ->
               (forall i, Fake.faults (world s)
                            (DnsDelete i (cloudflare_zone_id self)) = Some e) ->
               In x (Fake.records (world s)) -> Fake.named name x = true ->
               exists s' o,
                 Provisioner._create_dns_record self subdomain tunnel_id s
                 = (Raise e, s', o)
                 /\ Fake.records (world s') = Fake.records (world s)
                 /\ created (skipn (List.length (trace s)) (trace s')) = []).
Proof.
  split; [|split].
  - intros W P self vmid subdomain s s' r o.
    apply create_tunnel_run.
  - intros W P self subdomain tunnel_id s s' r o.
    apply create_dns_record_run.
  - intros self s. split; [|split; [|split]].
    + intros vmid subdomain. apply create_tunnel_replaces.
    + intros subdomain tunnel_id. apply create_dns_record_replaces.
    + intros vmid subdomain e x. apply create_tunnel_delete_error.
    + intros subdomain tunnel_id e x. apply create_dns_record_delete_error.
Qed.


Lemma create_or_replace_witness :
  (exists t (s' : @State Fake.World) listed secret,
      exchanges (trace s')
      = create_tunnel_script demo_self 9000 "demo7" listed secret t)
  /\ (exists t s' o,
      Provisioner._create_tunnel demo_self 9000 "demo7" (Fake.connected occupied)
      = (Ok t, s', o)
      /\ filter (Fake.named "service-9000-demo7") (Fake.tunnels (world s'))
         = [t]
      /\ ~ In (Remote.id t) ["old-tunnel"])
  /\ (exists r s' o,
         Provisioner._create_dns_record demo_self "demo7" "i"
           (Fake.connected occupied)
         = (Ok (Remote.id r), s', o)
         /\ filter (Fake.named "demo7.persys.jp") (Fake.records (world s'))
            = [r]
         /\ ~ In (Remote.id r) ["old-record"])
  /\ (exists s' o,
         Provisioner._create_tunnel demo_self 9000 "demo7"
           (Fake.connected (Fake.with_faults tunnel_delete_not_found occupied))
         = (Raise (RemoteError "tunnel not found"), s', o))
  /\ (exists s' o,
         Provisioner._create_dns_record demo_self "demo7" "i"
           (Fake.connected (Fake.with_faults dns_delete_not_found occupied))
         = (Raise (RemoteError "record not found"), s', o)).
Proof.
  assert (Hnd : forall i : string, NoDup [i]).
  { intros i. constructor; [intros []|constructor]. }
  split; [|split; [|split; [|split]]].
  - pose (run := Provisioner._create_tunnel demo_self 9000 "demo7"
                   (Fake.connected occupied)).
    assert (Hrun : exists t, fst (fst run) = Ok t)
      by (vm_compute; eexists; reflexivity).
    destruct Hrun as (t & Hrun). apply run_eq in Hrun.
    destruct (proj1 create_or_replace _ _ _ _ _ _ _ _ _ Hrun)
      as (evs & Ht & listed & secret & Hex).
    exists t, (snd (fst run)), listed, secret.
    rewrite Ht. exact Hex.
  - destruct (proj1 (proj2 (proj2 create_or_replace) demo_self (Fake.connected occupied))
                9000 "demo7" (fun c => eq_refl) (Hnd _))
      as (t & s' & o & evs & Hrun & _ & _ & Hone & Hnew & _).
    exists t, s', o. auto.
  - destruct (proj1 (proj2 (proj2 (proj2 create_or_replace) demo_self
                              (Fake.connected occupied)))
                "demo7" "i" (fun c => eq_refl) (Hnd _) eq_refl)
      as (r & s' & o & evs & Hrun & _ & _ & Hone & Hnew & _).
    exists r, s', o. auto.
  - destruct (proj1 (proj2 (proj2 (proj2 (proj2 create_or_replace) demo_self
                (Fake.connected
                   (Fake.with_faults tunnel_delete_not_found occupied)))))
                9000 "demo7" (RemoteError "tunnel not found")
                (Remote.mk "old-tunnel" "service-9000-demo7")
                eq_refl (fun i => eq_refl) (or_introl eq_refl) eq_refl)
      as (s' & o & Hrun & _).
    exists s', o. exact Hrun.
  - destruct (proj2 (proj2 (proj2 (proj2 (proj2 create_or_replace) demo_self
                (Fake.connected
                   (Fake.with_faults dns_delete_not_found occupied)))))
                "demo7" "i" (RemoteError "record not found")
                (Remote.mk "old-record" "demo7.persys.jp")
                eq_refl (fun i => eq_refl) (or_introl eq_refl) eq_refl)
      as (s' & o & Hrun & _).
    exists s', o. exact Hrun.
Defined.

(** C5 as worded fails when a delete answers "not found": with one tunnel
    under the target name, the error leaves [_create_tunnel], no tunnel is
    created, and the old identifier is the only one to be found. *)
Lemma create_or_replace_not_found_counterexample :
  let s := Fake.connected
             (Fake.with_faults tunnel_delete_not_found occupied) in
  let '(r, s', _) := Provisioner._create_tunnel demo_self 9000 "demo7" s in
  r = Raise (RemoteError "tunnel not found")
  /\ calls_of (trace s')
     = [ TunnelList "acct" "service-9000-demo7";
         TunnelDelete (PStr "old-tunnel") "acct" ]
  /\ Fake.ids (filter (Fake.named "service-9000-demo7")
                      (Fake.tunnels (world s')))
     = ["old-tunnel"].
Proof. vm_compute. repeat split. Qed.

(** * Further properties of the provisioner *)

(** ** ResourceIDAllocator *)

Lemma mem_In v l : mem v l = true <-> In v l.
Proof.
  unfold mem. rewrite existsb_exists. split.
  - intros (x & Hin & Heq). apply Z.eqb_eq in Heq. now subst.
  - intros Hin. exists v. split; [exact Hin|apply Z.eqb_refl].
Qed.

Lemma find_range_some (f : Z -> bool) v : forall count lo,
  find f (range lo count) = Some v ->
  lo <= v < lo + Z.of_nat count /\ f v = true
  /\ forall u, lo <= u < v -> f u = false.
Proof.
  induction count as [|n IH]; intros lo H; [discriminate H|].
  cbn [range find] in H. destruct (f lo) eqn:Hlo.
  - injection H as <-. repeat split; try lia; auto.
  - apply IH in H. destruct H as (Hr & Hv & Hmin).
    repeat split; try lia; auto. intros u Hu.
    destruct (Z.eq_dec u lo) as [->|Hne]; [exact Hlo|apply Hmin; lia].
Qed.

Lemma find_range_none (f : Z -> bool) : forall count lo,
  find f (range lo count) = None ->
  forall u, lo <= u < lo + Z.of_nat count -> f u = false.
Proof.
  induction count as [|n IH]; intros lo H u Hu; [lia|].
  cbn [range find] in H. destruct (f lo) eqn:Hlo; [discriminate H|].
  destruct (Z.eq_dec u lo) as [->|Hne]; [exact Hlo|].
  apply (IH (lo + 1) H). lia.
Qed.

(** X1.  [_get_next_vmid] asks the compute platform once for the
    identifiers in use.  It returns the smallest identifier of 9000..9999
    that is not in use, raises "no free VMID" exactly when all thousand are
    in use, and passes on an error of the listing.  The ledger is not
    touched. *)
Theorem get_next_vmid_smallest :
  forall W (P : Platform W) (s : @State W),
  exists r s' oc,
    Provisioner._get_next_vmid s = (r, s', [])
    /\ extends s s' [mkEvent (clock s) ClusterResourcesGet oc]
    /\ match answer (cluster_resources_get (world s)) with
       | inl e => r = Raise e
       | inr used =>
           (exists vmid,
               r = Ok vmid /\ 9000 <= vmid < 10000 /\ ~ In vmid used
               /\ forall u, 9000 <= u < vmid -> In u used)
           \/ (r = Raise (Exception_ NoFreeVmid)
               /\ forall u, 9000 <= u < 10000 -> In u used)
       end.
Proof.
  intros W P s.
  destruct (Provisioner._get_next_vmid s) as [[r s'] o] eqn:H.
  unfold Provisioner._get_next_vmid in H.
  minv_as H Hget Hfind.
  - apply invoke_inv in Hget. destruct Hget as (-> & _ & _ & oc & E & Ha).
    destruct (answer (cluster_resources_get (world s))) as [e|used];
      destruct Ha as (Hr & ->); [discriminate Hr|]. injection Hr as <-.
    destruct (find _ (range 9000 1000)) as [v|] eqn:Hf; msimp.
    + eexists _, _, _.
      split; [reflexivity|]. split; [exact E|]. left. exists v.
      apply find_range_some in Hf. destruct Hf as (Hr & Hv & Hmin).
      split; [reflexivity|]. split; [simpl in Hr; lia|]. split.
      * intros Hin. apply mem_In in Hin. rewrite Hin in Hv. discriminate Hv.
      * intros u Hu. apply mem_In. specialize (Hmin u Hu).
        now apply negb_false_iff in Hmin.
    + eexists _, _, _.
      split; [reflexivity|]. split; [exact E|]. right.
      split; [reflexivity|]. intros u Hu. apply mem_In.
      pose proof (find_range_none _ _ _ Hf u) as Hn. simpl in Hn.
      specialize (Hn ltac:(lia)). now apply negb_false_iff in Hn.
  - apply invoke_inv in Hget. destruct Hget as (-> & _ & _ & oc & E & Ha).
    destruct (answer (cluster_resources_get (world s))) as [e'|used];
      destruct Ha as (Hr & ->); [|discriminate Hr]. injection Hr as <-.
    exists (Raise e), s', (Raised e). auto.
  - apply invoke_inv in Hget. destruct Hget as (_ & _ & _ & oc & _ & Ha).
    destruct (answer (cluster_resources_get (world s)));
      destruct Ha as (Hr & _); discriminate Hr.
Qed.

(** ** Validation and connection come first *)

Section Entry.

Context {W : Type} {P : Platform W} (self : Self).

Local Abbreviation State := (@State W).

Lemma invoke_event {A} c (op : W -> Reply W A) enc (s s' : State) r o :
  invoke c op enc s = (r, s', o) ->
  exists ev,
    o = [] /\ call ev = c
    /\ trace s' = (trace s ++ [ev])%list
    /\ created_resources s' = created_resources s
    /\ proxmox s' = proxmox s /\ cf s' = cf s
    /\ match r with
       | Ok a => outcome ev = Returned (enc a)
       | Raise e => outcome ev = Raised e
       | OutOfFuel => False
       end.
Proof.
  intros H. apply invoke_inv in H.
  destruct H as (-> & _ & _ & oc & (T & L & Px & Cf & _) & Ha).
  exists (mkEvent (clock s) c oc). repeat split; auto.
  destruct (answer (op (world s))); destruct Ha as (-> & ->); reflexivity.
Qed.

(** What [connect] does, whatever the platform answers. *)
Lemma connect_run (s s' : State) r o :
  Provisioner.connect self s = (r, s', o) ->
  exists evs,
    trace s' = (trace s ++ evs)%list
    /\ created_resources s' = created_resources s
    /\ created evs = []
    /\ steps_ok o = O
    /\ match r with
       | Ok _ =>
           proxmox s' = true /\ cf s' = true
           /\ map call evs = connect_calls self
           /\ forallb (fun ev => negb (failed ev)) evs = true
       | Raise e =>
           last (map outcome evs) (Returned VUnit) = Raised e
           /\ forallb (fun ev => negb (failed ev)) (removelast evs) = true
           /\ map call evs = firstn (List.length evs) (connect_calls self)
             /\ cf s' = cf s
             /\ (proxmox s' = true
                 <-> proxmox s = true \/ (3 <= List.length evs)%nat)
       | OutOfFuel => False
       end.
Proof.
  unfold Provisioner.connect. intros H.
  minv_as H Hbody Hhandler.
  - (* the body raised; the handler prints and raises again *)
    assert (Hh : r = Raise e /\ s' = s0 /\ steps_ok o1 = O).
    { destruct e; repeat
        (match goal with
         | H : bind _ _ _ = _ |- _ =>
             let R1 := fresh "R" in let R2 := fresh "R" in mstep H as R1 R2
         end); msimp; auto. }
    destruct Hh as (-> & -> & Ho1). clear Hhandler.
    assert (Hb : o0 = [] \/ exists v, o0 = [L_proxmox_connected v]).
    { repeat
        (match goal with
         | H : bind _ _ _ = _ |- _ =>
             let R1 := fresh "R" in let R2 := fresh "R" in mstep H as R1 R2
         end);
      repeat match goal with
        | H : invoke _ _ _ _ = _ |- _ =>
            apply invoke_event in H; destruct H as (? & -> & _)
        end; cbn; eauto. }
    assert (Hsteps : steps_ok (o0 ++ o1) = O).
    { rewrite steps_ok_app, Ho1. destruct Hb as [->|(v & ->)]; reflexivity. }
    clear Hb Ho1.
    repeat
      (match goal with
       | H : bind _ _ _ = _ |- _ =>
           let R1 := fresh "R" in let R2 := fresh "R" in mstep H as R1 R2
       end).
    all: repeat match goal with
           | H : invoke _ _ _ _ = _ |- _ =>
               apply invoke_event in H;
               destruct H as (? & _ & ? & ? & ? & ? & ? & ?)
           end.
    all: cbn [trace created_resources proxmox cf set_proxmox set_cf] in *.
    all: eexists; split;
      [ repeat match goal with
          | T : trace ?x = _ |- context [trace ?x] => rewrite T; clear T
          end; rewrite <- ?app_assoc; reflexivity | ].
    all: split; [congruence|].
    all: split;
      [ unfold created, created_by; cbn;
        repeat match goal with
          | C : call ?x = _ |- _ => rewrite C; clear C
          end; reflexivity | ].
    all: split; [exact Hsteps|].
    all: split; [cbn; assumption|].
    all: split;
      [ unfold failed; cbn;
        repeat match goal with
          | Hr : outcome ?x = Returned _ |- _ => rewrite Hr; clear Hr
          end; reflexivity | ].
    all: split;
      [ cbn;
        repeat match goal with
          | C : call ?x = _ |- _ => rewrite C; clear C
          end; reflexivity | ].
    all: split; [congruence|].
    all: cbn; intuition (try lia; try congruence).
  - (* the body went through *)
    repeat
      (match goal with
       | H : bind _ _ _ = _ |- _ =>
           let R1 := fresh "R" in let R2 := fresh "R" in mstep H as R1 R2
       end).
    repeat match goal with
           | H : invoke _ _ _ _ = _ |- _ =>
               apply invoke_event in H;
               destruct H as (? & -> & ? & ? & ? & ? & ? & ?)
           end.
    cbn [trace created_resources proxmox cf set_proxmox set_cf] in *.
    eexists. split;
      [ repeat match goal with
          | T : trace ?x = _ |- context [trace ?x] => rewrite T; clear T
          end; rewrite <- ?app_assoc; reflexivity | ].
    split; [congruence|].
    split;
      [ unfold created, created_by; cbn;
        repeat match goal with
          | C : call ?x = _ |- _ => rewrite C; clear C
          end; reflexivity | ].
    split; [reflexivity|].
    split; [congruence|]. split; [reflexivity|].
    split;
      [ cbn;
        repeat match goal with
          | C : call ?x = _ |- _ => rewrite C; clear C
          end; reflexivity | ].
    unfold failed; cbn.
    repeat match goal with
      | Hr : outcome ?x = Returned _ |- _ => rewrite Hr; clear Hr
      end. reflexivity.
  - exfalso. eapply connect_ends with (self := self).
    unfold Provisioner.connect, try_except. rewrite Hbody. reflexivity.
Qed.

Lemma connect_clock (s s' : State) r o :
  Provisioner.connect self s = (r, s', o) -> clock s <= clock s'.
Proof.
  unfold Provisioner.connect. intros H.
  assert (Hi : forall {A} c (op : W -> Reply W A) enc (x x' : State) rx ox,
             invoke c op enc x = (rx, x', ox) -> clock x <= clock x').
  { intros A c op enc x x' rx ox Hx. apply invoke_inv in Hx.
    destruct Hx as (_ & _ & Hc & _). lia. }
  minv_as H Hbody Hhandler.
  - assert (s' = s0) as ->.
    { destruct e; repeat
        (match goal with
         | H : bind _ _ _ = _ |- _ =>
             let R1 := fresh "R" in let R2 := fresh "R" in mstep H as R1 R2
         end); msimp; auto. }
    clear Hhandler.
    repeat
      (match goal with
       | H : bind _ _ _ = _ |- _ =>
           let R1 := fresh "R" in let R2 := fresh "R" in mstep H as R1 R2
       end).
    all: repeat match goal with
           | H : invoke _ _ _ _ = _ |- _ => apply Hi in H
           end.
    all: cbn [clock set_proxmox set_cf] in *; lia.
  - repeat
      (match goal with
       | H : bind _ _ _ = _ |- _ =>
           let R1 := fresh "R" in let R2 := fresh "R" in mstep H as R1 R2
       end).
    repeat match goal with
           | H : invoke _ _ _ _ = _ |- _ => apply Hi in H
           end.
    cbn [clock set_proxmox set_cf] in *. lia.
  - exfalso. eapply connect_ends with (self := self).
    unfold Provisioner.connect, try_except. rewrite Hbody. reflexivity.
Qed.

End Entry.

Section EntryTheorems.

Context {W : Type} {P : Platform W} (self : Self).

Local Abbreviation State := (@State W).

(** The lines [connect] ends with when it raises. *)
Lemma connect_error_lines (s s' : State) e o :
  Provisioner.connect self s = (Raise e, s', o) ->
  exists pre,
    o = (pre ++ match e with
                | ImportError _ =>
                    [L_library_missing e; L_install_hint; L_install_hint]
                | _ => [L_connect_error e]
                end)%list.
Proof.
  unfold Provisioner.connect. intros H. minv_as H Hbody Hhandler.
  exists o0. f_equal.
  destruct e0;
    repeat (match goal with
            | H : bind _ _ _ = _ |- _ =>
                let R1 := fresh "R" in let R2 := fresh "R" in mstep H as R1 R2
            end); msimp; reflexivity.
Qed.

(** [provision] up to its [try] statement: the header, the two checks of
    the input, the connection when one is missing. *)
Lemma provision_entry customer_email oss_type subdomain duration_days
  (s : State) :
  Provisioner.provision self customer_email oss_type subdomain duration_days s
  = let '(r, s', o) :=
      (lift (Provisioner_validate._validate_subdomain subdomain) ;;
       (if negb (supported oss_type)
        then raise (ValueError (UnsupportedOss oss_type)) else ret tt) ;;
       proxmox <- get proxmox ;;
       cf <- get cf ;;
       (if negb proxmox || negb cf then Provisioner.connect self else ret tt) ;;
       put (set_created_resources []) ;;
       try_except
         (Provisioner.provision_try self customer_email oss_type subdomain)
         (Provisioner.provision_except self subdomain)) s in
    (r, s',
     (header self customer_email oss_type subdomain duration_days ++ o)%list).
Proof.
  unfold Provisioner.provision. rewrite !print_then.
  unfold supported. destruct (bind _ _ s) as [[r s'] o]. reflexivity.
Qed.

(** The two checks of the input: the header is printed, the error raised,
    nothing else happens. *)
Lemma provision_checks_steps customer_email oss_type subdomain duration_days
  (s : State) :
  (forall e,
      Provisioner_validate._validate_subdomain subdomain = Raise e ->
      Provisioner.provision self customer_email oss_type subdomain
        duration_days s
      = (Raise e, s,
         header self customer_email oss_type subdomain duration_days))
  /\ (Provisioner_validate._validate_subdomain subdomain = Ok tt ->
      supported oss_type = false ->
      Provisioner.provision self customer_email oss_type subdomain
        duration_days s
      = (Raise (ValueError (UnsupportedOss oss_type)), s,
         header self customer_email oss_type subdomain duration_days)).
Proof.
  split.
  - intros e Hv. rewrite provision_entry. unfold bind at 1, lift.
    rewrite Hv. now rewrite app_nil_r.
  - intros Hv Ho. rewrite provision_entry. unfold bind at 1, lift.
    rewrite Hv. unfold bind at 1. rewrite Ho. cbn [negb]. unfold raise.
    now rewrite app_nil_r.
Qed.

End EntryTheorems.

(** X2.  [provision] checks its input before it touches anything: a name
    the validator rejects, or an environment kind without a template, ends
    the call with the [ValueError] right after the header is printed, in
    an unchanged state: no external call, no connection, the ledger as it
    was.  A connection that is missing is made next, and when it fails its
    error leaves [provision] with no step of the saga begun. *)
Theorem provision_checks_first :
  forall W (P : Platform W) self customer_email oss_type subdomain
         duration_days (s : @State W),
    let hdr := header self customer_email oss_type subdomain duration_days in
    (forall e,
        Provisioner_validate._validate_subdomain subdomain = Raise e ->
        Provisioner.provision self customer_email oss_type subdomain
          duration_days s = (Raise e, s, hdr))
    /\ (Provisioner_validate._validate_subdomain subdomain = Ok tt ->
        supported oss_type = false ->
        Provisioner.provision self customer_email oss_type subdomain
          duration_days s
        = (Raise (ValueError (UnsupportedOss oss_type)), s, hdr))
    /\ (forall e s1 o1,
           Provisioner_validate._validate_subdomain subdomain = Ok tt ->
           supported oss_type = true ->
           proxmox s && cf s = false ->
           Provisioner.connect self s = (Raise e, s1, o1) ->
           Provisioner.provision self customer_email oss_type subdomain
             duration_days s = (Raise e, s1, (hdr ++ o1)%list)
           /\ steps_ok (hdr ++ o1) = O
           /\ created_resources s1 = created_resources s).
Proof.
  intros W P self customer_email oss_type subdomain duration_days s hdr.
  destruct (provision_checks_steps self customer_email oss_type subdomain
              duration_days s) as (Hbad & Huns).
  split; [|split].
  - exact Hbad.
  - exact Huns.
  - intros e s1 o1 Hv Ho Hconn Hrun. split; [|split].
    + rewrite provision_entry. unfold bind at 1, lift. rewrite Hv.
      unfold bind at 1. rewrite Ho. cbn [negb]. unfold ret at 1.
      unfold bind at 1. unfold get at 1.
      unfold bind at 1. unfold get at 1.
      replace (negb (proxmox s) || negb (cf s)) with true
        by (destruct (proxmox s), (cf s); simpl in *; congruence).
      unfold bind at 1. rewrite Hrun. reflexivity.
    + rewrite steps_ok_app.
      destruct (connect_run self _ _ _ _ Hrun) as (evs & _ & _ & _ & Ho1 & _).
      now rewrite Ho1.
    + destruct (connect_run self _ _ _ _ Hrun) as (evs & _ & Hl & _). exact Hl.
Qed.

Lemma provision_checks_first_witness :
  Provisioner.provision demo_self "a@b.com" "nginx" "DEMO" 7
    (Fake.initial (Fake.empty "persys.jp"))
  = (Raise (ValueError (BadCharset "DEMO")),
     Fake.initial (Fake.empty "persys.jp"),
     header demo_self "a@b.com" "nginx" "DEMO" 7)
  /\ Provisioner.provision demo_self "a@b.com" "growi" "demo7" 7
       (Fake.initial (Fake.empty "persys.jp"))
     = (Raise (ValueError (UnsupportedOss "growi")),
        Fake.initial (Fake.empty "persys.jp"),
        header demo_self "a@b.com" "growi" "demo7" 7)
  /\ exists s1 o,
      Provisioner.provision demo_self "a@b.com" "nginx" "demo7" 7
        (Fake.initial (Fake.with_faults login_fails (Fake.empty "persys.jp")))
      = (Raise (RemoteError "login failed"), s1, o).
Proof.
  split; [|split].
  - exact (proj1 (provision_checks_first _ _ demo_self "a@b.com" "nginx"
                    "DEMO" 7 (Fake.initial (Fake.empty "persys.jp")))
             _ eq_refl).
  - exact (proj1 (proj2 (provision_checks_first _ _ demo_self "a@b.com"
                           "growi" "demo7" 7
                           (Fake.initial (Fake.empty "persys.jp"))))
             eq_refl eq_refl).
  - destruct (Provisioner.connect demo_self
                (Fake.initial
                   (Fake.with_faults login_fails (Fake.empty "persys.jp"))))
      as [[r s1] o1] eqn:Hrun.
    assert (Hr : r = Raise (RemoteError "login failed")).
    { apply (f_equal (fun x => fst (fst x))) in Hrun.
      vm_compute in Hrun. symmetry. exact Hrun. }
    subst r.
    destruct (proj2 (proj2 (provision_checks_first _ _ demo_self "a@b.com"
                              "nginx" "demo7" 7
                              (Fake.initial
                                 (Fake.with_faults login_fails
                                    (Fake.empty "persys.jp")))))
                _ _ _ eq_refl eq_refl eq_refl Hrun) as (Hp & _).
    eexists _, _. exact Hp.
Defined.

(** X3.  [connect] imports the Proxmox client, logs in, reads the version,
    imports the Cloudflare client and builds it, in this order.  When all
    five go through, both connection attributes are set.  When one raises,
    [connect] stops there, prints the error (with the install hint for an
    [ImportError]) and raises the same error; the Cloudflare attribute is
    left as it was, and the Proxmox attribute is set only if the login had
    gone through.  [connect] creates no resource and leaves the ledger
    alone. *)
Theorem connect_outcome :
  forall W (P : Platform W) self (s s' : @State W) r o,
    Provisioner.connect self s = (r, s', o) ->
    exists evs,
      trace s' = (trace s ++ evs)%list
      /\ created_resources s' = created_resources s
      /\ created evs = []
      /\ match r with
         | Ok _ =>
             proxmox s' = true /\ cf s' = true
             /\ map call evs = connect_calls self
             /\ forallb (fun ev => negb (failed ev)) evs = true
         | Raise e =>
             last (map outcome evs) (Returned VUnit) = Raised e
             /\ forallb (fun ev => negb (failed ev)) (removelast evs) = true
             /\ map call evs = firstn (List.length evs) (connect_calls self)
             /\ cf s' = cf s
             /\ (proxmox s' = true
                 <-> proxmox s = true \/ (3 <= List.length evs)%nat)
             /\ exists pre,
                 o = (pre ++ match e with
                             | ImportError _ =>
                                 [ L_library_missing e; L_install_hint;
                                   L_install_hint ]
                             | _ => [L_connect_error e]
                             end)%list
         | OutOfFuel => False
         end.
Proof.
  intros W P self s s' r o H.
  destruct (connect_run self _ _ _ _ H) as (evs & Ht & Hl & Hc & _ & Hr).
  exists evs. split; [exact Ht|]. split; [exact Hl|]. split; [exact Hc|].
  destruct r as [a|e|]; [exact Hr| |exact Hr].
  destruct Hr as (H1 & H2 & H3 & H4 & H5).
  repeat (split; [assumption|]).
  eapply connect_error_lines; eauto.
Qed.

Lemma connect_outcome_witness :
  exists s' o,
    Provisioner.connect demo_self (Fake.initial (Fake.empty "persys.jp"))
    = (Ok tt, s', o)
    /\ proxmox s' = true /\ cf s' = true.
Proof.
  destruct (Provisioner.connect demo_self
              (Fake.initial (Fake.empty "persys.jp")))
    as [[r s'] o] eqn:Hrun.
  assert (Hr : r = Ok tt).
  { apply (f_equal (fun x => fst (fst x))) in Hrun.
    vm_compute in Hrun. symmetry. exact Hrun. }
  subst r.
  destruct (connect_outcome _ _ demo_self _ _ _ _ Hrun)
    as (evs & _ & _ & _ & Hp & Hc & _).
  exists s', o. auto.
Defined.

(** ** Rollback on any ledger *)

(** X4.  [_rollback] is best effort on every ledger and every platform: it
    always returns, raises nothing whatever the platform answers, leaves
    the ledger and the connection alone, and runs from its first to its
    last line.  Its calls are fixed by the ledger alone: stop and delete of
    the container for a ['vmid'] entry, the delete of the metadata document
    when the ledger has both the ['metadata_uploaded'] flag and a
    ['vmid'] that is not zero or empty, the delete of the DNS record and
    the delete of the tunnel for their entries; each delete that raised is
    reported by one warning.  On an empty ledger it calls nothing and
    changes nothing; without a ['vmid'] entry no metadata document is
    deleted, flag or no flag; the [subdomain] argument has no effect. *)
Theorem rollback_best_effort :
  forall W (P : Platform W) self resources subdomain (s : @State W),
    (exists s' o comp mid,
        Provisioner._rollback self resources subdomain s = (Ok tt, s', o)
        /\ extends s s' comp
        /\ calls_of comp = rollback_calls self resources
        /\ filter is_warn o = flat_map warning_for comp
        /\ o = L_rollback_start :: (mid ++ [L_rollback_done])%list)
    /\ Provisioner._rollback self [] subdomain s
       = (Ok tt, s, [L_rollback_start; L_rollback_done])
    /\ (dict_get "vmid" resources = None ->
        forall url, ~ In (HttpDelete url) (rollback_calls self resources))
    /\ (forall other,
           Provisioner._rollback self resources other s
           = Provisioner._rollback self resources subdomain s).
Proof.
  intros W P self resources subdomain s.
  split; [|split; [|split]].
  - destruct (rollback_compensates self resources subdomain s)
      as (s' & o & comp & Hrun & Ext & Hcalls & Hwarn).
    destruct (rollback_output self _ _ _ _ _ Hrun) as (mid & Ho).
    exists s', o, comp, mid. auto.
  - reflexivity.
  - intros Hv url. unfold rollback_calls. rewrite Hv. cbn [truthy].
    rewrite andb_false_r. cbn [app].
    destruct (dict_get "dns_record_id" resources),
      (dict_get "tunnel_id" resources); simpl; intuition discriminate.
  - intros other. reflexivity.
Qed.

Lemma rollback_best_effort_witness :
  ~ In (HttpDelete "http://10.0.0.5:8080/upload/metadata-None.json")
       (rollback_calls demo_self
          [("tunnel_id", PStr "i"); ("metadata_uploaded", PBool true)]).
Proof.
  exact (proj1 (proj2 (proj2
           (rollback_best_effort _ _ demo_self
              [("tunnel_id", PStr "i"); ("metadata_uploaded", PBool true)]
              "demo7" (Fake.connected (Fake.empty "persys.jp")))))
           eq_refl "http://10.0.0.5:8080/upload/metadata-None.json").
Defined.

(** ** The readiness wait: how often it probes *)

Section Probes.

Context {W : Type} {P : Platform W}.

Local Abbreviation State := (@State W).

(** With [n] probes made from a state entered at [clock s], the last one
    was issued at least [n - 1] pauses later, and before the deadline. *)
Lemma wait_loop_probes url timeout start :
  forall fuel (s s' : State) r o,
    Provisioner.wait_loop fuel url timeout start s = (r, s', o) ->
    exists evs,
      trace s' = (trace s ++ evs)%list
      /\ (filter is_probe evs = []
          \/ (Z.of_nat (List.length (filter is_probe evs)) - 1) * 10000
             + (clock s - start) < timeout * 1000).
Proof.
  induction fuel as [|fuel IH]; intros s s' r o H.
  { cbn in H. inversion H; subst. exists []. rewrite app_nil_r. auto. }
  cbn [Provisioner.wait_loop] in H.
  mstep H as Hnow Hbody.
  destruct (clock s - start <? timeout * 1000) eqn:Hlt.
  2:{ msimp. exists []. rewrite app_nil_r. auto. }
  apply Z.ltb_lt in Hlt.
  assert (Hround : forall (s1 : State) oc o',
             extends s s1 [mkEvent (clock s) (HttpGet url) oc] ->
             (sleep 10;;
              now' <- time_time;;
              print (L_elapsed (Z.quot (now' - start) 1000));;
              Provisioner.wait_loop fuel url timeout start) s1 = (r, s', o') ->
             exists evs,
               trace s' = (trace s ++ evs)%list
               /\ (filter is_probe evs = []
                   \/ (Z.of_nat (List.length (filter is_probe evs)) - 1) * 10000
                      + (clock s - start) < timeout * 1000)).
  { intros s1 oc o' E1 Hrun.
    minv_as Hrun Hsleep Hrest;
      try (apply sleep_inv in Hsleep; [|lia]; destruct Hsleep as (Hsleep & _);
           discriminate Hsleep).
    apply sleep_inv in Hsleep; [|lia].
    destruct Hsleep as (_ & _ & _ & Hc & E2).
    mstep Hrest as Hnow' Hrest'. mstep Hrest' as Hprint Hloop.
    destruct (IH _ _ _ _ Hloop) as (evs & Ht & Hb).
    destruct E1 as (T1 & _ & _ & _ & K1). destruct E2 as (T2 & _).
    exists (mkEvent (clock s) (HttpGet url) oc
            :: mkEvent (clock s1) (Sleep 10) (Returned VUnit) :: evs).
    split.
    - rewrite Ht, T2, T1, <- !app_assoc. reflexivity.
    - right. cbn [filter is_probe call].
      destruct Hb as [-> | Hb]; cbn [List.length]; lia. }
  assert (Hlast : forall (s1 : State) oc,
             extends s s1 [mkEvent (clock s) (HttpGet url) oc] ->
             exists evs,
               trace s1 = (trace s ++ evs)%list
               /\ (filter is_probe evs = []
                   \/ (Z.of_nat (List.length (filter is_probe evs)) - 1) * 10000
                      + (clock s - start) < timeout * 1000)).
  { intros s1 oc (T1 & _). eexists. split; [exact T1|].
    right. cbn. lia. }
  assert (Hprobe : forall rx (sx : State) ox,
             invoke (HttpGet url) (requests_get url) VInt s = (rx, sx, ox) ->
             rx <> OutOfFuel
             /\ exists oc, extends s sx [mkEvent (clock s) (HttpGet url) oc]).
  { intros rx sx ox Hi. apply invoke_inv in Hi.
    destruct Hi as (_ & _ & _ & oc & E1 & Ha). split; [|now exists oc].
    destruct (answer (requests_get url (world s))) as [x|x];
      destruct Ha as (-> & _); discriminate. }
  mstep Hbody as Htry Htail.
  - mstep Htry as Hget Hhandler.
    + mstep Hget as Hget' Hret.
      destruct (Hprobe _ _ _ Hget') as (_ & oc & E1).
      match type of Hhandler with context [match ?x with _ => _ end] =>
        destruct x end; msimp.
      eapply Hround; eauto.
    + mstep Hget as Hget' Hret.
      destruct (Hprobe _ _ _ Hget') as (_ & oc & E1).
      match type of Htail with context [if ?c then _ else _] =>
        destruct c eqn:Hst end.
      * msimp. eapply Hlast; eauto.
      * eapply Hround; eauto.
  - mstep Htry as Hget Hhandler.
    mstep Hget as Hget' Hret.
    destruct (Hprobe _ _ _ Hget') as (_ & oc & E1).
    match type of Hhandler with context [match ?x with _ => _ end] =>
      destruct x end; msimp; eapply Hlast; eauto.
  - mstep Htry as Hget Hhandler.
    + match type of Hhandler with context [match ?x with _ => _ end] =>
        destruct x end; msimp.
    + mstep Hget as Hget' Hret. destruct (Hprobe _ _ _ Hget') as (Hne & _).
      now elim Hne.
Qed.

End Probes.

(** X5.  The number of probes of [_wait_for_ready] is bounded by the
    timeout: with [n] probes made, [n - 1] pauses of ten seconds fit before
    the deadline, so [(n - 1) * 10 < timeout]; the wait of [provision], with
    its timeout of 300 seconds, probes at most 30 times.  With a timeout of
    zero or less the wait probes nothing, changes nothing and raises the
    timeout error at once. *)
Theorem wait_for_ready_probe_bound :
  forall W (P : Platform W) url timeout (s s' : @State W) r o,
    Provisioner._wait_for_ready url timeout s = (r, s', o) ->
    exists evs,
      trace s' = (trace s ++ evs)%list
      /\ (let n := Z.of_nat (List.length (filter is_probe evs)) in
          (n = 0 \/ (n - 1) * 10 < timeout)
          /\ (timeout <= 300 -> n <= 30))
      /\ (timeout <= 0 ->
          r = Raise (Exception_ (ReadyTimeout timeout)) /\ s' = s /\ o = []).
Proof.
  intros W P url timeout s s' r o H.
  assert (Hzero : timeout <= 0 ->
                  r = Raise (Exception_ (ReadyTimeout timeout))
                  /\ s' = s /\ o = []).
  { intros Ht. unfold Provisioner._wait_for_ready in H.
    unfold Provisioner.wait_fuel in H. cbn [Provisioner.wait_loop] in H.
    unfold bind at 1 in H. unfold time_time at 1, get at 1 in H.
    unfold bind at 1 in H. unfold time_time at 1, get at 1 in H.
    replace (clock s - clock s <? timeout * 1000) with false in H
      by (symmetry; apply Z.ltb_ge; lia).
    unfold raise in H. inversion H; subst. auto. }
  unfold Provisioner._wait_for_ready in H.
  mstep H as Hstart Hloop.
  destruct (wait_loop_probes _ _ _ _ _ _ _ _ Hloop) as (evs & Ht & Hb).
  exists evs. split; [exact Ht|]. split; [|exact Hzero].
  cbv zeta. destruct Hb as [-> | Hb]; cbn [List.length]; split; lia.
Qed.

Lemma wait_for_ready_probe_bound_witness :
  exists s' o,
    Provisioner._wait_for_ready "https://demo7.persys.jp" 0
      (Fake.connected (Fake.empty "persys.jp"))
    = (Raise (Exception_ (ReadyTimeout 0)), s', o)
    /\ s' = Fake.connected (Fake.empty "persys.jp").
Proof.
  destruct (Provisioner._wait_for_ready "https://demo7.persys.jp" 0
              (Fake.connected (Fake.empty "persys.jp")))
    as [[r s'] o] eqn:Hrun.
  destruct (wait_for_ready_probe_bound _ _ _ _ _ _ _ _ Hrun)
    as (evs & _ & _ & Hz).
  destruct (Hz ltac:(lia)) as (-> & -> & ->).
  eexists _, _. split; reflexivity.
Defined.

(** ** The tables of environment kinds *)

(** X6.  Every environment kind [provision] accepts has an entry in both
    tables the later steps read, so on a run of [provision] neither step 4
    nor step 8 raises a [KeyError] of its own: [_configure_tunnel] issues
    its one call, with two ingress rules, the first sending the instance's
    host name to the local port 80, the last the catch-all answering 404;
    [_clone_lxc] clones template 8011 under the subdomain as host name and
    pauses five seconds.  A kind in neither table makes both raise
    [KeyError] without any call. *)
Theorem supported_kinds_configured :
  forall W (P : Platform W) self tunnel_id subdomain oss_type vmid
         (s : @State W),
    (supported oss_type = true ->
     Provisioner._configure_tunnel self tunnel_id subdomain oss_type s
     = invoke
         (TunnelConfigUpdate tunnel_id (cloudflare_account_id self)
            [ {| ingress_hostname := Some (subdomain ++ "." ++ domain self);
                 ingress_service := "http://localhost:80" |};
              {| ingress_hostname := None;
                 ingress_service := "http_status:404" |} ])
         (tunnels_config_update tunnel_id (cloudflare_account_id self)
            [ {| ingress_hostname := Some (subdomain ++ "." ++ domain self);
                 ingress_service := "http://localhost:80" |};
              {| ingress_hostname := None;
                 ingress_service := "http_status:404" |} ])
         (fun _ => VUnit) s
     /\ Provisioner._clone_lxc self vmid oss_type subdomain s
        = (invoke (LxcClone (node self) 8011 vmid subdomain)
                  (lxc_clone (node self) 8011 vmid subdomain)
                  (fun _ => VUnit) ;;
           sleep 5) s)
    /\ (lookup oss_type port_map = None ->
        Provisioner._configure_tunnel self tunnel_id subdomain oss_type s
        = (Raise (KeyError oss_type), s, [])
        /\ Provisioner._clone_lxc self vmid oss_type subdomain s
           = (Raise (KeyError oss_type), s, [])).
Proof.
  intros W P self tunnel_id subdomain oss_type vmid s. split.
  - unfold supported. cbn [template_map map fst existsb].
    rewrite orb_false_r. intros H. apply String.eqb_eq in H. subst oss_type.
    split; reflexivity.
  - unfold Provisioner._configure_tunnel, Provisioner._clone_lxc.
    cbn [port_map template_map lookup].
    destruct (String.eqb oss_type "nginx"); [discriminate|].
    intros ->. split; reflexivity.
Qed.

Lemma supported_kinds_configured_witness :
  supported "nginx" = true
  /\ Provisioner._clone_lxc demo_self 9000 "nginx" "demo7"
       (Fake.connected (Fake.empty "persys.jp"))
     = (invoke (LxcClone "odin" 8011 9000 "demo7")
               (lxc_clone "odin" 8011 9000 "demo7") (fun _ => VUnit) ;;
        sleep 5) (Fake.connected (Fake.empty "persys.jp")).
Proof.
  split; [reflexivity|].
  exact (proj2 (proj1 (supported_kinds_configured _ _ demo_self "i" "demo7"
                         "nginx" 9000
                         (Fake.connected (Fake.empty "persys.jp")))
                  eq_refl)).
Defined.

(** ** The order of the external calls *)

Section Order.

Context {W : Type} {P : Platform W} (self : Self).

Local Abbreviation State := (@State W).

Lemma quiet_clock {A} (m : @M W A) cr (s s' : State) r o :
  quiet m cr -> m s = (r, s', o) -> clock s <= clock s'.
Proof.
  intros Hq H. destruct (Hq _ _ _ _ H) as (evs & (_ & _ & _ & _ & K) & _).
  exact K.
Qed.

Lemma get_next_vmid_ok (s s' : State) vmid o :
  Provisioner._get_next_vmid s = (Ok vmid, s', o) ->
  exists ev used,
    trace s' = (trace s ++ [ev])%list
    /\ exchanges [ev] = [(ClusterResourcesGet, Returned (VInts used))]
    /\ 9000 <= vmid < 10000
    /\ ~ In vmid used
    /\ (forall u, 9000 <= u < vmid -> In u used).
Proof.
  unfold Provisioner._get_next_vmid. intros H. mstep H as Hres Hfind.
  apply invoke_exchange in Hres. destruct Hres as (ev & -> & T & C & O).
  destruct (find _ _) as [v|] eqn:Hf; msimp.
  apply find_range_some in Hf. destruct Hf as (Hrange & Hfree & Hmin).
  exists ev, a. split; [exact T|].
  split; [unfold exchanges; cbn; now rewrite C, O|].
  split; [simpl in Hrange; lia|].
  split.
  - intros Hin. apply mem_In in Hin. rewrite Hin in Hfree. discriminate.
  - intros u Hu. apply mem_In. specialize (Hmin u Hu).
    now apply negb_false_iff in Hmin.
Qed.

Lemma clone_lxc_ok vmid oss_type subdomain (s s' : State) o :
  Provisioner._clone_lxc self vmid oss_type subdomain s = (Ok tt, s', o) ->
  oss_type = "nginx"
  /\ exists evs,
      trace s' = (trace s ++ evs)%list
      /\ exchanges evs
         = [ (LxcClone (node self) 8011 vmid subdomain, Returned VUnit);
             (Sleep 5, Returned VUnit) ].
Proof.
  unfold Provisioner._clone_lxc. cbn [template_map lookup]. intros H.
  destruct (String.eqb oss_type "nginx") eqn:Hoss; [|cbv iota in H; msimp].
  apply String.eqb_eq in Hoss. split; [exact Hoss|].
  cbv iota in H. mstep H as Hclone Hpause.
  apply invoke_exchange in Hclone. destruct Hclone as (ev & -> & T & C & O).
  apply sleep_inv in Hpause; [|lia].
  destruct Hpause as (_ & _ & _ & _ & (T2 & _)).
  eexists. split; [rewrite T2, T, <- app_assoc; reflexivity|].
  unfold exchanges. cbn. now rewrite C, O.
Qed.

Lemma start_lxc_ok vmid (s s' : State) o :
  Provisioner._start_lxc self vmid s = (Ok tt, s', o) ->
  exists evs,
    trace s' = (trace s ++ evs)%list
    /\ exchanges evs
       = [ (LxcStart (node self) vmid, Returned VUnit);
           (Sleep 3, Returned VUnit) ].
Proof.
  unfold Provisioner._start_lxc. intros H. mstep H as Hstart Hpause.
  apply invoke_exchange in Hstart. destruct Hstart as (ev & -> & T & C & O).
  apply sleep_inv in Hpause; [|lia].
  destruct Hpause as (_ & _ & _ & _ & (T2 & _)).
  eexists. split; [rewrite T2, T, <- app_assoc; reflexivity|].
  unfold exchanges. cbn. now rewrite C, O.
Qed.

Lemma upload_metadata_ok vmid metadata (s s' : State) o :
  Provisioner._upload_metadata self vmid metadata s = (Ok tt, s', o) ->
  exists ev status,
    trace s' = (trace s ++ [ev])%list
    /\ exchanges [ev]
       = [ (HttpPut (metadata_url self (Py.str_int vmid))
                    (Json.dumps_indent2 metadata),
            Returned (VInt status)) ]
    /\ Provisioner.upload_ok status = true.
Proof.
  unfold Provisioner._upload_metadata. intros H. mstep H as Hput Hcheck.
  apply invoke_exchange in Hput. destruct Hput as (ev & -> & T & C & O).
  exists ev, a.
  destruct (Provisioner.upload_ok a) eqn:Hok; cbn [negb] in Hcheck; msimp.
  split; [exact T|]. split; [|reflexivity].
  unfold exchanges. cbn. now rewrite C, O.
Qed.

Lemma wait_for_ready_ok url timeout (s s' : State) b o :
  Provisioner._wait_for_ready url timeout s = (Ok b, s', o) ->
  exists rounds final status,
    trace s' = (trace s ++ rounds ++ [final])%list
    /\ retry_rounds url rounds
    /\ call final = HttpGet url
    /\ outcome final = Returned (VInt status)
    /\ status < 500.
Proof.
  unfold Provisioner._wait_for_ready. intros H. mstep H as Hstart Hloop.
  destruct (wait_fuel_enough timeout s) as (F1 & F2).
  destruct (wait_loop_outcome _ _ _ _ _ _ _ _ F1 F2 Hloop)
    as (evs & (Ht & _) & _ & _ & pre & p & st & -> & Hpre & Cp & Op & Hst).
  now exists pre, p, st.
Qed.

(** A run of the ten steps that went through. *)
Lemma provision_try_ok customer_email oss_type subdomain (s s' : State)
  result o :
  Provisioner.provision_try self customer_email oss_type subdomain s
  = (Ok result, s', o) ->
  oss_type = "nginx"
  /\ exists used vmid old_tunnels secret t token old_records record now
            status main rounds final answer,
      trace s' = (trace s ++ main ++ rounds ++ [final])%list
      /\ exchanges main
         = saga_script self customer_email subdomain used vmid old_tunnels
             secret t token old_records record
             (replace "+00:00" "Z" (isoformat_utc now)) status
      /\ 9000 <= vmid < 10000
      /\ ~ In vmid used
      /\ (forall u, 9000 <= u < vmid -> In u used)
      /\ Provisioner.upload_ok status = true
      /\ retry_rounds ("https://" ++ subdomain ++ "." ++ domain self) rounds
      /\ call final = HttpGet ("https://" ++ subdomain ++ "." ++ domain self)
      /\ outcome final = Returned (VInt answer)
      /\ answer < 500
      /\ clock s <= now <= clock s'
      /\ result
         = [ ("vmid", PInt vmid); ("tunnel_id", PStr (Remote.id t));
             ("url", PStr ("https://" ++ subdomain ++ "." ++ domain self));
             ("status", PStr "active") ].
Proof.
  intros H.
  unfold Provisioner.provision_try, Provisioner.record_resource in H.
  repeat match goal with
    | H : bind _ _ _ = _ |- _ =>
        let R1 := fresh "R" in let R2 := fresh "R" in mstep H as R1 R2
    end.
  repeat match goal with u : unit |- _ => destruct u end.
  repeat match goal with
    | H : Provisioner._get_next_vmid _ = _ |- _ =>
        pose proof (quiet_clock _ _ _ _ _ _ get_next_vmid_quiet H);
        apply get_next_vmid_ok in H;
        destruct H as (ev1 & used & T1 & X1 & Hrange & Hfree & Hmin)
    | H : Provisioner._create_tunnel _ _ _ _ = _ |- _ =>
        pose proof (quiet_clock _ _ _ _ _ _ (create_tunnel_quiet self _ _) H);
        apply create_tunnel_run in H;
        destruct H as (evT & TT & old_tunnels & secret & XT)
    | H : Provisioner._get_tunnel_token _ _ _ = _ |- _ =>
        pose proof (quiet_clock _ _ _ _ _ _ (get_tunnel_token_quiet self _) H);
        apply invoke_exchange in H; destruct H as (evK & _ & TK & CK & OK)
    | H : Provisioner._create_dns_record _ _ _ _ = _ |- _ =>
        pose proof (quiet_clock _ _ _ _ _ _
                      (create_dns_record_quiet self _ _) H);
        apply create_dns_record_run in H;
        destruct H as (evD & TD & old_records & record & Hid & XD)
    | H : Provisioner._create_metadata _ _ _ _ _ _ _ = _ |- _ =>
        unfold Provisioner._create_metadata in H; mstep H as Hnow Hdict
    | H : Provisioner._upload_metadata _ _ _ _ = _ |- _ =>
        pose proof (quiet_clock _ _ _ _ _ _ (upload_metadata_quiet self _ _) H);
        apply upload_metadata_ok in H;
        destruct H as (evU & status & TU & XU & Hstatus)
    | H : Provisioner._clone_lxc _ _ _ _ _ = _ |- _ =>
        pose proof (quiet_clock _ _ _ _ _ _ (clone_lxc_quiet self _ _ _) H);
        apply clone_lxc_ok in H; destruct H as (Hoss & evL & TL & XL)
    | H : Provisioner._start_lxc _ _ _ = _ |- _ =>
        pose proof (quiet_clock _ _ _ _ _ _ (start_lxc_quiet self _) H);
        apply start_lxc_ok in H; destruct H as (evS & TS & XS)
    | H : Provisioner._wait_for_ready _ _ _ = _ |- _ =>
        pose proof (quiet_clock _ _ _ _ _ _ (wait_for_ready_quiet _ _) H);
        apply wait_for_ready_ok in H;
        destruct H as (rounds & final & answer & TW & Hrounds & CF & OF & Hans)
    end.
  subst oss_type. split; [reflexivity|].
  match goal with
  | H : Provisioner._configure_tunnel _ _ _ _ _ = _ |- _ =>
      pose proof (quiet_clock _ _ _ _ _ _
                    (configure_tunnel_quiet self _ _ _) H);
      unfold Provisioner._configure_tunnel in H;
      cbn [port_map lookup String.eqb Ascii.eqb Bool.eqb] in H;
      apply invoke_exchange in H; destruct H as (evC & _ & TC & CC & OC)
  end.
  cbn [trace clock set_created_resources] in *.
  exists used. do 9 eexists.
  exists (ev1 :: evT ++ [evK; evC] ++ evD ++ [evU] ++ evL ++ evS)%list,
    rounds, final, answer.
  split; [|split; [|split; [exact Hrange|split; [exact Hfree|
          split; [exact Hmin|
          split; [exact Hstatus|split; [exact Hrounds|split; [exact CF|
          split; [exact OF|split; [exact Hans|split; [|reflexivity]]]]]]]]]]].
  - rewrite TW, TS, TL, TU, TD, TC, TK, TT, T1.
    repeat (progress (rewrite <- ?app_assoc; cbn [app])). reflexivity.
  - rewrite exchanges_cons, !exchanges_app, XT, XD, XL, XS, XU.
    injection X1 as C1 O1. rewrite C1, O1.
    unfold exchanges at 1. cbn [map]. rewrite CK, OK, CC, OC.
    unfold saga_script.
    repeat (progress (rewrite <- ?app_assoc; cbn [app])). reflexivity.
  - lia.
Qed.

End Order.

(** X7.  The calls of a provisioning that succeeds, on any platform, each
    with the answer it got, in the order they are issued.  A provisioner
    not yet connected connects first.  Then: the identifiers in use are
    read, and the identifier of the run is the smallest of 9000..9999 not
    among them; tunnels are listed under the name
    [service-<vmid>-<subdomain>], each tunnel of the listing with exactly
    this name is deleted and no other, a 32-byte secret is drawn and the
    tunnel is created with the secret drawn; the token of the tunnel
    created is read; its ingress is set; DNS records are listed under the
    full host name, each record of the listing with exactly this name is
    deleted and no other, and the CNAME record pointing at the tunnel
    created is made; the metadata document, holding the identifier, the
    host name, the customer, the URL and the token read, is put on the file
    server under the identifier and accepted; only then is the template
    cloned and, after five seconds, the container started; after three more
    seconds the URL is probed every ten seconds, each probe but the last
    finding the service not ready.  The result names the identifier and the
    tunnel of these calls.  Such a run is one for [nginx] on a name the
    validator accepts. *)
Theorem provision_call_order :
  forall W (P : Platform W) self customer_email oss_type subdomain
         duration_days (s s' : @State W) result o,
    Provisioner.provision self customer_email oss_type subdomain
      duration_days s = (Ok result, s', o) ->
    oss_type = "nginx"
    /\ Provisioner_validate._validate_subdomain subdomain = Ok tt
    /\ exists used vmid old_tunnels secret t token old_records record now
              status conn main rounds final answer,
        trace s' = (trace s ++ conn ++ main ++ rounds ++ [final])%list
        /\ map call conn
           = (if proxmox s && cf s then [] else connect_calls self)
        /\ forallb (fun ev => negb (failed ev)) conn = true
        /\ exchanges main
           = saga_script self customer_email subdomain used vmid old_tunnels
               secret t token old_records record
               (replace "+00:00" "Z" (isoformat_utc now)) status
        /\ 9000 <= vmid < 10000
        /\ ~ In vmid used
        /\ (forall u, 9000 <= u < vmid -> In u used)
        /\ Provisioner.upload_ok status = true
        /\ retry_rounds ("https://" ++ subdomain ++ "." ++ domain self) rounds
        /\ call final
           = HttpGet ("https://" ++ subdomain ++ "." ++ domain self)
        /\ outcome final = Returned (VInt answer)
        /\ answer < 500
        /\ clock s <= now <= clock s'
        /\ result
           = [ ("vmid", PInt vmid); ("tunnel_id", PStr (Remote.id t));
               ("url", PStr ("https://" ++ subdomain ++ "." ++ domain self));
               ("status", PStr "active") ].
Proof.
  intros W P self customer_email oss_type subdomain duration_days s s'
         result o H.
  rewrite provision_entry in H.
  destruct (bind _ _ s) as [[r0 s0] o0] eqn:Hrun.
  injection H as -> -> _.
  mstep Hrun as Hval H1. symmetry in Hval.
  mstep H1 as Hoss H2. mstep H2 as Hp H3. mstep H3 as Hc H4.
  mstep H4 as Hconn H5. mstep H5 as Hput Htry.
  assert (Hs : s0 = s).
  { destruct (negb (supported oss_type)); msimp. reflexivity. }
  subst s0. clear Hoss.
  assert (Hbody : exists ob,
             Provisioner.provision_try self customer_email oss_type
               subdomain (set_created_resources [] s1) = (Ok result, s', ob)).
  { minv_as Htry Hb Hh; [|eexists; exact Hb].
    unfold Provisioner.provision_except in Hh.
    mstep Hh as Hprint Hh1. mstep Hh1 as Hget Hh2. mstep Hh2 as Hrb Hraise. }
  clear Htry. destruct Hbody as (ob & Hbody).
  destruct (provision_try_ok self _ _ _ _ _ _ _ Hbody)
    as (-> & used & vmid & old_tunnels & secret & t & token & old_records
        & record & now & status & main & rounds & final & answer
        & Ht & Hmain & Hrange & Hfree & Hmin & Hst & Hrounds & CF & OF
        & Hans & Hnow & Hres).
  cbn [trace clock set_created_resources] in *.
  split; [reflexivity|]. split; [destruct a; exact Hval|].
  assert (Hpre : exists conn,
             trace s1 = (trace s ++ conn)%list
             /\ map call conn
                = (if proxmox s && cf s then [] else connect_calls self)
             /\ forallb (fun ev => negb (failed ev)) conn = true
             /\ clock s <= clock s1).
  { destruct (proxmox s && cf s) eqn:Hb.
    - apply andb_true_iff in Hb. destruct Hb as (Hb1 & Hb2).
      rewrite Hb1, Hb2 in Hconn. cbn [negb orb] in Hconn. msimp.
      exists []. rewrite app_nil_r. repeat split. lia.
    - replace (negb (proxmox s) || negb (cf s)) with true in Hconn
        by (destruct (proxmox s), (cf s); simpl in *; congruence).
      pose proof (connect_clock self _ _ _ _ Hconn).
      destruct (connect_run self _ _ _ _ Hconn)
        as (conn & T0 & _ & _ & _ & _ & _ & C0 & F0). now exists conn. }
  destruct Hpre as (conn & T0 & C0 & F0 & K0).
  exists used, vmid, old_tunnels, secret, t, token, old_records, record, now,
    status, conn, main, rounds, final, answer.
  split; [rewrite Ht, T0, <- !app_assoc; reflexivity|].
  split; [exact C0|]. split; [exact F0|]. split; [exact Hmain|].
  split; [exact Hrange|]. split; [exact Hfree|]. split; [exact Hmin|].
  split; [exact Hst|]. split; [exact Hrounds|]. split; [exact CF|].
  split; [exact OF|]. split; [exact Hans|]. split; [lia|exact Hres].
Qed.

Lemma provision_call_order_witness :
  exists (s' : @State Fake.World) result o conn main rounds final used vmid
         old_tunnels secret t token old_records record created_at status,
    Provisioner.provision demo_self "a@b.com" "nginx" "demo7" 7
      (Fake.initial (Fake.empty "persys.jp")) = (Ok result, s', o)
    /\ trace s' = (conn ++ main ++ rounds ++ [final])%list
    /\ map call conn = connect_calls demo_self
    /\ exchanges main
       = saga_script demo_self "a@b.com" "demo7" used vmid old_tunnels secret
           t token old_records record created_at status
    /\ call final = HttpGet "https://demo7.persys.jp".
Proof.
  pose (run := Provisioner.provision demo_self "a@b.com" "nginx" "demo7" 7
                 (Fake.initial (Fake.empty "persys.jp"))).
  assert (Hrun : exists result, fst (fst run) = Ok result)
    by (vm_compute; eexists; reflexivity).
  destruct Hrun as (result & Hrun). apply run_eq in Hrun.
  destruct (provision_call_order _ _ _ _ _ _ _ _ _ _ _ Hrun)
    as (_ & _ & used & vmid & old_tunnels & secret & t & token & old_records
        & record & now & status & conn & main & rounds & final & answer
        & Ht & Hconn & _ & Hmain & _ & _ & _ & _ & _ & CF & _).
  exists (snd (fst run)), result, (snd run), conn, main, rounds, final, used,
    vmid, old_tunnels, secret, t, token, old_records, record,
    (replace "+00:00" "Z" (isoformat_utc now)), status.
  split; [exact Hrun|]. split; [exact Ht|]. split; [exact Hconn|].
  split; [exact Hmain|exact CF].
Defined.

(** ** The availability route *)

Section Availability.

Context {W : Type} {P : Platform W} (settings : Self).

Local Abbreviation State := (@State W).

Lemma no_record_named_false fqdn records :
  Routes.no_record_named fqdn records = false
  <-> exists record, In record records /\ Remote.name record = fqdn.
Proof.
  induction records as [|x records IH]; cbn.
  - split; [discriminate|intros (? & [] & _)].
  - destruct (String.eqb (Remote.name x) fqdn) eqn:E.
    + split; [|reflexivity]. intros _. exists x.
      apply String.eqb_eq in E. auto.
    + rewrite IH. apply String.eqb_neq in E.
      split; intros (y & Hy & Hn); exists y; [auto|].
      destruct Hy as [<-|Hy]; [contradiction|auto].
Qed.

(** What [_check_dns] does, whatever the platform answers. *)
Lemma check_dns_run subdomain (s s' : State) r o :
  Routes._check_dns settings subdomain s = (r, s', o) ->
  let fqdn := subdomain ++ "." ++ domain settings in
  exists evs,
    extends s s' evs /\ o = [] /\ created evs = []
    /\ map call evs
       = firstn (List.length evs)
           [ CloudflareClient (cloudflare_token settings);
             DnsList (cloudflare_zone_id settings) fqdn ]
    /\ match r with
       | Ok available =>
           exists listed,
             map outcome evs = [Returned VUnit; Returned (VObjs listed)]
             /\ (available = false
                 <-> exists record,
                     In record listed /\ Remote.name record = fqdn)
       | Raise e => last (map outcome evs) (Returned VUnit) = Raised e
       | OutOfFuel => False
       end.
Proof.
  intros H. cbv zeta. unfold Routes._check_dns in H.
  assert (Hi : forall {A} c (op : W -> Reply W A) enc (x x' : State) rx ox,
             invoke c op enc x = (rx, x', ox) ->
             ox = []
             /\ exists oc,
                 extends x x' [mkEvent (clock x) c oc]
                 /\ match rx with
                    | Ok a => oc = Returned (enc a)
                    | Raise e => oc = Raised e
                    | OutOfFuel => False
                    end).
  { intros A c op enc x x' rx ox Hx. apply invoke_inv in Hx.
    destruct Hx as (-> & _ & _ & oc & E & Ha). split; [reflexivity|].
    exists oc. split; [exact E|].
    destruct (answer (op (world x))); destruct Ha as (-> & ->); reflexivity. }
  mstep H as Hcf H1.
  - mstep H1 as Hlist Hret.
    + apply Hi in Hcf. destruct Hcf as (-> & oc1 & E1 & ->).
      apply Hi in Hlist. destruct Hlist as (-> & oc2 & E2 & ->).
      eexists. split; [eapply extends_trans; eauto|].
      split; [reflexivity|]. split; [reflexivity|]. split; [reflexivity|].
      exists a0. split; [reflexivity|]. apply no_record_named_false.
    + apply Hi in Hcf. destruct Hcf as (-> & oc1 & E1 & ->).
      apply Hi in Hlist. destruct Hlist as (-> & oc2 & E2 & ->).
      eexists. split; [eapply extends_trans; eauto|].
      repeat split; reflexivity.
    + apply Hi in Hlist. destruct Hlist as (_ & _ & _ & []).
  - apply Hi in Hcf. destruct Hcf as (-> & oc1 & E1 & ->).
    eexists. split; [exact E1|]. repeat split; reflexivity.
  - apply Hi in Hcf. destruct Hcf as (_ & _ & _ & []).
Qed.

End Availability.

(** The two validators, rule by rule. *)
Lemma validators_rules :
  forall subdomain,
    (Routes_subdomain._validate_subdomain subdomain = Ok tt
     <-> Provisioner_validate._validate_subdomain subdomain = Ok tt)
    /\ (forall e,
           Routes_subdomain._validate_subdomain subdomain = Raise e ->
           exists rule,
             e = HTTPException 400 rule
             /\ Provisioner_validate._validate_subdomain subdomain
                = Raise (ValueError rule))
    /\ (forall e,
           Provisioner_validate._validate_subdomain subdomain = Raise e ->
           exists rule,
             e = ValueError rule
             /\ Routes_subdomain._validate_subdomain subdomain
                = Raise (HTTPException 400 rule)).
Proof.
  intros subdomain.
  unfold Routes_subdomain._validate_subdomain,
    Provisioner_validate._validate_subdomain.
  destruct (12 <? Py.len subdomain);
    [|destruct (negb (Py.re_match_subdomain subdomain));
      [|destruct (Py.startswith "-" subdomain || Py.endswith "-" subdomain)]].
  all: split; [split; intros H; (discriminate H || reflexivity)|].
  all: split; intros e H; try discriminate H;
    injection H as <-; eexists; split; reflexivity.
Qed.

(** X8.  The validator of the API routes and the validator of the
    provisioner apply the same rules in the same order: they accept the
    same names, and when one rejects a name for a rule the other rejects it
    for that rule, the route with an [HTTPException] of status 400 where
    the provisioner raises a [ValueError].  So no name that passed the
    route is turned down by [provision] for its form. *)
Theorem validators_agree :
  forall subdomain,
    (Routes_subdomain._validate_subdomain subdomain = Ok tt
     <-> Provisioner_validate._validate_subdomain subdomain = Ok tt)
    /\ (forall e,
           Routes_subdomain._validate_subdomain subdomain = Raise e ->
           exists rule,
             e = HTTPException 400 rule
             /\ Provisioner_validate._validate_subdomain subdomain
                = Raise (ValueError rule))
    /\ (forall e,
           Provisioner_validate._validate_subdomain subdomain = Raise e ->
           exists rule,
             e = ValueError rule
             /\ Routes_subdomain._validate_subdomain subdomain
                = Raise (HTTPException 400 rule)).
Proof. exact validators_rules. Qed.

Lemma validators_agree_witness :
  Provisioner_validate._validate_subdomain "-demo"
  = Raise (ValueError (HyphenEdge "-demo")).
Proof.
  destruct (proj1 (proj2 (validators_agree "-demo")) _ eq_refl)
    as (rule & Hr & Hp).
  injection Hr as <-. exact Hp.
Defined.

(** X9.  [check_subdomain] answers a name the validator rejects with the
    [HTTPException] of status 400 and without any external call.  For
    every other name it only reads: it builds a Cloudflare client and
    lists the DNS records under [<subdomain>.<domain>], creates and deletes
    nothing, prints nothing and leaves the provisioner alone.  Its answer
    echoes the name, and says "not available" exactly when the listing
    holds a record whose name is exactly that host name; an error of one of
    the two calls is passed on. *)
Theorem check_subdomain_outcome :
  forall W (P : Platform W) settings subdomain (s s' : @State W) r o,
    Routes.check_subdomain settings subdomain s = (r, s', o) ->
    let fqdn := subdomain ++ "." ++ domain settings in
    exists evs,
      extends s s' evs /\ o = [] /\ created evs = []
      /\ map call evs
         = firstn (List.length evs)
             [ CloudflareClient (cloudflare_token settings);
               DnsList (cloudflare_zone_id settings) fqdn ]
      /\ (Routes_subdomain._validate_subdomain subdomain <> Ok tt ->
          evs = []
          /\ exists rule, r = Raise (HTTPException 400 rule))
      /\ match r with
         | Ok answer =>
             exists available listed,
               answer = [ ("available", PBool available);
                          ("subdomain", PStr subdomain) ]
               /\ map outcome evs = [Returned VUnit; Returned (VObjs listed)]
               /\ (available = false
                   <-> exists record,
                       In record listed /\ Remote.name record = fqdn)
         | Raise e =>
             Routes_subdomain._validate_subdomain subdomain = Raise e
             \/ last (map outcome evs) (Returned VUnit) = Raised e
         | OutOfFuel => False
         end.
Proof.
  intros W P settings subdomain s s' r o H fqdn.
  unfold Routes.check_subdomain in H.
  destruct (Routes_subdomain._validate_subdomain subdomain) as [[]|e|] eqn:Hv.
  - (* the name is accepted *)
    unfold bind at 1 in H. unfold lift at 1 in H. cbv iota beta in H.
    destruct (Routes._check_dns settings subdomain s) as [[r1 s1] o1] eqn:Hc.
    destruct (check_dns_run settings _ _ _ _ _ Hc)
      as (evs & Ext & -> & Hcr & Hcalls & Hr).
    exists evs.
    assert (Hs : s' = s1 /\ o = []
                 /\ r = match r1 with
                        | Ok a => Ok [ ("available", PBool a);
                                       ("subdomain", PStr subdomain) ]
                        | Raise e => Raise e
                        | OutOfFuel => OutOfFuel
                        end).
    { unfold bind, ret in H. rewrite Hc in H. destruct r1; inversion H; auto. }
    destruct Hs as (-> & -> & ->).
    split; [exact Ext|]. split; [reflexivity|]. split; [exact Hcr|].
    split; [exact Hcalls|]. split; [intros Hne; now elim Hne|].
    destruct r1 as [a|e|]; [|right; exact Hr|exact Hr].
    destruct Hr as (listed & Ho & Hiff). exists a, listed. auto.
  - (* the name is rejected *)
    unfold bind at 1 in H. unfold lift at 1 in H. cbv iota beta in H.
    inversion H; subst. exists []. split; [apply extends_refl|].
    split; [reflexivity|]. split; [reflexivity|]. split; [reflexivity|].
    split; [|left; reflexivity].
    intros _. split; [reflexivity|].
    destruct (proj1 (proj2 (validators_rules subdomain)) _ Hv)
      as (rule & -> & _).
    now exists rule.
  - exfalso. unfold Routes_subdomain._validate_subdomain in Hv.
    repeat match type of Hv with
           | (if ?c then _ else _) = _ => destruct c
           end; discriminate Hv.
Qed.

Lemma check_subdomain_outcome_witness :
  exists s' answer,
    Routes.check_subdomain demo_self "demo7" (Fake.initial occupied)
    = (Ok answer, s', [])
    /\ answer = [("available", PBool false); ("subdomain", PStr "demo7")].
Proof.
  destruct (Routes.check_subdomain demo_self "demo7" (Fake.initial occupied))
    as [[r s'] o] eqn:Hrun.
  assert (Hr : r = Ok [("available", PBool false);
                       ("subdomain", PStr "demo7")]).
  { apply (f_equal (fun x => fst (fst x))) in Hrun.
    vm_compute in Hrun. symmetry. exact Hrun. }
  subst r.
  destruct (check_subdomain_outcome _ _ _ _ _ _ _ _ Hrun)
    as (evs & _ & -> & _).
  eexists _, _. split; reflexivity.
Defined.

(** ** The availability route against the zone it reads *)

Section AvailabilityOnZone.

Import Fake.

Variable settings : Self.

Local Abbreviation State := (@State World).

Lemma no_record_named_filter fqdn records :
  Routes.no_record_named fqdn (filter (named fqdn) records) = true
  <-> filter (named fqdn) records = [].
Proof.
  destruct (filter (named fqdn) records) as [|x l] eqn:E; [tauto|].
  assert (Hx : named fqdn x = true).
  { apply (proj1 (filter_In (named fqdn) x records)). rewrite E. now left. }
  unfold named in Hx. cbn. rewrite Hx. split; discriminate.
Qed.

(** On the fake platform an answer of [_check_dns] is the state of the
    zone, which it leaves as it is. *)
Lemma check_dns_answer subdomain (s s' : State) available o :
  Routes._check_dns settings subdomain s = (Ok available, s', o) ->
  world s' = world s
  /\ (available = true
      <-> filter (named (subdomain ++ "." ++ domain settings))
                 (records (world s)) = []).
Proof.
  unfold Routes._check_dns. intros H.
  mstep H as Hcf H1. mstep H1 as Hlist Hret.
  unfold invoke in Hcf. cbn [cloudflare_client platform] in Hcf.
  unfold guarded in Hcf.
  destruct (faults (world s) _); [discriminate Hcf|].
  cbn in Hcf. injection Hcf as _ <- _.
  unfold invoke in Hlist. cbn [dns_list platform world set_world set_clock
                               set_trace] in Hlist.
  unfold guarded in Hlist.
  destruct (faults _ _); [discriminate Hlist|].
  cbn in Hlist. injection Hlist as <- <- _.
  split; [destruct (world s); reflexivity|].
  cbn [world]. apply no_record_named_filter.
Qed.

Lemma check_dns_returns subdomain (s : State) :
  (forall c, faults (world s) c = None) ->
  exists available s',
    Routes._check_dns settings subdomain s = (Ok available, s', []).
Proof.
  intros Hf. unfold Routes._check_dns.
  eexists _, _. eapply bind_run_ok with (o1 := []).
  { apply invoke_returned. cbn [cloudflare_client platform].
    now rewrite guarded_none by apply Hf. }
  eapply bind_run_ok with (o1 := []).
  { apply invoke_returned. cbn [dns_list platform].
    rewrite guarded_none by apply Hf. reflexivity. }
  reflexivity.
Qed.

End AvailabilityOnZone.

(** X10.  The availability route and the provisioner name a record the same
    way.  On the fake platform, whose zone stores a record under its full
    host name: [_check_dns] answers "available" exactly when the zone holds
    no record named [<subdomain>.<domain>], and leaves the zone as it is;
    when no call fails it always answers; and once [_create_dns_record] has
    created the record of a subdomain, every answer of [_check_dns] for
    this subdomain is "not available". *)
Theorem check_dns_after_create :
  forall settings subdomain tunnel_id (s : @State Fake.World),
    (forall c, Fake.faults (world s) c = None) ->
    NoDup (Fake.ids (Fake.records (world s))) ->
    Fake.zone (world s) = domain settings ->
    (exists available s1,
        Routes._check_dns settings subdomain s = (Ok available, s1, [])
        /\ world s1 = world s
        /\ (available = true
            <-> filter (Fake.named (subdomain ++ "." ++ domain settings))
                       (Fake.records (world s)) = []))
    /\ exists record_id s' o,
        Provisioner._create_dns_record settings subdomain tunnel_id s
        = (Ok record_id, s', o)
        /\ forall available s2 o2,
            Routes._check_dns settings subdomain s' = (Ok available, s2, o2) ->
            available = false.
Proof.
  intros settings subdomain tunnel_id s Hf Hnd Hz. split.
  - destruct (check_dns_returns settings subdomain s Hf) as (b & s1 & Hrun).
    destruct (check_dns_answer settings _ _ _ _ _ Hrun) as (Hw & Hb).
    exists b, s1. auto.
  - destruct (create_dns_record_replaces settings subdomain tunnel_id s
                Hf Hnd Hz)
      as (r & s' & o & evs & Hrun & _ & _ & Hone & _).
    exists (Remote.id r), s', o. split; [exact Hrun|].
    intros b s2 o2 Hc.
    destruct (check_dns_answer settings _ _ _ _ _ Hc) as (_ & Hb).
    destruct b; [|reflexivity].
    rewrite Hone in Hb. destruct Hb as [Hb _]. discriminate (Hb eq_refl).
Qed.

Lemma check_dns_after_create_witness :
  exists available s1,
    Routes._check_dns demo_self "demo7"
      (Fake.connected (Fake.empty "persys.jp")) = (Ok available, s1, [])
    /\ available = true.
Proof.
  destruct (proj1 (check_dns_after_create demo_self "demo7" "i"
                     (Fake.connected (Fake.empty "persys.jp"))
                     (fun c => eq_refl) (NoDup_nil _) eq_refl))
    as (b & s1 & Hrun & _ & Hb).
  exists b, s1. split; [exact Hrun|]. apply Hb. reflexivity.
Defined.

(** ** What a failed run leaves behind *)

(** X11.  Whichever operation fails, and with whatever error, a run of
    [provision] that raises leaves nothing behind.  On the fake platform,
    empty at the start, with every call of one operation raising [e] and
    all other calls answered, provisioning [demo7] either returns its
    result or raises and leaves no tunnel, no DNS record, no metadata
    document and no container, provided the failing operation is not one of
    the four deletes the rollback itself relies on.  This covers a failure
    in each of the ten steps and in the connection, a stop that fails
    during the rollback, and a probe that never connects until the wait
    times out. *)
Theorem failed_run_leaves_nothing :
  forall c e customer_email duration_days,
    is_delete c = false ->
    let '(r, s', _) :=
      Provisioner.provision demo_self customer_email "nginx" "demo7"
        duration_days
        (Fake.initial
           (Fake.with_faults (fails_like c e) (Fake.empty "persys.jp"))) in
    match r with
    | Ok result => dict_get "status" result = Some (PStr "active")
    | Raise _ => nothing_left (world s')
    | OutOfFuel => False
    end.
Proof.
  intros c e customer_email duration_days Hc.
  destruct c; try discriminate Hc; clear Hc;
    destruct e; vm_compute; repeat split.
Qed.

Lemma failed_run_leaves_nothing_witness :
  let '(r, s', _) :=
    Provisioner.provision demo_self "a@b.com" "nginx" "demo7" 7
      (Fake.initial
         (Fake.with_faults
            (fails_like (LxcStart "" 0) (RemoteError "start failed"))
            (Fake.empty "persys.jp"))) in
  r = Raise (RemoteError "start failed") /\ nothing_left (world s').
Proof.
  pose proof (failed_run_leaves_nothing (LxcStart "" 0)
                (RemoteError "start failed") "a@b.com" 7 eq_refl) as H.
  destruct (Provisioner.provision demo_self "a@b.com" "nginx" "demo7" 7 _)
    as [[r s'] o] eqn:Hrun.
  assert (Hr : r = Raise (RemoteError "start failed")).
  { apply (f_equal (fun x => fst (fst x))) in Hrun.
    vm_compute in Hrun. symmetry. exact Hrun. }
  subst r. split; [reflexivity|exact H].
Defined.

(** ** The metadata document *)

Lemma replace_utc_offset (t : string) :
  Py.all_chars (fun c => negb (Ascii.eqb c "+")) t = true ->
  replace "+00:00" "Z" (t ++ "+00:00") = t ++ "Z".
Proof.
  unfold replace. induction t as [|c t IH]; intros H; [reflexivity|].
  cbn [Py.all_chars] in H. apply andb_true_iff in H. destruct H as (Hc & Ht).
  cbn [append replace_from String.prefix].
  destruct (ascii_dec "+" c) as [<-|Hne]; [discriminate Hc|].
  rewrite (IH Ht). reflexivity.
Qed.

(** X12.  [_create_metadata] calls nothing, changes nothing and cannot
    fail.  Its document has the eight entries [vmid], [hostname],
    [subdomain], [customer_email], [oss_type], [url], [tunnel_token],
    [created_at] in this order, the host name being the subdomain and the
    URL the one [provision] returns; the creation time is the current UTC
    time in ISO format with the offset [+00:00] written as [Z]. *)
Theorem create_metadata_document :
  forall W (P : Platform W) self vmid email subdomain oss_type tunnel_token
         (s : @State W) t,
    isoformat_utc (clock s) = t ++ "+00:00" ->
    Py.all_chars (fun c => negb (Ascii.eqb c "+")) t = true ->
    Provisioner._create_metadata self vmid email subdomain oss_type
      tunnel_token s
    = (Ok (metadata_document self vmid email subdomain oss_type tunnel_token
             (t ++ "Z")), s, [])
    /\ keys (metadata_document self vmid email subdomain oss_type
               tunnel_token (t ++ "Z"))
       = [ "vmid"; "hostname"; "subdomain"; "customer_email"; "oss_type";
           "url"; "tunnel_token"; "created_at" ]
    /\ dict_get "hostname"
         (metadata_document self vmid email subdomain oss_type tunnel_token
            (t ++ "Z")) = Some (PStr subdomain).
Proof.
  intros W P self vmid email subdomain oss_type tunnel_token s t Hiso Ht.
  split; [|split; reflexivity].
  unfold Provisioner._create_metadata, bind, time_time, get, ret,
    metadata_document.
  rewrite Hiso, (replace_utc_offset t Ht). reflexivity.
Qed.

Lemma create_metadata_document_witness :
  Provisioner._create_metadata demo_self 9000 "a@b.com" "demo7" "nginx"
    "token-i" (Fake.connected (Fake.empty "persys.jp"))
  = (Ok (metadata_document demo_self 9000 "a@b.com" "demo7" "nginx" "token-i"
           "T0Z"),
     Fake.connected (Fake.empty "persys.jp"), []).
Proof.
  exact (proj1 (create_metadata_document _ _ demo_self 9000 "a@b.com" "demo7"
                  "nginx" "token-i" (Fake.connected (Fake.empty "persys.jp"))
                  "T0" eq_refl eq_refl)).
Defined.

(** ** The cached provisioner of the services *)

Section Cache.

Context {W : Type} {P : Platform W} (settings : Self).

Local Abbreviation State := (@State W).

(** A first use of the cached provisioner: the attributes are those of a
    new object, then [connect] runs. *)
Lemma get_provisioner_first (s : State) :
  proxmox s && cf s = false ->
  Api._get_provisioner settings s
  = Provisioner.connect settings (set_cf false (set_proxmox false s)).
Proof.
  intros H. unfold Api._get_provisioner.
  unfold bind at 1. unfold get at 1. unfold bind at 1. unfold get at 1.
  rewrite H. unfold bind at 1. unfold put at 1.
  unfold bind at 1. unfold put at 1.
  destruct (Provisioner.connect _ _) as [[r s'] o]. reflexivity.
Qed.

Lemma get_provisioner_hit (s : State) :
  proxmox s && cf s = true ->
  Api._get_provisioner settings s = (Ok tt, s, []).
Proof.
  intros H. unfold Api._get_provisioner.
  unfold bind at 1. unfold get at 1. unfold bind at 1. unfold get at 1.
  rewrite H. reflexivity.
Qed.

End Cache.

(** The states of the cache, before and after a fetch. *)
Lemma get_provisioner_run :
  forall W (P : Platform W) settings (s s' : @State W) r o,
    Api._get_provisioner settings s = (r, s', o) ->
    (proxmox s && cf s = true -> r = Ok tt /\ s' = s /\ o = [])
    /\ (proxmox s && cf s = false ->
        exists evs,
          trace s' = (trace s ++ evs)%list
          /\ created_resources s' = created_resources s
          /\ map call evs
             = firstn (List.length evs) (connect_calls settings)
          /\ (r = Ok tt -> map call evs = connect_calls settings))
    /\ (r = Ok tt ->
        Api._get_provisioner settings s' = (Ok tt, s', []))
    /\ (forall e, r = Raise e ->
                  proxmox s' && cf s' = false
                  /\ Api._get_provisioner settings s'
                     = Provisioner.connect settings
                         (set_cf false (set_proxmox false s')))
    /\ r <> OutOfFuel.
Proof.
  intros W P settings s s' r o H.
  destruct (proxmox s && cf s) eqn:Hc.
  - rewrite get_provisioner_hit in H by exact Hc.
    injection H as <- <- <-.
    split; [auto|]. split; [discriminate|].
    split; [intros _; now apply get_provisioner_hit|].
    split; [discriminate|discriminate].
  - rewrite get_provisioner_first in H by exact Hc.
    destruct (connect_run settings _ _ _ _ H)
      as (evs & Ht & Hl & _ & _ & Hr).
    cbn [trace created_resources set_cf set_proxmox cf proxmox] in *.
    split; [discriminate|].
    split.
    { intros _. exists evs. split; [exact Ht|]. split; [exact Hl|].
      destruct r as [[]|e|]; [| |destruct Hr].
      - destruct Hr as (_ & _ & Hcalls & _).
        split; [|auto].
        assert (Hn : List.length evs = 5%nat)
          by (rewrite <- (length_map call), Hcalls; reflexivity).
        rewrite Hn, Hcalls. reflexivity.
      - destruct Hr as (_ & _ & Hcalls & _). split; [exact Hcalls|discriminate]. }
    split.
    { intros ->. destruct Hr as (Hp & Hf & _).
      apply get_provisioner_hit. now rewrite Hp, Hf. }
    split.
    { intros e ->. destruct Hr as (_ & _ & _ & Hf & _).
      assert (Hb : proxmox s' && cf s' = false)
        by (rewrite Hf; apply andb_false_r).
      split; [exact Hb|now apply get_provisioner_first]. }
    intros ->. exact Hr.
Qed.

(** X13.  The provisioner of the services is built and connected once.
    While it is connected, fetching it calls nothing and changes nothing.
    A fetch that connects makes the five calls of [connect] on a new
    object; when it returns, the next fetch is a cache hit; when [connect]
    raises, the error is passed on and nothing is cached, so the next
    fetch connects anew. *)
Theorem get_provisioner_cached :
  forall W (P : Platform W) settings (s s' : @State W) r o,
    Api._get_provisioner settings s = (r, s', o) ->
    (proxmox s && cf s = true -> r = Ok tt /\ s' = s /\ o = [])
    /\ (proxmox s && cf s = false ->
        exists evs,
          trace s' = (trace s ++ evs)%list
          /\ created_resources s' = created_resources s
          /\ map call evs
             = firstn (List.length evs) (connect_calls settings)
          /\ (r = Ok tt -> map call evs = connect_calls settings))
    /\ (r = Ok tt ->
        Api._get_provisioner settings s' = (Ok tt, s', []))
    /\ (forall e, r = Raise e ->
                  proxmox s' && cf s' = false
                  /\ Api._get_provisioner settings s'
                     = Provisioner.connect settings
                         (set_cf false (set_proxmox false s')))
    /\ r <> OutOfFuel.
Proof.
  intros W P settings s s' r o H. exact (get_provisioner_run _ _ _ _ _ _ _ H).
Qed.

Lemma get_provisioner_cached_witness :
  exists s',
    Api._get_provisioner demo_self (Fake.initial (Fake.empty "persys.jp"))
    = (Ok tt, s', [L_proxmox_connected "8.2"; L_cloudflare_connected])
    /\ Api._get_provisioner demo_self s' = (Ok tt, s', []).
Proof.
  destruct (Api._get_provisioner demo_self
              (Fake.initial (Fake.empty "persys.jp")))
    as [[r s'] o] eqn:Hrun.
  assert (Hr : r = Ok tt).
  { apply (f_equal (fun x => fst (fst x))) in Hrun.
    vm_compute in Hrun. symmetry. exact Hrun. }
  assert (Ho : o = [L_proxmox_connected "8.2"; L_cloudflare_connected]).
  { apply (f_equal snd) in Hrun. vm_compute in Hrun. symmetry. exact Hrun. }
  subst r o.
  destruct (get_provisioner_cached _ _ _ _ _ _ _ Hrun)
    as (_ & _ & Hhit & _).
  exists s'. split; [reflexivity|exact (Hhit eq_refl)].
Defined.

(** X14.  [run_provision] fetches the provisioner before [provision]
    looks at its input.  With the provisioner connected it is [provision]
    itself, and the result is logged exactly when there is one.  On a
    first use it connects first: when [connect] raises, its error is the
    outcome and [provision] is not entered; when [connect] goes through,
    a name or an environment kind [provision] rejects is rejected only
    after the five calls of the connection, with nothing created and
    nothing rolled back. *)
Theorem run_provision_outcome :
  forall W (P : Platform W) settings customer_email oss_type subdomain
         duration_days (s : @State W),
    let start :=
      Log_provision_start customer_email oss_type subdomain duration_days in
    let run :=
      Provision_service.run_provision settings customer_email oss_type
        subdomain duration_days s in
    (proxmox s && cf s = true ->
     let '(r, s', o) :=
       Provisioner.provision settings customer_email oss_type subdomain
         duration_days s in
     run = (r, s', o,
            match r with
            | Ok result =>
                [start; Log_provision_done (dict_get "vmid" result)
                                           (dict_get "url" result)]
            | _ => [start]
            end))
    /\ (proxmox s && cf s = false ->
        forall r1 s1 o1,
          Provisioner.connect settings (set_cf false (set_proxmox false s))
          = (r1, s1, o1) ->
          match r1 with
          | Raise e => run = (Raise e, s1, o1, [start])
          | Ok _ =>
              forall e,
                (Provisioner_validate._validate_subdomain subdomain = Raise e
                 \/ (Provisioner_validate._validate_subdomain subdomain
                     = Ok tt
                     /\ supported oss_type = false
                     /\ e = ValueError (UnsupportedOss oss_type))) ->
                run = (Raise e, s1,
                       (o1 ++ header settings customer_email oss_type
                                subdomain duration_days)%list,
                       [start])
                /\ exists evs,
                    trace s1 = (trace s ++ evs)%list
                    /\ map call evs = connect_calls settings
                    /\ created evs = []
          | OutOfFuel => False
          end).
Proof.
  intros W P settings customer_email oss_type subdomain duration_days s
         start run.
  split.
  - intros Hc. unfold run, Provision_service.run_provision.
    rewrite get_provisioner_hit by exact Hc.
    destruct (Provisioner.provision _ _ _ _ _ s) as [[r s'] o].
    destruct r; reflexivity.
  - intros Hc r1 s1 o1 Hconn.
    unfold run, Provision_service.run_provision.
    rewrite get_provisioner_first by exact Hc. rewrite Hconn.
    destruct (connect_run settings _ _ _ _ Hconn)
      as (evs & Ht & _ & Hcr & _ & Hr).
    destruct r1 as [[]|e1|]; [|reflexivity|exact Hr].
    intros e He.
    destruct Hr as (_ & _ & Hcalls & _).
    split; [|exists evs; auto].
    destruct (provision_checks_steps settings customer_email oss_type
                subdomain duration_days s1) as (Hbad & Huns).
    destruct He as [Hv|(Hv & Ho & ->)].
    + rewrite (Hbad _ Hv). reflexivity.
    + rewrite (Huns Hv Ho). reflexivity.
Qed.

Lemma run_provision_outcome_witness :
  exists s1 o1,
    Provision_service.run_provision demo_self "a@b.com" "nginx" "DEMO" 7
      (Fake.initial (Fake.empty "persys.jp"))
    = (Raise (ValueError (BadCharset "DEMO")), s1,
       (o1 ++ header demo_self "a@b.com" "nginx" "DEMO" 7)%list,
       [Log_provision_start "a@b.com" "nginx" "DEMO" 7])
    /\ map call (trace s1) = connect_calls demo_self.
Proof.
  destruct (Provisioner.connect demo_self
              (set_cf false
                 (set_proxmox false (Fake.initial (Fake.empty "persys.jp")))))
    as [[r1 s1] o1] eqn:Hconn.
  assert (Hr : r1 = Ok tt).
  { apply (f_equal (fun x => fst (fst x))) in Hconn.
    vm_compute in Hconn. symmetry. exact Hconn. }
  subst r1.
  pose proof (proj2 (run_provision_outcome _ _ demo_self "a@b.com" "nginx"
                       "DEMO" 7 (Fake.initial (Fake.empty "persys.jp")))
                eq_refl _ _ _ Hconn) as H.
  cbv iota in H.
  destruct (H (ValueError (BadCharset "DEMO")) (or_introl eq_refl))
    as (Hrun & evs & Ht & Hcalls & _).
  exists s1, o1. split; [exact Hrun|].
  rewrite Ht. exact Hcalls.
Defined.

(** ** The end of a subscription *)

Section SubscriptionDeleted.

Context {W : Type} {P : Platform W} (settings : Self).

Local Abbreviation State := (@State W).

(** [run_cleanup] fetches the provisioner and then fails on the missing
    method: it raises, and the only calls it can have made are those of a
    connection. *)
Lemma run_cleanup_run vmid tunnel_id subdomain (s s' : State) r o :
  Api.run_cleanup settings vmid tunnel_id subdomain s = (r, s', o) ->
  exists e evs,
    r = Raise e
    /\ trace s' = (trace s ++ evs)%list
    /\ created_resources s' = created_resources s
    /\ map call evs = firstn (List.length evs) (connect_calls settings).
Proof.
  unfold Api.run_cleanup. intros H.
  mstep H as H1 H2.
  assert (Hg : forall rg (sg : State) og,
             Api._get_provisioner settings s = (rg, sg, og) ->
             exists evs,
               trace sg = (trace s ++ evs)%list
               /\ created_resources sg = created_resources s
               /\ map call evs
                  = firstn (List.length evs) (connect_calls settings)).
  { intros rg sg og Hrun.
    destruct (get_provisioner_run _ _ _ _ _ _ _ Hrun) as (Hhit & Hmiss & _).
    destruct (proxmox s && cf s).
    - destruct (Hhit eq_refl) as (_ & -> & _). exists [].
      rewrite app_nil_r. auto.
    - destruct (Hmiss eq_refl) as (evs & Ht & Hl & Hc & _). now exists evs. }
  assert (Hpc : forall (x x' : State) rx ox,
             Api.provisioner_cleanup vmid tunnel_id subdomain x
             = (rx, x', ox) ->
             x' = x /\ exists e, rx = Raise e).
  { intros x x' rx ox Hx. unfold Api.provisioner_cleanup, bind, lift in Hx.
    replace (Api.getattr "cleanup")
      with (Raise (AttributeError "TamesukeProvisioner" "cleanup")
            : Res string) in Hx by (vm_compute; reflexivity).
    inversion Hx; subst. split; [reflexivity|]. now eexists. }
  mstep H2 as H3 H4.
  - destruct (Hg _ _ _ H3) as (evs & Hev).
    mstep H4 as H5 H6; apply Hpc in H5; destruct H5 as (-> & e' & He');
      try discriminate He'.
    exists e, evs. auto.
  - destruct (Hg _ _ _ H3) as (evs & Hev). eexists _, evs. split; eauto.
  - now apply get_provisioner_ends in H3.
Qed.

End SubscriptionDeleted.

(** X15.  What the end of a subscription sets off.  When the metadata of
    the subscription lack the [vmid], the [tunnel_id] or the [subdomain],
    or hold an empty one, the handler logs that it skips the cleanup and
    returns: nothing is called and nothing changes.  When all three are
    given, the handler raises: the error of [int] on a [vmid] that is no
    number, and else the error of [run_cleanup]; no container, tunnel,
    record or document is deleted, the only calls that can occur being
    those of a first connection.  The thank-you mail is never sent:
    whatever the mail service would do, the outcome of the handler is the
    same. *)
Theorem subscription_deleted_outcome :
  forall W (P : Platform W) settings py_int send_thankyou_email subscription
         (s : @State W),
    let metadata := Webhook.subscription_metadata subscription in
    let complete :=
      Webhook.given (Webhook.metadata_get "vmid" metadata)
      && Webhook.given (Webhook.metadata_get "tunnel_id" metadata)
      && Webhook.given (Webhook.metadata_get "subdomain" metadata) in
    let '(r, s', o, logs) :=
      Webhook._handle_subscription_deleted settings py_int
        send_thankyou_email subscription s in
    (complete = false ->
     r = Ok tt /\ s' = s /\ o = []
     /\ logs = [ Log_subscription_deleted
                   (Webhook.metadata_get "vmid" metadata)
                   (Webhook.metadata_get "subdomain" metadata);
                 Log_cleanup_skipped
                   (Webhook.metadata_get "vmid" metadata)
                   (Webhook.metadata_get "tunnel_id" metadata)
                   (Webhook.metadata_get "subdomain" metadata) ])
    /\ (complete = true ->
        exists e evs,
          r = Raise e
          /\ trace s' = (trace s ++ evs)%list
          /\ created_resources s' = created_resources s
          /\ map call evs
             = firstn (List.length evs) (connect_calls settings))
    /\ (forall other_mail_service,
           Webhook._handle_subscription_deleted settings py_int
             other_mail_service subscription s = (r, s', o, logs)).
Proof.
  intros W P settings py_int send subscription s metadata complete.
  unfold Webhook._handle_subscription_deleted.
  fold metadata. fold complete.
  destruct complete eqn:Hc; cbn [negb].
  2:{ split; [auto|]. split; [discriminate|]. intros other. reflexivity. }
  unfold complete in Hc.
  destruct (Webhook.metadata_get "vmid" metadata) as [v|];
    [|discriminate Hc].
  destruct (Webhook.metadata_get "tunnel_id" metadata) as [t|];
    [|rewrite andb_false_r in Hc; discriminate Hc].
  destruct (Webhook.metadata_get "subdomain" metadata) as [d|];
    [|rewrite andb_false_r in Hc; discriminate Hc].
  destruct (py_int v) as [e|vmid].
  { split; [discriminate|]. split; [|intros other; reflexivity].
    intros _. exists e, []. rewrite app_nil_r. auto. }
  destruct (Api.run_cleanup settings vmid t d s) as [[r1 s1] o1] eqn:Hrun.
  destruct (run_cleanup_run settings _ _ _ _ _ _ _ Hrun)
    as (e & evs & -> & Ht & Hl & Hcalls).
  split; [discriminate|]. split; [|intros other; reflexivity].
  intros _. exists e, evs. auto.
Qed.

Lemma subscription_deleted_outcome_witness :
  exists s' o,
    Webhook._handle_subscription_deleted demo_self demo_int
      (fun _ _ => ret tt) demo_subscription
      (Fake.connected (Fake.empty "persys.jp"))
    = (Raise (AttributeError "TamesukeProvisioner" "cleanup"), s', o,
       [Log_subscription_deleted (Some "9000") (Some "demo7")]).
Proof.
  pose proof (subscription_deleted_outcome _ _ demo_self demo_int
                (fun _ _ => ret tt) demo_subscription
                (Fake.connected (Fake.empty "persys.jp"))) as H.
  cbv zeta in H.
  destruct (Webhook._handle_subscription_deleted demo_self demo_int
              (fun _ _ => ret tt) demo_subscription
              (Fake.connected (Fake.empty "persys.jp")))
    as [[[r s'] o] logs] eqn:Hrun.
  destruct H as (_ & Hraise & _).
  destruct (Hraise eq_refl) as (e & evs & -> & _).
  assert (Hr : e = AttributeError "TamesukeProvisioner" "cleanup"
               /\ logs = [Log_subscription_deleted (Some "9000")
                                                   (Some "demo7")]).
  { pose proof (f_equal (fun x => fst (fst (fst x))) Hrun) as H1.
    pose proof (f_equal snd Hrun) as H2.
    vm_compute in H1. vm_compute in H2. split; congruence. }
  destruct Hr as (-> & ->). now exists s', o.
Defined.

(** ** The price table *)

(** X16.  [_get_price_id] has a price for exactly the environment kind
    [nginx] with a duration of 7 or 14 days, and raises its [ValueError]
    for every other pair.  So whatever is sold is an environment kind
    [provision] accepts. *)
Theorem price_only_for_supported :
  forall settings oss_type duration_days,
    (forall price,
        Stripe_service._get_price_id settings oss_type duration_days
        = inr price ->
        supported oss_type = true
        /\ (duration_days = 7 \/ duration_days = 14)
        /\ price = (if duration_days =? 7
                    then Stripe_service.stripe_price_nginx_7d settings
                    else Stripe_service.stripe_price_nginx_14d settings))
    /\ (supported oss_type = true ->
        duration_days = 7 \/ duration_days = 14 ->
        exists price,
          Stripe_service._get_price_id settings oss_type duration_days
          = inr price)
    /\ (forall e,
           Stripe_service._get_price_id settings oss_type duration_days
           = inl e ->
           e = Stripe_service.UnsupportedCombination oss_type duration_days).
Proof.
  intros settings oss_type duration_days.
  unfold Stripe_service._get_price_id, supported.
  cbn [Stripe_service._PRICE_FIELD_MAP Stripe_service.price_field
       template_map map fst existsb].
  rewrite orb_false_r.
  destruct (String.eqb oss_type "nginx") eqn:Ho; cbn [andb].
  - destruct (duration_days =? 7) eqn:H7.
    + apply Z.eqb_eq in H7. split; [|split].
      * intros price H. injection H as <-. auto.
      * intros _ _. now eexists.
      * discriminate.
    + destruct (duration_days =? 14) eqn:H14.
      * apply Z.eqb_eq in H14. split; [|split].
        -- intros price H. injection H as <-. auto.
        -- intros _ _. now eexists.
        -- discriminate.
      * apply Z.eqb_neq in H7, H14. split; [|split].
        -- discriminate.
        -- intros _ [?|?]; contradiction.
        -- intros e H. now injection H as <-.
  - split; [|split].
    + discriminate.
    + discriminate.
    + intros e H. now injection H as <-.
Qed.

Lemma price_only_for_supported_witness :
  exists price,
    Stripe_service._get_price_id
      {| Stripe_service.stripe_price_nginx_7d := "price_7";
         Stripe_service.stripe_price_nginx_14d := "price_14" |} "nginx" 14
    = inr price.
Proof.
  exact (proj1 (proj2 (price_only_for_supported
                         {| Stripe_service.stripe_price_nginx_7d := "price_7";
                            Stripe_service.stripe_price_nginx_14d :=
                              "price_14" |} "nginx" 14))
           eq_refl (or_intror eq_refl)).
Defined.
